(** * DarkExchange escrow bot: a shallow embedding of [main.py]

    The development follows the layout of the Python module:
    - the Python values the code computes with: text as code points,
      binary64 floats, [round(x, 6)];
    - [is_valid_ton_address] and [sanitize_user_input];
    - the two process-wide dictionaries [user_sessions] and
      [escrow_wallets];
    - the handlers of the dispatcher, written in a small state-and-exception
      monad that keeps a log of every call to the outside world;
    - [process_escrow_release], and [monitor_payment] as a task that is
      woken up once per poll;
    - the properties of the escrow lifecycle.

    One update handled by the dispatcher is taken as one step of the
    program.  An awakening of a monitor task is followed from one
    [asyncio.sleep] to the next; at each [await] in between (the balance
    query, the Bot API calls, the transfers) the rest of the program may
    change the dictionaries.  What the outside world answers during an
    activation (the clock, the Bot API, the wallet library, the ledger, the
    transfers) and what the rest of the program does at those [await]s is
    an argument of the activation, so every property holds for all of them
    unless it says otherwise. *)

From Stdlib Require Import ZArith List String Ascii Bool Lia DecimalString.
From Stdlib Require Import Floats.SpecFloat.
From stdpp Require Import gmap list fin_maps.

Local Open Scope Z_scope.

(* ===================================================================== *)
(** * Python text *)
(* ===================================================================== *)

(** A Python [str] is a sequence of Unicode code points. *)
Abbreviation pystr := (list N).

(** A literal of the source, read as code points. *)
Definition py (s : string) : pystr :=
  map N_of_ascii (list_ascii_of_string s).

Module PyStr.

(** [str.isspace] on one code point: the characters [str.strip] removes. *)
Definition isspace (c : N) : bool :=
  ((9 <=? c) && (c <=? 13) || (28 <=? c) && (c <=? 32) || (c =? 133)
   || (c =? 160) || (c =? 5760) || (8192 <=? c) && (c <=? 8202)
   || (c =? 8232) || (c =? 8233) || (c =? 8239) || (c =? 8287)
   || (c =? 12288))%N.

Fixpoint lstrip (s : pystr) : pystr :=
  match s with
  | c :: s' => if isspace c then lstrip s' else s
  | [] => []
  end.

Definition rstrip (s : pystr) : pystr := reverse (lstrip (reverse s)).

(** [s.strip()] *)
Definition strip (s : pystr) : pystr := rstrip (lstrip s).

(** [s.startswith(p)] *)
Fixpoint startswith (s p : pystr) {struct p} : bool :=
  match p, s with
  | [], _ => true
  | a :: p', b :: s' => (a =? b)%N && startswith s' p'
  | _ :: _, [] => false
  end.

(** [s == t] *)
Definition eqb (s t : pystr) : bool := bool_decide (s = t).

(** The longest prefix of [s] made of characters of the class [cls], and
    what follows it. *)
Fixpoint span (cls : N -> bool) (s : pystr) : pystr * pystr :=
  match s with
  | c :: s' =>
      if cls c then let '(a, b) := span cls s' in (c :: a, b) else ([], s)
  | [] => ([], [])
  end.

(** [re.match(r'^[cls]+$', s)]: one or more characters of the class, then
    the end of the text, which [$] also finds just before one final line
    feed. *)
Definition re_match_plus (cls : N -> bool) (s : pystr) : bool :=
  let '(body, rest) := span cls s in
  match body, rest with
  | [], _ => false
  | _ :: _, [] => true
  | _ :: _, [c] => (c =? 10)%N
  | _, _ => false
  end.

(** [re.sub(r'[cls]', '', s)] *)
Definition re_sub_delete (cls : N -> bool) (s : pystr) : pystr :=
  List.filter (fun c => negb (cls c)) s.

End PyStr.

(* ===================================================================== *)
(** * Python floats *)
(* ===================================================================== *)

(** A Python [float] is an IEEE 754 binary64 number; arithmetic rounds to
    nearest, ties to even. *)
Abbreviation float := spec_float.

Module PyFloat.

Definition prec : Z := 53.
Definition emax : Z := 1024.

Definition mul : float -> float -> float := SFmul prec emax.
Definition sub : float -> float -> float := SFsub prec emax.
Definition add : float -> float -> float := SFadd prec emax.

(** [x <= y] and [x == y]; both are false when a NaN is involved. *)
Definition leb : float -> float -> bool := SFleb.
Definition eqb : float -> float -> bool := SFeqb.

(** The binary64 number nearest to the fraction [n / d]: the value of a
    decimal literal such as [0.05] (5 / 100). *)
Definition of_ratio (neg : bool) (n d : positive) : float :=
  SFdiv prec emax (S754_finite neg n 0) (S754_finite false d 0).

Definition zero : float := S754_zero false.

Definition is_finite (x : float) : bool :=
  match x with
  | S754_zero _ | S754_finite _ _ _ => true
  | _ => false
  end.

(** [n / d] rounded to the nearest integer, ties to the even one
    ([0 <= n], [0 < d]). *)
Definition div_half_even (n d : Z) : Z :=
  let q := n / d in
  match (2 * (n mod d) ?= d) with
  | Lt => q
  | Gt => q + 1
  | Eq => if Z.even q then q else q + 1
  end.

(** [|x| * 10^ndigits] for [x = m * 2^e], rounded to an integer. *)
Definition scaled (m : positive) (e : Z) (ndigits : Z) : Z :=
  if 0 <=? e then Zpos m * 2 ^ e * 10 ^ ndigits
  else div_half_even (Zpos m * 10 ^ ndigits) (2 ^ (- e)).

(** [round(x, ndigits)] for [0 <= ndigits <= 323]: the exact value of [x]
    is rounded to [ndigits] decimals, ties to even, and the decimal
    obtained is read back as the nearest float.  Zeros, infinities and
    NaN round to themselves. *)
Definition round (x : float) (ndigits : Z) : float :=
  match x with
  | S754_finite s m e =>
      match scaled m e ndigits with
      | Zpos n => of_ratio s n (Z.to_pos (10 ^ ndigits))
      | _ => S754_zero s
      end
  | _ => x
  end.

End PyFloat.

(* ===================================================================== *)
(** * Configuration *)
(* ===================================================================== *)

(** [FEE_PERCENTAGE = 0.05] *)
Definition FEE_PERCENTAGE : float := PyFloat.of_ratio false 5 100.
Definition PAYMENT_TIMEOUT_MINUTES : Z := 60.
Definition PAYMENT_CHECK_INTERVAL : Z := 30.

(* ===================================================================== *)
(** * Address validation and input sanitation *)
(* ===================================================================== *)

(** The class [[A-Za-z0-9_-]] *)
Definition base64url_char (c : N) : bool :=
  ((65 <=? c) && (c <=? 90) || (97 <=? c) && (c <=? 122)
   || (48 <=? c) && (c <=? 57) || (c =? 95) || (c =? 45))%N.

Definition valid_prefixes : list pystr := [py "EQ"; py "UQ"; py "kQ"; py "0Q"].

Definition is_valid_ton_address (address : pystr) : bool :=
  let address := PyStr.strip address in
  if (Z.of_nat (length address) <? 48) || (50 <? Z.of_nat (length address))
  then false
  else if negb (existsb (PyStr.startswith address) valid_prefixes)
  then false
  else
    let address_body := drop 2 address in
    if negb (PyStr.re_match_plus base64url_char address_body) then false
    else true.

(** The characters [re.sub] deletes: angle brackets, both quotes, round,
    curly and square brackets, and the backslash. *)
Definition dangerous_char (c : N) : bool :=
  existsb (N.eqb c) [60; 62; 34; 39; 40; 41; 123; 125; 91; 93; 92]%N.

Definition sanitize_user_input (text : pystr) (max_length : nat) : pystr :=
  let sanitized := PyStr.re_sub_delete dangerous_char (PyStr.strip text) in
  take max_length sanitized.

(* ===================================================================== *)
(** * The data the bot keeps *)
(* ===================================================================== *)

(** The values of [session["step"]]. *)
Inductive Step :=
| waiting_seller_wallet
| waiting_amount
| generating_wallet
| completed.

Global Instance Step_eq_dec : EqDecision Step.
Proof. solve_decision. Defined.

(** One entry of [user_sessions].  The keys ["step"] and ["started_at"] are
    written when the dictionary is created; a key written later is [None]
    until then. *)
Record Session := {
  step : Step;
  started_at : Z;
  seller_wallet : option pystr;
  amount : option float;
  fee_amount : option float;
  seller_amount : option float;
  escrow_address : option pystr;
  escrow_private_key : option pystr;
  transaction_id : option pystr
}.

(** [session[key] = value] for each key the handlers assign. *)
Definition set_step (v : Step) (s : Session) : Session :=
  {| step := v; started_at := started_at s; seller_wallet := seller_wallet s;
     amount := amount s; fee_amount := fee_amount s;
     seller_amount := seller_amount s; escrow_address := escrow_address s;
     escrow_private_key := escrow_private_key s;
     transaction_id := transaction_id s |}.

Definition set_seller_wallet (v : pystr) (s : Session) : Session :=
  {| step := step s; started_at := started_at s; seller_wallet := Some v;
     amount := amount s; fee_amount := fee_amount s;
     seller_amount := seller_amount s; escrow_address := escrow_address s;
     escrow_private_key := escrow_private_key s;
     transaction_id := transaction_id s |}.

Definition set_amount (v : float) (s : Session) : Session :=
  {| step := step s; started_at := started_at s; seller_wallet := seller_wallet s;
     amount := Some v; fee_amount := fee_amount s;
     seller_amount := seller_amount s; escrow_address := escrow_address s;
     escrow_private_key := escrow_private_key s;
     transaction_id := transaction_id s |}.

Definition set_fee_amount (v : float) (s : Session) : Session :=
  {| step := step s; started_at := started_at s; seller_wallet := seller_wallet s;
     amount := amount s; fee_amount := Some v;
     seller_amount := seller_amount s; escrow_address := escrow_address s;
     escrow_private_key := escrow_private_key s;
     transaction_id := transaction_id s |}.

Definition set_seller_amount (v : float) (s : Session) : Session :=
  {| step := step s; started_at := started_at s; seller_wallet := seller_wallet s;
     amount := amount s; fee_amount := fee_amount s;
     seller_amount := Some v; escrow_address := escrow_address s;
     escrow_private_key := escrow_private_key s;
     transaction_id := transaction_id s |}.

Definition set_escrow_address (v : pystr) (s : Session) : Session :=
  {| step := step s; started_at := started_at s; seller_wallet := seller_wallet s;
     amount := amount s; fee_amount := fee_amount s;
     seller_amount := seller_amount s; escrow_address := Some v;
     escrow_private_key := escrow_private_key s;
     transaction_id := transaction_id s |}.

Definition set_escrow_private_key (v : pystr) (s : Session) : Session :=
  {| step := step s; started_at := started_at s; seller_wallet := seller_wallet s;
     amount := amount s; fee_amount := fee_amount s;
     seller_amount := seller_amount s; escrow_address := escrow_address s;
     escrow_private_key := Some v;
     transaction_id := transaction_id s |}.

Definition set_transaction_id (v : pystr) (s : Session) : Session :=
  {| step := step s; started_at := started_at s; seller_wallet := seller_wallet s;
     amount := amount s; fee_amount := fee_amount s;
     seller_amount := seller_amount s; escrow_address := escrow_address s;
     escrow_private_key := escrow_private_key s;
     transaction_id := Some v |}.

(** The dictionary [generate_escrow_wallet] returns.  [wallet_object]
    stands for the [WalletV4R2] signer built from the private key; the key
    ["wallet_address"], the same address as an object, is never read and is
    left out. *)
Record WalletInfo := {
  address : pystr;
  private_key : pystr;
  created_at : Z;
  wallet_object : option pystr
}.

(** The only value the code ever stores under ["status"]. *)
Inductive Status := waiting_payment.

(** One entry of [escrow_wallets]: the wallet dictionary extended with the
    terms of the escrow. *)
Record WalletRecord := {
  w_info : WalletInfo;
  w_user_id : Z;
  w_seller_wallet : pystr;
  w_amount : float;
  w_fee_amount : float;
  w_seller_amount : float;
  w_status : Status;
  w_created_timestamp : Z;
  w_transaction_id : pystr
}.

(** The two module-level dictionaries. *)
Record Store := {
  user_sessions : gmap Z Session;
  escrow_wallets : gmap pystr WalletRecord
}.

Definition on_sessions (f : gmap Z Session -> gmap Z Session) (s : Store) : Store :=
  {| user_sessions := f (user_sessions s); escrow_wallets := escrow_wallets s |}.

Definition on_wallets
    (f : gmap pystr WalletRecord -> gmap pystr WalletRecord) (s : Store) : Store :=
  {| user_sessions := user_sessions s; escrow_wallets := f (escrow_wallets s) |}.

(* ===================================================================== *)
(** * The outside world *)
(* ===================================================================== *)

(** The texts the bot sends, with the values formatted into them. *)
Inductive Notice :=
| Welcome
| ServiceUnavailable
| MainMenuText
| CallbackAck
| CallbackError
| HowItWorks
| ErrorLoadingInstructions
| AlreadyActive
| StartingEscrow
| ErrorStartingEscrow
| MessageTooOld
| PleaseStart
| SessionExpired
| UseMenuButtons
| ErrorProcessingMessage
| EmptyAddress
| InvalidAddressFormat
| FeeWalletAsSeller
| SellerWalletSaved (wallet_address : pystr)
| ErrorProcessingAddress
| InvalidNumber
| AmountMustBePositive
| GeneratingWallet
| EscrowCreated (amount : float) (seller : pystr) (fee seller_amount : float)
    (escrow_address : pystr)
| WalletGenerationFailed
| ErrorProcessingAmount
| MonitoringActive (expected received : float) (escrow_address : pystr)
    (check_count : Z)
| EscrowTimeout (escrow_address : option pystr)
| ProcessingTransfers
| WalletDataNotFound (escrow_address : pystr)
| EscrowCompleted (amount seller_amount fee_amount : float)
    (seller escrow_address : pystr)
| PartialSuccess (seller_amount fee_amount : float)
| PaymentFailed (amount : float) (escrow_address : pystr)
| CriticalRelease (escrow_address : option pystr) (user_id : Z).

(** What one activation of a handler or of the monitor does to the outside
    world, in order. *)
Inductive Event :=
| Reply (user_id : Z) (n : Notice) (ok : bool)
    (* a Bot API call; [ok = false] when the call raised *)
| BalanceCheck (address : pystr)
    (* a call of [get_wallet_balance] *)
| Transfer (to_address : pystr) (amount_ton : float) (ok : bool)
    (* a call of [send_ton_payment] and what it returned *)
| CreateTask (user_id : Z) (transaction_id : pystr).
    (* [asyncio.create_task(monitor_payment(...))] *)

Definition is_reply (e : Event) : bool :=
  match e with Reply _ _ _ => true | _ => false end.

Definition is_balance_check (e : Event) : bool :=
  match e with BalanceCheck _ => true | _ => false end.

Definition is_transfer (e : Event) : bool :=
  match e with Transfer _ _ _ => true | _ => false end.

(** What the outside world answers during one activation, and what the
    rest of the program does while a monitor task waits inside an
    awakening. *)
Record Env := {
  now : Z;                      (* [int(time.time())] *)
  now_ms : Z;                   (* [int(time.time() * 1000)] *)
  net : nat -> bool;            (* the k-th Bot API call returns normally *)
  new_wallet : option (pystr * pystr);
                                (* pytoniq's fresh address and key, if any *)
  ledger : pystr -> float;      (* the balance the two ledger APIs report *)
  broadcast : nat -> bool;      (* the k-th transfer is accepted *)
  meanwhile : nat -> Store -> Store
                                (* what the handlers and the other tasks do
                                   to the dictionaries while a monitor task
                                   is suspended at the [await] that follows
                                   k events of its awakening *)
}.

(* ===================================================================== *)
(** * Activations: state, exceptions and the log *)
(* ===================================================================== *)

(** A piece of Python code either returns a value or raises. *)
Inductive Res (A : Type) :=
| Return (a : A)
| Raised.
Arguments Return {A} a.
Arguments Raised {A}.

(** A piece of code run inside one activation: it reads and writes the two
    dictionaries and appends to the log of the activation.  What was
    written before an exception stays written. *)
Definition Act (A : Type) : Type :=
  Store -> list Event -> Res A * Store * list Event.

Global Instance Act_ret : MRet Act :=
  fun A a s l => (Return a, s, l).

Global Instance Act_bind : MBind Act :=
  fun A B k m s l =>
    match m s l with
    | (Return a, s', l') => k a s' l'
    | (Raised, s', l') => (Raised, s', l')
    end.

Definition raise {A} : Act A := fun s l => (Raised, s, l).

(** [try: body except Exception: handler] *)
Definition try_except {A} (body handler : Act A) : Act A :=
  fun s l =>
    match body s l with
    | (Return a, s', l') => (Return a, s', l')
    | (Raised, s', l') => handler s' l'
    end.

Definition get_store : Act Store := fun s l => (Return s, s, l).

Definition modify (f : Store -> Store) : Act unit :=
  fun s l => (Return tt, f s, l).

Definition emit (e : Event) : Act unit :=
  fun s l => (Return tt, s, l ++ [e]).

(** [d[key]] on a key that may be missing: [KeyError]. *)
Definition item {A} (o : option A) : Act A :=
  match o with
  | Some a => mret a
  | None => raise
  end.

(** A Bot API call ([msg.answer], [edit_text], [callback.answer],
    [bot.send_message]).  The environment decides, by the rank of the call
    in the activation, whether it returns or raises. *)
Definition reply (env : Env) (user_id : Z) (n : Notice) : Act unit :=
  fun s l =>
    let ok := net env (length (List.filter is_reply l)) in
    (if ok then Return tt else Raised, s, l ++ [Reply user_id n ok]).

(** [await call] inside a monitor task: the task is suspended until the
    call is over, and the rest of the program runs in between.  The call
    itself touches neither dictionary. *)
Definition awaiting {A} (others : nat -> Store -> Store) (call : Act A)
    : Act A :=
  fun s l =>
    let '(r, s', l') := call s l in
    (r, others (length l) s', l').

(** Nothing else runs. *)
Definition quiet : nat -> Store -> Store := fun _ s => s.

(** An activation starts with an empty log. *)
Definition run {A} (a : Act A) (s : Store) : Res A * Store * list Event :=
  a s [].

(** [session[key] = value], for the session dictionary of [user_id]: the
    object the handler holds is the entry of [user_sessions]. *)
Definition update_session (user_id : Z) (f : Session -> Session) : Act unit :=
  modify (on_sessions (alter f user_id)).

(* ===================================================================== *)
(** * The wallet provider, the ledger and the transfers *)
(* ===================================================================== *)

(** [generate_escrow_wallet]: a fresh pytoniq wallet, refused unless its
    address passes the validator; any failure is re-raised. *)
Definition generate_escrow_wallet (env : Env) : Act WalletInfo :=
  match new_wallet env with
  | Some (address_str, private_key_hex) =>
      if match address_str with [] => true | _ => false end
         || negb (is_valid_ton_address address_str)
      then raise
      else mret {| address := address_str;
                   private_key := private_key_hex;
                   created_at := now_ms env;
                   wallet_object := Some private_key_hex |}
  | None => raise
  end.

(** What [get_wallet_balance] returns: [0.0] without a query for an address
    the validator refuses, else what the ledger APIs report ([0.0] when
    both fail). *)
Definition reported_balance (env : Env) (address : pystr) : float :=
  if negb (is_valid_ton_address address) then PyFloat.zero
  else ledger env address.

(** [get_wallet_balance]; it never raises. *)
Definition get_wallet_balance (env : Env) (address : pystr) : Act float :=
  emit (BalanceCheck address);;
  mret (reported_balance env address).

(** [1e9] *)
Definition nano_per_ton : float := PyFloat.of_ratio false 1000000000 1.

(** What the k-th call of [send_ton_payment] in an activation returns: the
    checks made before the network is used, then the transfer itself.
    [int(amount_ton * 1e9)] fails on an infinity or a NaN, and that is
    caught like every other error. *)
Definition payment_ok (env : Env) (k : nat) (from_wallet : WalletRecord)
    (to_address : pystr) (amount_ton : float) : bool :=
  if negb (is_valid_ton_address to_address) then false
  else if PyFloat.leb amount_ton PyFloat.zero then false
  else match wallet_object (w_info from_wallet) with
       | None => false
       | Some _ =>
           if negb (PyFloat.is_finite (PyFloat.mul amount_ton nano_per_ton))
           then false
           else broadcast env k
       end.

(** [send_ton_payment]; it never raises. *)
Definition send_ton_payment (env : Env) (from_wallet : WalletRecord)
    (to_address : pystr) (amount_ton : float) : Act bool :=
  fun s l =>
    let k := length (List.filter is_transfer l) in
    let ok := payment_ok env k from_wallet to_address amount_ton in
    (Return ok, s, l ++ [Transfer to_address amount_ton ok]).

(** [f"{user_id}_{int(time.time())}"] *)
Definition str_of_int (z : Z) : pystr :=
  py (NilZero.string_of_int (Z.to_int z)).

Definition format_transaction_id (user_id time : Z) : pystr :=
  str_of_int user_id ++ py "_" ++ str_of_int time.

(* ===================================================================== *)
(** * The handlers *)
(* ===================================================================== *)

Section Bot.

(** Python's [float(text)]; [None] stands for [ValueError]. *)
Variable float_of_text : pystr -> option float.

(** [FEE_WALLET], read from the environment when the module is loaded. *)
Variable FEE_WALLET : pystr.

(** [/start] *)
Definition start_handler (env : Env) (user_id : Z) : Act unit :=
  try_except
    (reply env user_id Welcome;;
     (* Clean up any existing session *)
     modify (on_sessions (delete user_id)))
    (reply env user_id ServiceUnavailable).

Definition menu_handler (env : Env) (user_id : Z) : Act unit :=
  try_except
    (reply env user_id MainMenuText;;
     reply env user_id CallbackAck)
    (reply env user_id CallbackError).

Definition how_it_works_handler (env : Env) (user_id : Z) : Act unit :=
  try_except
    (reply env user_id HowItWorks;;
     reply env user_id CallbackAck)
    (reply env user_id ErrorLoadingInstructions).

(** The dictionary [escrow_entry] stores for a new escrow. *)
Definition new_session (env : Env) : Session :=
  {| step := waiting_seller_wallet; started_at := now env;
     seller_wallet := None; amount := None; fee_amount := None;
     seller_amount := None; escrow_address := None;
     escrow_private_key := None; transaction_id := None |}.

(** [user_id in user_sessions and
     user_sessions[user_id].get("step") == "completed"] *)
Definition has_active_escrow (s : Store) (user_id : Z) : bool :=
  match user_sessions s !! user_id with
  | Some session => bool_decide (step session = completed)
  | None => false
  end.

(** The "start_escrow" button. *)
Definition escrow_entry (env : Env) (user_id : Z) : Act unit :=
  try_except
    (s ← get_store;
     if has_active_escrow s user_id then
       reply env user_id AlreadyActive;;
       reply env user_id CallbackAck
     else
       modify (on_sessions (<[user_id := new_session env]>));;
       reply env user_id StartingEscrow;;
       reply env user_id CallbackAck)
    (reply env user_id ErrorStartingEscrow).

Definition handle_seller_wallet_input (env : Env) (user_id : Z)
    (text : pystr) : Act unit :=
  try_except
    (let raw_address := PyStr.strip text in
     let wallet_address := sanitize_user_input raw_address 50 in
     if match wallet_address with [] => true | _ => false end then
       reply env user_id EmptyAddress
     else if negb (is_valid_ton_address wallet_address) then
       reply env user_id InvalidAddressFormat
     else if PyStr.eqb wallet_address FEE_WALLET then
       reply env user_id FeeWalletAsSeller
     else
       update_session user_id (set_seller_wallet wallet_address);;
       update_session user_id (set_step waiting_amount);;
       reply env user_id (SellerWalletSaved wallet_address))
    (reply env user_id ErrorProcessingAddress).

(** The name [user_id] is read in the body of [handle_amount_input], which
    has no parameter or local variable of that name, and the module binds
    no global [user_id]: evaluating it raises [NameError]. *)
Definition handle_amount_input_user_id : Act Z := raise.

Definition handle_amount_input (env : Env) (from_user_id : Z)
    (text : pystr) : Act unit :=
  try_except
    (let amount_text := sanitize_user_input (PyStr.strip text) 20 in
     match float_of_text amount_text with
     | None => reply env from_user_id InvalidNumber
     | Some amount =>
         if PyFloat.leb amount PyFloat.zero then
           reply env from_user_id AmountMustBePositive
         else
           (* Calculate fees *)
           let fee_amount := PyFloat.round (PyFloat.mul amount FEE_PERCENTAGE) 6 in
           let seller_amount := PyFloat.round (PyFloat.sub amount fee_amount) 6 in
           update_session from_user_id (set_amount amount);;
           update_session from_user_id (set_fee_amount fee_amount);;
           update_session from_user_id (set_seller_amount seller_amount);;
           update_session from_user_id (set_step generating_wallet);;
           reply env from_user_id GeneratingWallet;;
           try_except
             (escrow_wallet_info ← generate_escrow_wallet env;
              let escrow_address := address escrow_wallet_info in
              user_id ← handle_amount_input_user_id;
              let transaction_id := format_transaction_id user_id (now env) in
              update_session from_user_id (set_escrow_address escrow_address);;
              update_session from_user_id
                (set_escrow_private_key (private_key escrow_wallet_info));;
              update_session from_user_id (set_transaction_id transaction_id);;
              update_session from_user_id (set_step completed);;
              s ← get_store;
              session ← item (user_sessions s !! from_user_id);
              seller ← item (seller_wallet session);
              modify (on_wallets (<[transaction_id :=
                {| w_info := escrow_wallet_info;
                   w_user_id := user_id;
                   w_seller_wallet := seller;
                   w_amount := amount;
                   w_fee_amount := fee_amount;
                   w_seller_amount := seller_amount;
                   w_status := waiting_payment;
                   w_created_timestamp := now env;
                   w_transaction_id := transaction_id |}]>));;
              reply env from_user_id
                (EscrowCreated amount seller fee_amount seller_amount
                   escrow_address);;
              emit (CreateTask from_user_id transaction_id))
             (update_session from_user_id (set_step waiting_amount);;
              reply env from_user_id WalletGenerationFailed)
     end)
    (reply env from_user_id ErrorProcessingAmount).

(** A text message: [date] is [msg.date] as a Unix time, when the message
    carries one. *)
Definition handle_text_messages (env : Env) (user_id : Z) (text : pystr)
    (date : option Z) : Act unit :=
  try_except
    (if match date with
        | Some message_time => 300 <? now env - message_time
        | None => false
        end
     then reply env user_id MessageTooOld
     else
       s ← get_store;
       match user_sessions s !! user_id with
       | None => reply env user_id PleaseStart
       | Some session =>
           let session_age := now env - started_at session in
           if 1800 <? session_age then
             modify (on_sessions (delete user_id));;
             reply env user_id SessionExpired
           else
             match step session with
             | waiting_seller_wallet =>
                 handle_seller_wallet_input env user_id text
             | waiting_amount => handle_amount_input env user_id text
             | _ => reply env user_id UseMenuButtons
             end
       end)
    (reply env user_id ErrorProcessingMessage).

(** What the dispatcher can receive. *)
Inductive Update :=
| CommandStart (user_id : Z)
| CallbackMainMenu (user_id : Z)
| CallbackHowItWorks (user_id : Z)
| CallbackStartEscrow (user_id : Z)
| TextMessage (user_id : Z) (text : pystr) (date : option Z).

Definition dispatch (env : Env) (u : Update) : Act unit :=
  match u with
  | CommandStart user_id => start_handler env user_id
  | CallbackMainMenu user_id => menu_handler env user_id
  | CallbackHowItWorks user_id => how_it_works_handler env user_id
  | CallbackStartEscrow user_id => escrow_entry env user_id
  | TextMessage user_id text date => handle_text_messages env user_id text date
  end.

(* ------------------------------------------------------------------- *)
(** ** Release *)
(* ------------------------------------------------------------------- *)

(** [process_escrow_release(user_id, transaction_id, session)], called from
    a monitor task; [others] is what the rest of the program does at the
    [await]s.  [session] is the dictionary object the monitor read from
    [user_sessions]: the release reads its values from that object, whatever
    has become of the entry of [user_sessions] since.  (The handlers delete
    or replace entries; they write into a session dictionary only in the
    steps before [completed].)  The clean-up deletes what is under
    [user_id] and [transaction_id] when it runs. *)
Definition process_escrow_release_during (others : nat -> Store -> Store)
    (env : Env) (user_id : Z) (transaction_id : pystr) (session : Session)
    : Act unit :=
  try_except
    (amount ← item (amount session);
     seller_address ← item (seller_wallet session);
     escrow_address ← item (escrow_address session);
     fee_amount ← item (fee_amount session);
     seller_amount ← item (seller_amount session);
     awaiting others (reply env user_id ProcessingTransfers);;
     (* Get wallet info *)
     s ← get_store;
     match escrow_wallets s !! transaction_id with
     | None =>
         awaiting others
           (reply env user_id (WalletDataNotFound escrow_address))
     | Some wallet_info =>
         (* Execute payments *)
         seller_success ← awaiting others
                            (send_ton_payment env wallet_info seller_address
                               seller_amount);
         fee_success ← awaiting others
                         (send_ton_payment env wallet_info FEE_WALLET
                            fee_amount);
         (if seller_success && fee_success then
            awaiting others
              (reply env user_id
                 (EscrowCompleted amount seller_amount fee_amount
                    seller_address escrow_address))
          else if seller_success && negb fee_success then
            awaiting others
              (reply env user_id (PartialSuccess seller_amount fee_amount))
          else
            awaiting others
              (reply env user_id (PaymentFailed amount escrow_address)));;
         (* Clean up session *)
         modify (on_sessions (delete user_id));;
         modify (on_wallets (delete transaction_id))
     end)
    (try_except
       (awaiting others
          (reply env user_id
             (CriticalRelease (escrow_address session) user_id)))
       (mret tt)).

(** The release on its own: nothing else runs during its [await]s. *)
Definition process_escrow_release (env : Env) (user_id : Z)
    (transaction_id : pystr) (session : Session) : Act unit :=
  process_escrow_release_during quiet env user_id transaction_id session.

(* ------------------------------------------------------------------- *)
(** ** Payment monitoring *)
(* ------------------------------------------------------------------- *)

(** [(PAYMENT_TIMEOUT_MINUTES * 60) // PAYMENT_CHECK_INTERVAL], written
    for any timeout and interval. *)
Definition max_checks_of (timeout_minutes check_interval : Z) : Z :=
  (timeout_minutes * 60) / check_interval.

Definition max_checks : Z :=
  max_checks_of PAYMENT_TIMEOUT_MINUTES PAYMENT_CHECK_INTERVAL.

(** The arguments and the local variables of one [monitor_payment] task. *)
Record Monitor := {
  m_user_id : Z;
  m_transaction_id : pystr;
  check_count : Z;
  last_balance : float
}.

(** The task [handle_amount_input] creates. *)
Definition new_monitor (user_id : Z) (transaction_id : pystr) : Monitor :=
  {| m_user_id := user_id; m_transaction_id := transaction_id;
     check_count := 0; last_balance := PyFloat.zero |}.

(** A task is asleep between two polls, or it has returned. *)
Inductive Task :=
| Sleeping (m : Monitor)
| Ended.

(** The negation of [not session or session.get("step") != "completed" or
    session.get("transaction_id") != transaction_id] *)
Definition session_is_own (session : option Session) (own_id : pystr)
    : bool :=
  match session with
  | Some session =>
      bool_decide (step session = completed)
      && bool_decide (transaction_id session = Some own_id)
  | None => false
  end.

(** The block after the loop. *)
Definition handle_timeout (env : Env) (m : Monitor) : Act Task :=
  (if max_checks <=? check_count m then
     s ← get_store;
     let session := user_sessions s !! m_user_id m in
     if session_is_own session (m_transaction_id m) then
       try_except
         (awaiting (meanwhile env)
            (reply env (m_user_id m)
               (EscrowTimeout (session ≫= escrow_address))))
         (mret tt)
     else mret tt
   else mret tt);;
  mret Ended.

(** One awakening of the task: the test of the [while] condition, one turn
    of the loop up to its [asyncio.sleep], or the way out of the loop and
    the end of the coroutine.  The two [break]s are taken with
    [check_count < max_checks], so nothing of the block after the loop
    runs for them.  The session is read once, at the top of the turn; the
    task is suspended at the balance query, at each Bot API call and at
    each transfer, and [meanwhile env] is what the rest of the program does
    to the dictionaries there, while the task goes on with the session
    object, the address and the amount it has read. *)
Definition monitor_wake (env : Env) (m : Monitor) : Act Task :=
  if check_count m <? max_checks then
    try_except
      (s ← get_store;
       let session := user_sessions s !! m_user_id m in
       match session with
       | Some the_session =>
           if negb (session_is_own session (m_transaction_id m)) then
             mret Ended
           else
             escrow_address ← item (escrow_address the_session);
             expected_amount ← item (amount the_session);
             (* Get current balance *)
             current_balance ← awaiting (meanwhile env)
                                 (get_wallet_balance env escrow_address);
             (* Check if payment received *)
             if PyFloat.leb expected_amount current_balance then
               process_escrow_release_during (meanwhile env) env (m_user_id m)
                 (m_transaction_id m) the_session;;
               mret Ended
             else
               (* Send status updates at specific intervals *)
               (if bool_decide (check_count m ∈ [1; 5; 10; 20; 40]) then
                  try_except
                    (awaiting (meanwhile env)
                       (reply env (m_user_id m)
                          (MonitoringActive expected_amount current_balance
                             escrow_address (check_count m))))
                    (mret tt)
                else mret tt);;
               mret (Sleeping
                 {| m_user_id := m_user_id m;
                    m_transaction_id := m_transaction_id m;
                    check_count := check_count m + 1;
                    last_balance :=
                      if negb (PyFloat.eqb current_balance (last_balance m))
                      then current_balance else last_balance m |})
       | None => mret Ended
       end)
      (* the exception is logged; sleep and test the condition again *)
      (mret (Sleeping m))
  else handle_timeout env m.

(** [monitor_payment]: the task from its creation on.  Each entry of the
    schedule is one awakening: what the rest of the program did to the
    dictionaries while the task slept, and what the outside world answers
    and the rest of the program does during the awakening.  The events of
    all awakenings are collected. *)
Fixpoint monitor_payment (schedule : list ((Store -> Store) * Env))
    (t : Task) (s : Store) : Task * Store * list Event :=
  match schedule, t with
  | (others, env) :: schedule', Sleeping m =>
      let '(r, s1, l1) := run (monitor_wake env m) (others s) in
      let t1 := match r with Return t1 => t1 | Raised => Ended end in
      let '(t2, s2, l2) := monitor_payment schedule' t1 s1 in
      (t2, s2, l1 ++ l2)
  | _, _ => (t, s, [])
  end.

End Bot.

(* ===================================================================== *)
(** * Notions used to state the properties *)
(* ===================================================================== *)

(** The three conditions of the address validator, on a text. *)
Definition well_formed_address (a : pystr) : Prop :=
  (∃ p, p ∈ valid_prefixes ∧ p `prefix_of` a)
  ∧ (48 ≤ length a ≤ 50)%nat
  ∧ forallb base64url_char (drop 2 a) = true.

(** [ceil(a / b)] for [0 < b]. *)
Definition ceil_div (a b : Z) : Z := - ((- a) / b).

(** The number of calls of [get_wallet_balance] in a log. *)
Definition balance_checks (l : list Event) : nat :=
  length (List.filter is_balance_check l).

(** The polls a task may still make. *)
Definition remaining (t : Task) : nat :=
  match t with
  | Sleeping m => Z.to_nat (max_checks - check_count m)
  | Ended => 0
  end.

(** While the task sleeps, the rest of the program leaves the task's own
    session and wallet record as they are. *)
Definition undisturbed (user_id : Z) (tid : pystr) (others : Store -> Store)
    : Prop :=
  ∀ s, user_sessions (others s) !! user_id = user_sessions s !! user_id
       ∧ escrow_wallets (others s) !! tid = escrow_wallets s !! tid.

(** The same, for what the rest of the program does while the task is
    suspended inside an awakening. *)
Definition undisturbed_during (user_id : Z) (tid : pystr) (env : Env)
    : Prop :=
  ∀ k, undisturbed user_id tid (meanwhile env k).

(** Nothing else runs while the task is suspended inside the awakening. *)
Definition calm (env : Env) : Prop := ∀ k s, meanwhile env k s = s.

(** The balance reported for [addr] is short of the expected amount [A]. *)
Definition unfunded (A : float) (addr : pystr) (env : Env) : Prop :=
  PyFloat.leb A (reported_balance env addr) = false.

(** The session once [handle_amount_input] has stored the amount and the
    two shares it computes from it. *)
Definition priced (A : float) (sess : Session) : Session :=
  let fee := PyFloat.round (PyFloat.mul A FEE_PERCENTAGE) 6 in
  set_seller_amount (PyFloat.round (PyFloat.sub A fee) 6)
    (set_fee_amount fee (set_amount A sess)).

(** A reply that carries the timeout notice. *)
Definition is_timeout_notice (e : Event) : bool :=
  match e with
  | Reply _ (EscrowTimeout _) _ => true
  | _ => false
  end.

(** The message is not older than five minutes when it is handled. *)
Definition recent (env : Env) (date : option Z) : Prop :=
  match date with
  | Some message_time => now env - message_time <= 300
  | None => True
  end.

(** An act is silent when it leaves the number of balance checks in the
    log as it found it, whatever it returns. *)
Definition silent {A} (a : Act A) : Prop :=
  ∀ s l, balance_checks (a s l).2 = balance_checks l.

(** An act that never raises. *)
Definition returns {A} (a : Act A) : Prop :=
  ∀ s l, ∃ x, (a s l).1.1 = Return x.

(** The dispatcher at work: the updates are handled one after the other,
    each with the answers the outside world gives at that time. *)
Fixpoint process (float_of_text : pystr -> option float) (FEE_WALLET : pystr)
    (updates : list (Env * Update)) (s : Store) : Store * list Event :=
  match updates with
  | [] => (s, [])
  | (env, u) :: updates' =>
      let '(_, s1, l1) := run (dispatch float_of_text FEE_WALLET env u) s in
      let '(s2, l2) := process float_of_text FEE_WALLET updates' s1 in
      (s2, l1 ++ l2)
  end.

(** The dictionaries when the module is loaded. *)
Definition initial_store : Store :=
  {| user_sessions := ∅; escrow_wallets := ∅ |}.

Definition is_create_task (e : Event) : bool :=
  match e with CreateTask _ _ => true | _ => false end.

(** No escrow has been provisioned: no session is in the step [completed]
    or holds a transaction id, and there is no wallet record. *)
Definition unprovisioned_session (sess : Session) : Prop :=
  step sess ≠ completed ∧ transaction_id sess = None.

Definition unprovisioned (s : Store) : Prop :=
  escrow_wallets s = ∅
  ∧ ∀ user_id sess,
      user_sessions s !! user_id = Some sess → unprovisioned_session sess.



(** An act that provisions nothing and creates no task. *)
Definition idle_act {A} (a : Act A) : Prop :=
  ∀ s l, unprovisioned s → existsb is_create_task l = false →
         unprovisioned (a s l).1.2 ∧ existsb is_create_task (a s l).2 = false.

(* ===================================================================== *)
(** * Data for the examples *)
(* ===================================================================== *)

Module Example.

Definition is_digit (c : N) : bool := ((48 <=? c) && (c <=? 57))%N.

Definition digits_value (ds : pystr) : Z :=
  fold_left (fun acc c => 10 * acc + (Z.of_N c - 48)) ds 0.

Definition number (n d : Z) : float :=
  match n with
  | Zpos p => PyFloat.of_ratio false p (Z.to_pos d)
  | _ => S754_zero false
  end.

(** An instance of [float_of_text]: Python's [float] on the texts made of
    digits with at most one point after the first digit, which is all the
    examples enter.  The other spellings [float] reads are left out. *)
Definition float_of_plain_decimal (text : pystr) : option float :=
  let '(whole, rest) := PyStr.span is_digit text in
  match whole, rest with
  | [], _ => None
  | _ :: _, [] => Some (number (digits_value whole) 1)
  | _ :: _, c :: frac =>
      if (c =? 46)%N && forallb is_digit frac
      then Some (number (digits_value (whole ++ frac))
                   (10 ^ Z.of_nat (length frac)))
      else None
  end.

(** The default of [FEE_WALLET]. *)
Definition fee_wallet : pystr :=
  py "UQAg3mG5c-QFD_KQQBzJMkd94y_r5pkAFegBijQr3LEbBWZ2".

Definition seller : pystr :=
  py "EQCkJ56uR6qnQX2mJDR5WgEcyw7IcPf1ZkbRgbVQCokqmjtN".

Definition escrow : pystr :=
  py "UQCoQ3hDytLuFzoRJitD3QjiST2U3pMMvrvV7UWBv9h0uvNc".

Definition key : pystr := py "00ff".

(** The 36 bytes of a user-friendly address: base64url, four characters
    for three bytes. *)
Definition base64url_value (c : N) : N :=
  (if (65 <=? c) && (c <=? 90) then c - 65
   else if (97 <=? c) && (c <=? 122) then c - 71
   else if (48 <=? c) && (c <=? 57) then c + 4
   else if c =? 45 then 62
   else 63)%N.

Fixpoint base64url_bytes (a : pystr) : list N :=
  match a with
  | c1 :: c2 :: c3 :: c4 :: rest =>
      let n := (((base64url_value c1 * 64 + base64url_value c2) * 64
                 + base64url_value c3) * 64 + base64url_value c4)%N in
      (n / 65536)%N :: ((n / 256) mod 256)%N :: (n mod 256)%N
      :: base64url_bytes rest
  | _ => []
  end.

(** CRC16/XMODEM: polynomial [0x1021], initial value 0. *)
Definition crc16_bit (crc : N) : N :=
  (if N.testbit crc 15 then N.lxor (N.shiftl crc 1) 4129 mod 65536
   else N.shiftl crc 1 mod 65536)%N.

Definition crc16_byte (crc b : N) : N :=
  Nat.iter 8 crc16_bit (N.lxor crc (N.shiftl b 8)).

Definition crc16_xmodem (bytes : list N) : N := fold_left crc16_byte bytes 0%N.

(** The test pytoniq's [Address(...)] makes on a user-friendly address
    before [send_ton_payment] sends anything to it: the last two of its 36
    bytes are the CRC16 of the 34 before them. *)
Definition checksum_ok (a : pystr) : bool :=
  let bytes := base64url_bytes a in
  (length bytes =? 36)%nat
  && match drop 34 bytes with
     | [hi; lo] => (crc16_xmodem (take 34 bytes) =? 256 * hi + lo)%N
     | _ => false
     end.

Definition tid : pystr := py "7_1700000000".

(** Every call to the outside world goes through; the escrow address
    holds nothing yet. *)
Definition env : Env :=
  {| now := 1700000000; now_ms := 1700000000000;
     net := fun _ => true;
     new_wallet := Some (escrow, key);
     ledger := fun _ => PyFloat.zero;
     broadcast := fun _ => true;
     meanwhile := quiet |}.

(** The wallet provider is down. *)
Definition env_no_wallet : Env :=
  {| now := 1700000000; now_ms := 1700000000000;
     net := fun _ => true;
     new_wallet := None;
     ledger := fun _ => PyFloat.zero;
     broadcast := fun _ => true;
     meanwhile := quiet |}.

(** The first transfer (to the seller) goes through, the second (the fee)
    does not. *)
Definition env_fee_fails : Env :=
  {| now := 1700000600; now_ms := 1700000600000;
     net := fun _ => true;
     new_wallet := None;
     ledger := fun _ => PyFloat.of_ratio false 15 10;
     broadcast := fun k => Nat.eqb k 0;
     meanwhile := quiet |}.

(** No transfer goes through. *)
Definition env_transfers_fail : Env :=
  {| now := 1700000600; now_ms := 1700000600000;
     net := fun _ => true;
     new_wallet := None;
     ledger := fun _ => PyFloat.of_ratio false 15 10;
     broadcast := fun _ => false;
     meanwhile := quiet |}.

(** The first Bot API call of the activation fails, the later ones go
    through. *)
Definition env_hiccup : Env :=
  {| now := 1700000000; now_ms := 1700000000000;
     net := fun k => negb (Nat.eqb k 0);
     new_wallet := None;
     ledger := fun _ => PyFloat.zero;
     broadcast := fun _ => false;
     meanwhile := quiet |}.

(** User 7 has entered the seller's address. *)
Definition session_at_amount : Session :=
  {| step := waiting_amount; started_at := 1699999990;
     seller_wallet := Some seller; amount := None; fee_amount := None;
     seller_amount := None; escrow_address := None;
     escrow_private_key := None; transaction_id := None |}.

Definition store_at_amount : Store :=
  {| user_sessions := {[ 7 := session_at_amount ]}; escrow_wallets := ∅ |}.

Definition one_and_a_half : float := PyFloat.of_ratio false 15 10.
Definition fee_075 : float := PyFloat.of_ratio false 75 1000.
Definition share_1425 : float := PyFloat.of_ratio false 1425 1000.

(** User 7 waits for the funding of an escrow of 1.5 TON. *)
Definition session_funded : Session :=
  {| step := completed; started_at := 1699999990;
     seller_wallet := Some seller; amount := Some one_and_a_half;
     fee_amount := Some fee_075; seller_amount := Some share_1425;
     escrow_address := Some escrow; escrow_private_key := Some key;
     transaction_id := Some tid |}.

Definition record : WalletRecord :=
  {| w_info := {| address := escrow; private_key := key;
                  created_at := 1700000000000; wallet_object := Some key |};
     w_user_id := 7; w_seller_wallet := seller;
     w_amount := one_and_a_half; w_fee_amount := fee_075;
     w_seller_amount := share_1425; w_status := waiting_payment;
     w_created_timestamp := 1700000000; w_transaction_id := tid |}.

Definition store_funded : Store :=
  {| user_sessions := {[ 7 := session_funded ]};
     escrow_wallets := {[ tid := record ]} |}.

(** The rest of the program does nothing while the task sleeps, and the
    ledger reports an empty escrow address. *)
Definition idle : (Store -> Store) * Env := (fun s => s, env).

(** User 7 sends [/start] while the task sleeps. *)
Definition reset : (Store -> Store) * Env :=
  (on_sessions (delete 7), env).

End Example.

From Stdlib Require DecimalZ DecimalPos.

(* ===================================================================== *)
(** * Start-up *)
(* ===================================================================== *)

(** [main], up to the call that starts polling: the result tells whether
    [dp.start_polling] is reached.  [pytoniq_available] says whether the
    two imports succeed.  The test wallet is generated and dropped, and the
    balance of the fee wallet is asked for once. *)
Definition main (pytoniq_available : bool) (FEE_WALLET : pystr) (env : Env)
    : Act bool :=
  if negb pytoniq_available then mret false
  else if negb (is_valid_ton_address FEE_WALLET) then mret false
  else
    generated ← try_except (generate_escrow_wallet env;; mret true) (mret false);
    if negb generated then mret false
    else
      try_except (get_wallet_balance env FEE_WALLET;; mret tt) (mret tt);;
      mret true.

(* ===================================================================== *)
(** * More notions used to state the properties *)
(* ===================================================================== *)

(** All characters of a text are white space. *)
Definition blank (s : pystr) : Prop := forallb PyStr.isspace s = true.

(** The user an update comes from. *)
Definition sender (u : Update) : Z :=
  match u with
  | CommandStart user_id
  | CallbackMainMenu user_id
  | CallbackHowItWorks user_id
  | CallbackStartEscrow user_id
  | TextMessage user_id _ _ => user_id
  end.

(** Every Bot API call of the activation goes through. *)
Definition online (env : Env) : Prop := ∀ k, net env k = true.

(** What the handlers keep true of every session they leave behind. *)
Definition well_formed_session (FEE_WALLET : pystr) (sess : Session) : Prop :=
  step sess ≠ completed
  ∧ escrow_address sess = None
  ∧ escrow_private_key sess = None
  ∧ transaction_id sess = None
  ∧ (step sess = waiting_seller_wallet →
     seller_wallet sess = None ∧ amount sess = None)
  ∧ (step sess ≠ waiting_seller_wallet →
     ∃ w, seller_wallet sess = Some w
          ∧ is_valid_ton_address w = true ∧ w ≠ FEE_WALLET)
  ∧ (step sess = generating_wallet → is_Some (amount sess))
  ∧ match amount sess with
    | Some A =>
        PyFloat.leb A PyFloat.zero = false
        ∧ fee_amount sess
          = Some (PyFloat.round (PyFloat.mul A FEE_PERCENTAGE) 6)
        ∧ seller_amount sess
          = Some (PyFloat.round
                    (PyFloat.sub A
                       (PyFloat.round (PyFloat.mul A FEE_PERCENTAGE) 6)) 6)
    | None => fee_amount sess = None ∧ seller_amount sess = None
    end.

Definition well_formed_store (FEE_WALLET : pystr) (s : Store) : Prop :=
  escrow_wallets s = ∅
  ∧ ∀ user_id sess,
      user_sessions s !! user_id = Some sess →
      well_formed_session FEE_WALLET sess.

(** The progress notices in a log. *)
Definition is_progress_notice (e : Event) : bool :=
  match e with
  | Reply _ (MonitoringActive _ _ _ _) _ => true
  | _ => false
  end.

Definition progress_notices (l : list Event) : nat :=
  length (List.filter is_progress_notice l).

(** The check counts at which a progress notice is sent. *)
Definition progress_checks : list Z := [1; 5; 10; 20; 40].

(** The progress notices still ahead of a task. *)
Definition progress_ahead (t : Task) : nat :=
  match t with
  | Sleeping m =>
      length (List.filter (fun k => check_count m <=? k) progress_checks)
  | Ended => 0
  end.

(** Every event the act adds to the log satisfies [p]. *)
Definition emits {A} (p : Event -> bool) (a : Act A) : Prop :=
  ∀ s l, ∃ l', (a s l).2 = l ++ l' ∧ forallb p l' = true.

(** The notice that opens a release. *)
Definition is_processing_notice (e : Event) : bool :=
  match e with
  | Reply _ ProcessingTransfers _ => true
  | _ => false
  end.

(** The notice of a completed escrow. *)
Definition is_completed_notice (e : Event) : bool :=
  match e with
  | Reply _ (EscrowCompleted _ _ _ _ _) _ => true
  | _ => false
  end.

(** A Bot API call that addresses [user_id]. *)
Definition is_reply_to (user_id : Z) (e : Event) : bool :=
  match e with
  | Reply to _ _ => to =? user_id
  | _ => false
  end.

(** The transfers in a log, in order. *)
Definition transfers (l : list Event) : list Event :=
  List.filter is_transfer l.

(** The seller step takes the sanitized text [w] when the validator accepts
    it and it is not the fee wallet. *)
Definition seller_taken (FEE_WALLET w : pystr) : bool :=
  is_valid_ton_address w && negb (PyStr.eqb w FEE_WALLET).

(** The message is older than five minutes when it is handled. *)
Definition stale (env : Env) (date : option Z) : bool :=
  match date with
  | Some message_time => 300 <? now env - message_time
  | None => false
  end.

(** The session is older than thirty minutes. *)
Definition expired (env : Env) (sess : Session) : bool :=
  1800 <? now env - started_at sess.

(* ===================================================================== *)
(** * More data for the examples *)
(* ===================================================================== *)

Module Scenario.

(** More than half an hour after the sessions of the examples were
    started; every call to the outside world goes through. *)
Definition env_late : Env :=
  {| now := 1700002000; now_ms := 1700002000000;
     net := fun _ => true;
     new_wallet := None;
     ledger := fun _ => PyFloat.zero;
     broadcast := fun _ => true;
     meanwhile := quiet |}.

(** User 7 has just pressed "start escrow". *)
Definition store_started : Store :=
  {| user_sessions := {[ 7 := new_session Example.env ]};
     escrow_wallets := ∅ |}.

(** User 7 waits for the funding of an escrow, user 8 is about to enter an
    amount. *)
Definition store_two_users : Store :=
  {| user_sessions :=
       <[ 8 := Example.session_at_amount ]> {[ 7 := Example.session_funded ]};
     escrow_wallets := {[ Example.tid := Example.record ]} |}.

Definition tiny : float := PyFloat.of_ratio false 9 1000000.

(** User 7 waits for the funding of an escrow of 0.000009 TON: the fee
    rounds to zero. *)
Definition session_tiny : Session :=
  set_transaction_id Example.tid
    (set_escrow_private_key Example.key
       (set_escrow_address Example.escrow
          (set_step completed (priced tiny Example.session_at_amount)))).

Definition store_tiny : Store :=
  {| user_sessions := {[ 7 := session_tiny ]};
     escrow_wallets := {[ Example.tid := Example.record ]} |}.

(** A session in the step [completed] with its transaction id, but without
    an escrow address and an amount. *)
Definition session_bare : Session :=
  set_transaction_id Example.tid (set_step completed Example.session_at_amount).

Definition store_bare : Store :=
  {| user_sessions := {[ 7 := session_bare ]};
     escrow_wallets := ∅ |}.

(** The escrow address holds 1.5 TON; every call goes through. *)
Definition env_funded : Env :=
  {| now := 1700000600; now_ms := 1700000600000;
     net := fun _ => true;
     new_wallet := None;
     ledger := fun _ => Example.one_and_a_half;
     broadcast := fun _ => true;
     meanwhile := quiet |}.

(** The transfer to the seller is refused, the transfer of the fee goes
    through. *)
Definition env_seller_fails : Env :=
  {| now := 1700000600; now_ms := 1700000600000;
     net := fun _ => true;
     new_wallet := None;
     ledger := fun _ => Example.one_and_a_half;
     broadcast := fun k => Nat.eqb k 1;
     meanwhile := quiet |}.

(** User 7 has sent [/start] and pressed "start escrow" again: the session
    is a new one. *)
Definition restarted : Store -> Store :=
  on_sessions (<[ 7 := new_session Example.env ]>).

(** The session of user 7 waits for the funding of another escrow. *)
Definition superseded : Store -> Store :=
  on_sessions
    (<[ 7 := set_transaction_id (py "7_1700000999") Example.session_funded ]>).

(** The escrow address holds 1.5 TON and every call goes through.  While
    the task waits for the answer to its balance query, the [/start] of
    user 7 is handled and answered. *)
Definition env_start_during_poll : Env :=
  {| now := 1700000600; now_ms := 1700000600000;
     net := fun _ => true;
     new_wallet := None;
     ledger := fun _ => Example.one_and_a_half;
     broadcast := fun _ => true;
     meanwhile := fun k s =>
       if Nat.eqb k 0 then (run (start_handler Example.env 7) s).1.2
       else s |}.

End Scenario.

Arguments FEE_PERCENTAGE : simpl never.
Arguments PyFloat.round : simpl never.
Arguments PyFloat.mul : simpl never.
Arguments PyFloat.sub : simpl never.
Arguments PyFloat.leb : simpl never.
Arguments PyFloat.eqb : simpl never.
Arguments PyFloat.zero : simpl never.
Arguments is_valid_ton_address : simpl never.
Arguments format_transaction_id : simpl never.
Arguments sanitize_user_input : simpl never.
Arguments PyStr.strip : simpl never.
Arguments payment_ok : simpl never.
Arguments reported_balance : simpl never.
Arguments max_checks : simpl never.
Arguments process_escrow_release : simpl never.
Arguments process_escrow_release_during : simpl never.
Arguments session_is_own : simpl never.

Ltac act_unfold :=
  unfold run, awaiting, quiet, try_except, reply,
    modify, emit, get_store, update_session, item, raise,
    mbind, mret, Act_bind, Act_ret in *.

Arguments balance_checks : simpl never.

Lemma balance_checks_app l1 l2 :
  balance_checks (l1 ++ l2) = (balance_checks l1 + balance_checks l2)%nat.
Proof. unfold balance_checks. by rewrite List.filter_app, length_app. Qed.

Section Silent.
Lemma silent_ret {A} (x : A) : silent (mret x).
Proof. by intros s l. Qed.

Lemma silent_raise {A} : silent (@raise A).
Proof. by intros s l. Qed.

Lemma silent_bind {A B} (m : Act A) (k : A → Act B) :
  silent m → (∀ x, silent (k x)) → silent (m ≫= k).
Proof.
  intros Hm Hk s l. unfold mbind, Act_bind. specialize (Hm s l).
  destruct (m s l) as [[[x|] s'] l']; simpl in *; [|done].
  by rewrite Hk.
Qed.

Lemma silent_try {A} (body handler : Act A) :
  silent body → silent handler → silent (try_except body handler).
Proof.
  intros Hb Hh s l. unfold try_except. specialize (Hb s l).
  destruct (body s l) as [[[x|] s'] l']; simpl in *; [done|].
  by rewrite Hh.
Qed.

Lemma silent_reply env u n : silent (reply env u n).
Proof.
  intros s l. unfold reply. simpl. rewrite balance_checks_app.
  change (balance_checks [Reply _ _ _]) with 0%nat. lia.
Qed.

Lemma silent_modify f : silent (modify f).
Proof. by intros s l. Qed.

Lemma silent_get_store : silent get_store.
Proof. by intros s l. Qed.

Lemma silent_item {A} (o : option A) : silent (item o).
Proof. by destruct o. Qed.

Lemma silent_send_ton_payment env w to a : silent (send_ton_payment env w to a).
Proof.
  intros s l. unfold send_ton_payment. simpl. rewrite balance_checks_app.
  change (balance_checks [Transfer _ _ _]) with 0%nat. lia.
Qed.

Lemma silent_awaiting {A} others (call : Act A) :
  silent call → silent (awaiting others call).
Proof.
  intros Hc s l. unfold awaiting. specialize (Hc s l).
  by destruct (call s l) as [[r s'] l'].
Qed.

Lemma returns_ret {A} (x : A) : returns (mret x).
Proof. intros s l. by exists x. Qed.

Lemma returns_try {A} (body handler : Act A) :
  returns handler → returns (try_except body handler).
Proof.
  intros Hh s l. unfold try_except.
  destruct (body s l) as [[[x|] s'] l']; simpl; [by exists x|apply Hh].
Qed.

Lemma returns_bind {A B} (m : Act A) (k : A → Act B) :
  returns m → (∀ x, returns (k x)) → returns (m ≫= k).
Proof.
  intros Hm Hk s l. unfold mbind, Act_bind. destruct (Hm s l) as [x Hx].
  destruct (m s l) as [[[y|] s'] l']; simpl in *; [apply Hk|done].
Qed.
End Silent.

Create HintDb act discriminated.
#[export] Hint Resolve silent_ret silent_raise silent_reply silent_modify
  silent_get_store silent_item silent_send_ton_payment returns_ret : act.

Ltac silent_step :=
  lazymatch goal with
  | |- silent (awaiting _ _) => apply silent_awaiting
  | |- silent (_ ≫= _) => apply silent_bind; [|intros ?]
  | |- silent (try_except _ _) => apply silent_try
  | |- silent (match ?x with _ => _ end) => destruct x
  | |- silent _ => solve [eauto with act]
  end.

Ltac silent_tac := repeat silent_step.

Lemma process_escrow_release_during_silent FEE_WALLET others env user_id tid
    session :
  silent (process_escrow_release_during FEE_WALLET others env user_id tid
            session).
Proof. unfold process_escrow_release_during. silent_tac. Qed.

Lemma process_escrow_release_during_returns FEE_WALLET others env user_id tid
    session :
  returns (process_escrow_release_during FEE_WALLET others env user_id tid
             session).
Proof.
  unfold process_escrow_release_during.
  apply returns_try, returns_try, returns_ret.
Qed.

Lemma process_escrow_release_silent FEE_WALLET env user_id tid session :
  silent (process_escrow_release FEE_WALLET env user_id tid session).
Proof.
  unfold process_escrow_release. apply process_escrow_release_during_silent.
Qed.

Lemma process_escrow_release_returns FEE_WALLET env user_id tid session :
  returns (process_escrow_release FEE_WALLET env user_id tid session).
Proof.
  unfold process_escrow_release. apply process_escrow_release_during_returns.
Qed.

(** The addresses of the examples are addresses that pytoniq takes: each
    carries the CRC16 of its first 34 bytes. *)
Lemma example_addresses_pass_checksum :
  Example.checksum_ok Example.fee_wallet = true
  ∧ Example.checksum_ok Example.seller = true
  ∧ Example.checksum_ok Example.escrow = true.
Proof. by vm_compute. Qed.
Section ValidatorFacts.
Import PyStr.

Lemma lstrip_head s c : head (lstrip s) = Some c → isspace c = false.
Proof.
  induction s as [|a s IH]; simpl; [done|].
  destruct (isspace a) eqn:Ha; [exact IH|].
  simpl. intros [= <-]. exact Ha.
Qed.

Lemma lstrip_id s :
  (∀ c, head s = Some c → isspace c = false) → lstrip s = s.
Proof.
  destruct s as [|a s]; simpl; [done|].
  intros H. by rewrite (H a eq_refl).
Qed.

Lemma lstrip_length s : (length (lstrip s) ≤ length s)%nat.
Proof.
  induction s as [|a s IH]; simpl; [lia|].
  destruct (isspace a); simpl; lia.
Qed.

Lemma strip_last s c : last (strip s) = Some c → isspace c = false.
Proof.
  unfold strip, rstrip. rewrite last_reverse. apply lstrip_head.
Qed.

Lemma strip_length s : (length (strip s) ≤ length s)%nat.
Proof.
  unfold strip, rstrip. rewrite length_reverse.
  etrans; [apply lstrip_length|]. rewrite length_reverse.
  apply lstrip_length.
Qed.

Lemma strip_id s :
  (∀ c, head s = Some c → isspace c = false) →
  (∀ c, last s = Some c → isspace c = false) →
  strip s = s.
Proof.
  intros Hh Hl. unfold strip, rstrip.
  rewrite (lstrip_id s Hh).
  rewrite lstrip_id; [apply reverse_involutive|].
  intros c. rewrite head_reverse. apply Hl.
Qed.

Lemma startswith_prefix s p : startswith s p = true ↔ p `prefix_of` s.
Proof.
  revert s. induction p as [|a p IH]; intros s; simpl.
  - split; [intros _; apply prefix_nil | done].
  - destruct s as [|b s].
    + split; [done|]. intros H. by apply prefix_nil_not in H.
    + rewrite andb_true_iff, N.eqb_eq, IH. split.
      * intros [-> H]. by apply prefix_cons.
      * intros H. split; [by apply prefix_cons_inv_1 in H|by apply prefix_cons_inv_2 in H].
Qed.

Lemma span_spec cls s :
  s = (span cls s).1 ++ (span cls s).2
  ∧ forallb cls (span cls s).1 = true
  ∧ (∀ c, head (span cls s).2 = Some c → cls c = false).
Proof.
  induction s as [|a s (IH1 & IH2 & IH3)]; simpl; [done|].
  destruct (cls a) eqn:Ha.
  - destruct (span cls s) as [x y]; simpl in *.
    split; [by f_equal|]. split; [by rewrite Ha|done].
  - simpl. split; [done|]. split; [done|]. by intros c [= <-].
Qed.

Lemma span_all cls s : forallb cls s = true → span cls s = (s, []).
Proof.
  induction s as [|a s IH]; simpl; [done|].
  rewrite andb_true_iff. intros [-> H]. by rewrite (IH H).
Qed.

(** Away from a final line feed, the pattern accepts exactly the non-empty
    texts made of characters of the class. *)
Lemma re_match_plus_spec cls s :
  (∀ c, last s = Some c → c ≠ 10%N) →
  re_match_plus cls s = true ↔ s ≠ [] ∧ forallb cls s = true.
Proof.
  intros Hlast. split.
  - unfold re_match_plus.
    destruct (span_spec cls s) as (Hs & Hall & _).
    destruct (span cls s) as [body rest]; simpl in *.
    destruct body as [|b body]; [done|].
    destruct rest as [|c [|d rest]]; [| |done].
    + intros _. rewrite app_nil_r in Hs. by subst s.
    + intros Hc%N.eqb_eq. subst c. exfalso.
      apply (Hlast 10%N); [|done]. rewrite Hs.
      apply last_Some. by exists (b :: body).
  - intros [Hne Hall]. unfold re_match_plus. rewrite (span_all _ _ Hall).
    by destruct s.
Qed.
End ValidatorFacts.

Lemma last_drop_Some {A} (l : list A) n c : last (drop n l) = Some c → last l = Some c.
Proof.
  intros H. rewrite <- (take_drop n l). rewrite last_app, H. done.
Qed.

Lemma base64url_not_space c : base64url_char c = true → PyStr.isspace c = false.
Proof.
  unfold base64url_char, PyStr.isspace. intros H.
  apply not_true_iff_false. intros H'.
  rewrite ?orb_true_iff, ?andb_true_iff, ?N.leb_le, ?N.eqb_eq in H.
  rewrite ?orb_true_iff, ?andb_true_iff, ?N.leb_le, ?N.eqb_eq in H'. lia.
Qed.

Lemma is_valid_ton_address_iff s :
  is_valid_ton_address s = true ↔ well_formed_address (PyStr.strip s).
Proof.
  unfold is_valid_ton_address, well_formed_address.
  set (a := PyStr.strip s).
  assert (Hlast : ∀ c, last (drop 2 a) = Some c → c ≠ 10%N).
  { intros c Hc%last_drop_Some%strip_last ->. done. }
  destruct (Z.of_nat (length a) <? 48) eqn:H48; cbn [orb negb].
  { split; [done|]. intros (_ & ? & _). lia. }
  destruct (50 <? Z.of_nat (length a)) eqn:H50; cbn [orb negb].
  { split; [done|]. intros (_ & ? & _). lia. }
  destruct (existsb (PyStr.startswith a) valid_prefixes) eqn:Hp; cbn [orb negb].
  - apply existsb_exists in Hp as (p & Hin & Hp).
    apply list_elem_of_In in Hin. apply startswith_prefix in Hp.
    destruct (PyStr.re_match_plus base64url_char (drop 2 a)) eqn:Hre; cbn [orb negb].
    + apply (re_match_plus_spec _ _ Hlast) in Hre as [_ Hall].
      split; [intros _|done]. repeat split; eauto; lia.
    + split; [done|]. intros (_ & Hlen & Hall). rewrite <- Hre.
      apply (re_match_plus_spec _ _ Hlast). split; [|done].
      intros Hnil. apply (f_equal length) in Hnil.
      rewrite length_drop in Hnil. simpl in Hnil. lia.
  - split; [done|]. intros ((p & Hin & Hpre) & _).
    assert (existsb (PyStr.startswith a) valid_prefixes = true) as Hex; [|congruence].
    apply existsb_exists. exists p. split; [by apply list_elem_of_In|].
    by apply startswith_prefix.
Qed.

(* ===================================================================== *)
(** * Nothing is ever provisioned *)
(* ===================================================================== *)

Section Idle.

Lemma idle_ret {A} (x : A) : idle_act (mret x).
Proof. by intros s l. Qed.

Lemma idle_raise {A} : idle_act (@raise A).
Proof. by intros s l. Qed.

Lemma idle_bind {A B} (m : Act A) (k : A → Act B) :
  idle_act m → (∀ x, idle_act (k x)) → idle_act (m ≫= k).
Proof.
  intros Hm Hk s l Hs Hl. unfold mbind, Act_bind.
  destruct (Hm s l Hs Hl) as [Hs' Hl'].
  destruct (m s l) as [[[x|] s'] l']; simpl in *; [by apply Hk|done].
Qed.

(** What follows the read of an unbound name is never run. *)
Lemma idle_bind_raise {A B} (k : A → Act B) : idle_act (raise ≫= k).
Proof. by intros s l. Qed.

Lemma idle_try {A} (body handler : Act A) :
  idle_act body → idle_act handler → idle_act (try_except body handler).
Proof.
  intros Hb Hh s l Hs Hl. unfold try_except.
  destruct (Hb s l Hs Hl) as [Hs' Hl'].
  destruct (body s l) as [[[x|] s'] l']; simpl in *; [done|by apply Hh].
Qed.

Lemma idle_reply env u n : idle_act (reply env u n).
Proof.
  intros s l Hs Hl. unfold reply. simpl. split; [done|].
  rewrite existsb_app, Hl. reflexivity.
Qed.

Lemma idle_get_store {B} (k : Store → Act B) :
  (∀ s, unprovisioned s → idle_act (k s)) → idle_act (get_store ≫= k).
Proof. intros Hk s l Hs Hl. unfold mbind, Act_bind, get_store. by apply Hk. Qed.

Lemma idle_delete user_id : idle_act (modify (on_sessions (delete user_id))).
Proof.
  intros s l [Hw Hs] Hl. split; [|done]. split; [done|].
  intros u sess. cbn. intros [_ H]%lookup_delete_Some. by apply (Hs u).
Qed.

Lemma idle_new_session env user_id :
  idle_act (modify (on_sessions (<[user_id := new_session env]>))).
Proof.
  intros s l [Hw Hs] Hl. split; [|done]. split; [done|].
  intros u sess. cbn. intros [[_ <-]|[_ H]]%lookup_insert_Some.
  - by split.
  - by apply (Hs u).
Qed.

Lemma idle_update_session user_id f :
  (∀ sess, unprovisioned_session sess → unprovisioned_session (f sess)) →
  idle_act (update_session user_id f).
Proof.
  intros Hf s l [Hw Hs] Hl. split; [|done]. split; [done|].
  intros u sess. cbn. rewrite lookup_alter.
  case_decide as Hu.
  - subst u. destruct (user_sessions s !! user_id) as [sess0|] eqn:Hs0;
      [|done].
    intros [= <-]. apply Hf. by apply (Hs user_id).
  - by apply (Hs u).
Qed.

End Idle.

Ltac idle_step :=
  lazymatch goal with
  | |- idle_act (match ?x with _ => _ end) => destruct x
  | |- idle_act (raise ≫= _) => apply idle_bind_raise
  | |- idle_act (get_store ≫= _) => apply idle_get_store; intros ? ?
  | |- idle_act (_ ≫= _) => apply idle_bind; [|intros ?]
  | |- idle_act (try_except _ _) => apply idle_try
  | |- idle_act (update_session _ _) =>
      apply idle_update_session; intros ? [? ?]; by split
  | |- idle_act (mret _) => apply idle_ret
  | |- idle_act raise => apply idle_raise
  | |- idle_act (reply _ _ _) => apply idle_reply
  | |- idle_act (modify (on_sessions (delete _))) => apply idle_delete
  | |- idle_act (modify (on_sessions (insert _ (new_session _)))) =>
      apply idle_new_session
  | |- idle_act (let _ := _ in _) => cbv zeta
  end.

Ltac idle_tac := repeat idle_step.

Lemma generate_escrow_wallet_idle env : idle_act (generate_escrow_wallet env).
Proof. unfold generate_escrow_wallet. idle_tac. Qed.

Lemma handle_amount_input_idle float_of_text env user_id text :
  idle_act (handle_amount_input float_of_text env user_id text).
Proof.
  unfold handle_amount_input, handle_amount_input_user_id. idle_tac.
  apply generate_escrow_wallet_idle.
Qed.

Lemma handle_seller_wallet_input_idle FEE_WALLET env user_id text :
  idle_act (handle_seller_wallet_input FEE_WALLET env user_id text).
Proof. unfold handle_seller_wallet_input. idle_tac. Qed.

Lemma dispatch_idle float_of_text FEE_WALLET env u :
  idle_act (dispatch float_of_text FEE_WALLET env u).
Proof.
  destruct u; cbn [dispatch].
  - unfold start_handler. idle_tac.
  - unfold menu_handler. idle_tac.
  - unfold how_it_works_handler. idle_tac.
  - unfold escrow_entry. idle_tac.
  - unfold handle_text_messages. idle_tac;
      auto using handle_amount_input_idle, handle_seller_wallet_input_idle.
Qed.

(** From the start of the process on, whatever updates arrive and whatever
    the outside world answers, no escrow is provisioned and no monitor
    task is created. *)
Lemma process_unprovisioned float_of_text FEE_WALLET updates s :
  unprovisioned s →
  unprovisioned (process float_of_text FEE_WALLET updates s).1
  ∧ existsb is_create_task (process float_of_text FEE_WALLET updates s).2
    = false.
Proof.
  revert s. induction updates as [|[env u] updates IH]; intros s Hs; [done|].
  cbn [process].
  destruct (dispatch_idle float_of_text FEE_WALLET env u s [] Hs eq_refl)
    as [Hs1 Hl1].
  unfold run.
  destruct (dispatch float_of_text FEE_WALLET env u s []) as [[r s1] l1].
  cbn in Hs1, Hl1. destruct (IH s1 Hs1) as [Hs2 Hl2].
  destruct (process float_of_text FEE_WALLET updates s1) as [s2 l2].
  cbn in *. split; [done|]. by rewrite existsb_app, Hl1, Hl2.
Qed.

Lemma alter_present {A} (f : A → A) (m : gmap Z A) k x :
  m !! k = Some x → alter f k m = <[k := f x]> m.
Proof.
  intros H. apply map_eq. intros j. destruct (decide (k = j)) as [->|Hne].
  - by rewrite lookup_alter_eq, lookup_insert_eq, H.
  - by rewrite lookup_alter_ne, lookup_insert_ne.
Qed.

Lemma handle_amount_input_eval float_of_text env user_id text s sess A :
  user_sessions s !! user_id = Some sess →
  float_of_text (sanitize_user_input (PyStr.strip text) 20) = Some A →
  PyFloat.leb A PyFloat.zero = false →
  run (handle_amount_input float_of_text env user_id text) s =
    if net env 0 then
      if net env 1 then
        (Return tt,
         on_sessions (<[user_id := set_step waiting_amount (priced A sess)]>) s,
         [Reply user_id GeneratingWallet true;
          Reply user_id WalletGenerationFailed true])
      else
        (if net env 2 then Return tt else Raised,
         on_sessions (<[user_id := set_step waiting_amount (priced A sess)]>) s,
         [Reply user_id GeneratingWallet true;
          Reply user_id WalletGenerationFailed false;
          Reply user_id ErrorProcessingAmount (net env 2)])
    else
      (if net env 1 then Return tt else Raised,
       on_sessions (<[user_id := set_step generating_wallet (priced A sess)]>) s,
       [Reply user_id GeneratingWallet false;
        Reply user_id ErrorProcessingAmount (net env 1)]).
Proof.
  intros Hs Hp Hpos.
  assert (Hgen : on_sessions (alter (set_step generating_wallet) user_id)
            (on_sessions (alter (set_seller_amount
                 (PyFloat.round (PyFloat.sub A
                    (PyFloat.round (PyFloat.mul A FEE_PERCENTAGE) 6)) 6)) user_id)
               (on_sessions (alter (set_fee_amount
                    (PyFloat.round (PyFloat.mul A FEE_PERCENTAGE) 6)) user_id)
                  (on_sessions (alter (set_amount A) user_id) s)))
          = on_sessions (<[user_id := set_step generating_wallet (priced A sess)]>) s).
  { unfold on_sessions; cbn. f_equal.
    rewrite (alter_present _ _ _ _ Hs).
    rewrite (alter_present _ _ _ _ (lookup_insert_eq _ _ _)), insert_insert_eq.
    rewrite (alter_present _ _ _ _ (lookup_insert_eq _ _ _)), insert_insert_eq.
    rewrite (alter_present _ _ _ _ (lookup_insert_eq _ _ _)), insert_insert_eq.
    done. }
  assert (Hback : on_sessions (alter (set_step waiting_amount) user_id)
            (on_sessions (<[user_id := set_step generating_wallet (priced A sess)]>) s)
          = on_sessions (<[user_id := set_step waiting_amount (priced A sess)]>) s).
  { unfold on_sessions; cbn. f_equal.
    rewrite (alter_present _ _ _ _ (lookup_insert_eq _ _ _)), insert_insert_eq.
    done. }
  unfold handle_amount_input, handle_amount_input_user_id, generate_escrow_wallet.
  rewrite Hp, Hpos. act_unfold. cbn. rewrite Hgen.
  destruct (net env 0); cbn.
  - destruct (new_wallet env) as [[a k]|]; cbn.
    + destruct (match a with [] => true | _ => false end
                || negb (is_valid_ton_address a)); cbn; rewrite Hback;
        destruct (net env 1); cbn; reflexivity.
    + rewrite Hback. destruct (net env 1); cbn; reflexivity.
  - reflexivity.
Qed.

Lemma process_escrow_release_eval FEE_WALLET env user_id tid sess s
    A seller addr fee share rec :
  amount sess = Some A →
  seller_wallet sess = Some seller →
  escrow_address sess = Some addr →
  fee_amount sess = Some fee →
  seller_amount sess = Some share →
  escrow_wallets s !! tid = Some rec →
  net env 0 = true →
  run (process_escrow_release FEE_WALLET env user_id tid sess) s =
    let seller_success := payment_ok env 0 rec seller share in
    let fee_success := payment_ok env 1 rec FEE_WALLET fee in
    let notice :=
      if seller_success && fee_success
      then EscrowCompleted A share fee seller addr
      else if seller_success && negb fee_success
      then PartialSuccess share fee
      else PaymentFailed A addr in
    if net env 1 then
      (Return tt,
       on_wallets (delete tid) (on_sessions (delete user_id) s),
       [Reply user_id ProcessingTransfers true;
        Transfer seller share seller_success;
        Transfer FEE_WALLET fee fee_success;
        Reply user_id notice true])
    else
      (Return tt, s,
       [Reply user_id ProcessingTransfers true;
        Transfer seller share seller_success;
        Transfer FEE_WALLET fee fee_success;
        Reply user_id notice false;
        Reply user_id (CriticalRelease (Some addr) user_id) (net env 2)]).
Proof.
  intros HA Hseller Haddr Hfee Hshare Hrec H0.
  unfold process_escrow_release, process_escrow_release_during, send_ton_payment.
  rewrite HA, Hseller, Haddr, Hfee, Hshare. act_unfold. cbn.
  rewrite H0, Hrec. cbn.
  destruct (payment_ok env 0 rec seller share),
    (payment_ok env 1 rec FEE_WALLET fee); cbn;
    destruct (net env 1); cbn; try reflexivity;
    destruct (net env 2); reflexivity.
Qed.

Lemma handle_timeout_spec env m s l :
  ∃ s' l', handle_timeout env m s l = (Return Ended, s', l ++ l')
           ∧ balance_checks l' = 0%nat
           ∧ (calm env → s' = s).
Proof.
  unfold handle_timeout. act_unfold.
  destruct (max_checks <=? check_count m); cbn.
  - destruct (session_is_own _ _); cbn.
    + destruct (net env _); cbn; do 2 eexists;
        (split; [reflexivity|]); (split; [done|]); intros Hc; apply Hc.
    + exists s, []. by rewrite app_nil_r.
  - exists s, []. by rewrite app_nil_r.
Qed.

Lemma monitor_wake_budget FEE_WALLET env m s :
  ∃ t s' l,
    run (monitor_wake FEE_WALLET env m) s = (Return t, s', l)
    ∧ (balance_checks l + remaining t ≤ remaining (Sleeping m))%nat.
Proof.
  unfold monitor_wake, run.
  destruct (check_count m <? max_checks) eqn:Hc.
  - apply Z.ltb_lt in Hc.
    unfold get_wallet_balance. act_unfold. cbn.
    destruct (user_sessions s !! m_user_id m) as [sess|] eqn:Hs; cbn.
    2: { do 3 eexists. split; [reflexivity|]. unfold balance_checks. cbn. lia. }
    destruct (session_is_own _ _); cbn.
    2: { do 3 eexists. split; [reflexivity|]. unfold balance_checks. cbn. lia. }
    destruct (escrow_address sess) as [addr|]; cbn.
    2: { do 3 eexists. split; [reflexivity|]. unfold balance_checks. cbn. lia. }
    destruct (amount sess) as [A|]; cbn.
    2: { do 3 eexists. split; [reflexivity|]. unfold balance_checks. cbn. lia. }
    destruct (PyFloat.leb A (reported_balance env addr)); cbn.
    + pose proof (process_escrow_release_during_returns FEE_WALLET
                    (meanwhile env) env (m_user_id m) (m_transaction_id m)
                    sess (meanwhile env 0 s) [BalanceCheck addr]) as [x Hx].
      pose proof (process_escrow_release_during_silent FEE_WALLET
                    (meanwhile env) env (m_user_id m) (m_transaction_id m)
                    sess (meanwhile env 0 s) [BalanceCheck addr]) as Hq.
      destruct (process_escrow_release_during _ _ _ _ _ _ _ _)
        as [[r s'] l'].
      simpl in Hx, Hq. subst r. do 3 eexists. split; [reflexivity|].
      rewrite Hq. change (balance_checks [BalanceCheck addr]) with 1%nat.
      cbn. lia.
    + destruct (bool_decide (check_count m ∈ [1; 5; 10; 20; 40])); cbn.
      * destruct (net env 0); cbn; do 3 eexists; (split; [reflexivity|]);
          unfold balance_checks; cbn; lia.
      * do 3 eexists. split; [reflexivity|]. unfold balance_checks. cbn. lia.
  - destruct (handle_timeout_spec env m s []) as (s' & l' & -> & Hl' & _).
    do 3 eexists. split; [reflexivity|].
    change ([] ++ l') with l'. rewrite Hl'. cbn. lia.
Qed.

(** However the task is interleaved with the rest of the program, it makes
    no more balance checks than its budget has left. *)
Lemma monitor_payment_budget FEE_WALLET schedule t s :
  (balance_checks (monitor_payment FEE_WALLET schedule t s).2 ≤ remaining t)%nat.
Proof.
  revert t s. induction schedule as [|[others env] schedule IH]; intros t s.
  - destruct t; unfold balance_checks; cbn; lia.
  - destruct t as [m|]; [|unfold balance_checks; cbn; lia].
    cbn [monitor_payment].
    destruct (monitor_wake_budget FEE_WALLET env m (others s))
      as (t1 & s1 & l1 & -> & Hb).
    specialize (IH t1 s1).
    destruct (monitor_payment FEE_WALLET schedule t1 s1) as [[t2 s2] l2].
    cbn in *. rewrite balance_checks_app. lia.
Qed.

Lemma monitor_wake_invalid FEE_WALLET env m s :
  session_is_own (user_sessions s !! m_user_id m) (m_transaction_id m) = false →
  run (monitor_wake FEE_WALLET env m) s = (Return Ended, s, []).
Proof.
  intros Hinv. unfold monitor_wake, handle_timeout, run. act_unfold.
  destruct (check_count m <? max_checks); cbn.
  - destruct (user_sessions s !! m_user_id m) as [sess|]; [|done].
    by rewrite Hinv.
  - destruct (max_checks <=? check_count m); cbn; [|done].
    by rewrite Hinv.
Qed.

Lemma monitor_payment_ended FEE_WALLET schedule s :
  monitor_payment FEE_WALLET schedule Ended s = (Ended, s, []).
Proof. by destruct schedule as [|[??]?]. Qed.

Lemma monitor_payment_app FEE_WALLET schedule rest t s s' l :
  monitor_payment FEE_WALLET schedule t s = (Ended, s', l) →
  monitor_payment FEE_WALLET (schedule ++ rest) t s = (Ended, s', l).
Proof.
  revert t s s' l. induction schedule as [|[others env] schedule IH];
    intros t s s' l H.
  - cbn in H. injection H as -> -> <-. apply monitor_payment_ended.
  - destruct t as [m|]; [|by rewrite monitor_payment_ended in *].
    cbn [monitor_payment app] in *.
    destruct (run (monitor_wake FEE_WALLET env m) (others s)) as [[r s1] l1].
    destruct (monitor_payment FEE_WALLET schedule _ s1) as [[t2 s2] l2] eqn:Hrest.
    injection H as -> -> <-.
    by rewrite (IH _ _ _ _ Hrest).
Qed.

(** One poll of a task whose session is in place and whose escrow address
    is still short of the expected amount. *)
Lemma monitor_wake_unfunded FEE_WALLET env m s sess addr A :
  check_count m < max_checks →
  user_sessions s !! m_user_id m = Some sess →
  session_is_own (Some sess) (m_transaction_id m) = true →
  escrow_address sess = Some addr →
  amount sess = Some A →
  unfunded A addr env →
  ∃ m' s' l,
    run (monitor_wake FEE_WALLET env m) s = (Return (Sleeping m'), s', l)
    ∧ m_user_id m' = m_user_id m
    ∧ m_transaction_id m' = m_transaction_id m
    ∧ check_count m' = check_count m + 1
    ∧ balance_checks l = 1%nat
    ∧ (calm env → s' = s)
    ∧ (undisturbed_during (m_user_id m) (m_transaction_id m) env →
       user_sessions s' !! m_user_id m = user_sessions s !! m_user_id m
       ∧ escrow_wallets s' !! m_transaction_id m
         = escrow_wallets s !! m_transaction_id m).
Proof.
  intros Hc Hs Hown Haddr HA Hlow. apply Z.ltb_lt in Hc.
  unfold monitor_wake, run, get_wallet_balance. rewrite Hc. act_unfold.
  cbn. rewrite Hs. cbn. rewrite Hown, Haddr, HA. cbn.
  rewrite Hlow.
  assert (Hkeep : ∀ s', undisturbed_during (m_user_id m) (m_transaction_id m)
                          env →
            s' = meanwhile env 0 s ∨ s' = meanwhile env 1 (meanwhile env 0 s) →
            user_sessions s' !! m_user_id m = Some sess
            ∧ escrow_wallets s' !! m_transaction_id m
              = escrow_wallets s !! m_transaction_id m).
  { intros s' Hu. destruct (Hu 0%nat s) as [H1 H2].
    destruct (Hu 1%nat (meanwhile env 0 s)) as [H3 H4].
    intros [-> | ->]; [by rewrite H1, H2|by rewrite H3, H4, H1, H2]. }
  destruct (bool_decide (check_count m ∈ [1; 5; 10; 20; 40])); cbn.
  - destruct (net env 0); cbn; do 3 eexists; (split; [reflexivity|]);
      (split_and!; try done);
      first [intros Hq; by rewrite !Hq|intros Hu; apply Hkeep; auto].
  - do 3 eexists. split; [reflexivity|]. split_and!; try done;
      first [intros Hq; by rewrite !Hq|intros Hu; apply Hkeep; auto].
Qed.

(** The last awakening: the budget is used up and the session is in place. *)
Lemma monitor_wake_timeout FEE_WALLET env m s sess :
  max_checks <= check_count m →
  user_sessions s !! m_user_id m = Some sess →
  session_is_own (Some sess) (m_transaction_id m) = true →
  run (monitor_wake FEE_WALLET env m) s
  = (Return Ended, meanwhile env 0 s,
     [Reply (m_user_id m) (EscrowTimeout (escrow_address sess)) (net env 0)]).
Proof.
  intros Hc Hs Hown.
  unfold monitor_wake, handle_timeout, run.
  replace (check_count m <? max_checks) with false by (symmetry; apply Z.ltb_ge; lia).
  replace (max_checks <=? check_count m) with true by (symmetry; apply Z.leb_le; lia).
  act_unfold. cbn. rewrite Hs, Hown. cbn. by destruct (net env 0).
Qed.

Lemma monitor_runs_out FEE_WALLET n : ∀ schedule m s sess addr A,
  check_count m <= max_checks →
  remaining (Sleeping m) = n →
  length schedule = S n →
  Forall (λ '(others, env),
            undisturbed (m_user_id m) (m_transaction_id m) others
            ∧ undisturbed_during (m_user_id m) (m_transaction_id m) env
            ∧ unfunded A addr env) schedule →
  user_sessions s !! m_user_id m = Some sess →
  session_is_own (Some sess) (m_transaction_id m) = true →
  escrow_address sess = Some addr →
  amount sess = Some A →
  ∃ s' l ok,
    monitor_payment FEE_WALLET schedule (Sleeping m) s = (Ended, s', l)
    ∧ balance_checks l = n
    ∧ last l = Some (Reply (m_user_id m) (EscrowTimeout (Some addr)) ok)
    ∧ user_sessions s' !! m_user_id m = Some sess
    ∧ escrow_wallets s' !! m_transaction_id m
      = escrow_wallets s !! m_transaction_id m.
Proof.
  induction n as [|n IH]; intros schedule m s sess addr A Hle Hrem Hlen Hall
    Hs Hown Haddr HA.
  - destruct schedule as [|[others env] [|??]]; try done.
    apply Forall_inv in Hall. cbn in Hall. destruct Hall as (Hund & Hdur & _).
    destruct (Hund s) as [Hu Hw].
    destruct (Hdur 0%nat (others s)) as [Hu0 Hw0].
    cbn [monitor_payment].
    rewrite (monitor_wake_timeout _ _ _ _ sess); [| |by rewrite Hu|done].
    2: { unfold remaining in Hrem. lia. }
    cbn. rewrite Haddr. do 3 eexists.
    repeat split; [by rewrite Hu0, Hu|by rewrite Hw0].
  - destruct schedule as [|[others env] schedule]; [done|].
    inversion Hall as [|? ? Hhead Hall']; subst. cbn in Hhead.
    destruct Hhead as (Hund & Hdur & Hlow).
    destruct (Hund s) as [Hu Hw].
    destruct (monitor_wake_unfunded FEE_WALLET env m (others s) sess addr A)
      as (m' & s1 & l1 & Hwake & Hid & Htid & Hcount & Hl1 & _ & Hkeep);
      [unfold remaining in Hrem; lia|by rewrite Hu|done..|].
    destruct (Hkeep Hdur) as [Hu1 Hw1].
    destruct (IH schedule m' s1 sess addr A)
      as (s' & l2 & ok & Hrun & Hl2 & Hlast & Hs' & Hw');
      [unfold remaining in Hrem; lia|unfold remaining in *; lia
      |cbn in Hlen; lia|by rewrite Hid, Htid
      |by rewrite Hid, Hu1, Hu|by rewrite Htid|done..|].
    cbn [monitor_payment]. rewrite Hwake, Hrun.
    exists s', (l1 ++ l2), ok. rewrite balance_checks_app, Hl1, Hl2.
    repeat split.
    + rewrite last_app, Hlast. by rewrite Hid.
    + by rewrite <- Hid.
    + rewrite <- Htid, Hw', Htid, Hw1. done.
Qed.

(* ===================================================================== *)
(** * The address validator *)
(* ===================================================================== *)

(** C9 (as amended).  The validator is a function of the text alone.  It
    first strips the white space around the text, and accepts exactly when
    the stripped text starts with one of [EQ], [UQ], [kQ], [0Q], has 48 to
    50 characters and, after its first two characters, has only characters
    of [A-Za-z0-9_-].  So a text that is already stripped is accepted if
    and only if it meets the three conditions itself; [EQ] followed by 46
    characters of the alphabet (48 in all) is accepted, and its first 47
    characters are refused. *)
Theorem is_valid_ton_address_spec (s body : pystr) :
  (is_valid_ton_address s = true ↔ well_formed_address (PyStr.strip s))
  ∧ (PyStr.strip s = s →
     (is_valid_ton_address s = true ↔ well_formed_address s))
  ∧ (length body = 46%nat → forallb base64url_char body = true →
     length (py "EQ" ++ body) = 48%nat
     ∧ is_valid_ton_address (py "EQ" ++ body) = true
     ∧ is_valid_ton_address (take 47 (py "EQ" ++ body)) = false).
Proof.
  split; [apply is_valid_ton_address_iff|].
  split; [intros Hs; rewrite is_valid_ton_address_iff; by rewrite Hs|].
  intros Hlen Hbody.
  assert (Hstrip : PyStr.strip (py "EQ" ++ body) = py "EQ" ++ body).
  { apply strip_id.
    - intros c [= <-]. reflexivity.
    - intros c Hc. apply base64url_not_space.
      change (py "EQ" ++ body) with (69%N :: 81%N :: body) in Hc.
      destruct body as [|b body]; [done|].
      rewrite !last_cons_cons in Hc.
      apply last_Some_elem_of, list_elem_of_In in Hc.
      rewrite forallb_forall in Hbody. by apply Hbody. }
  split; [rewrite length_app, Hlen; reflexivity|]. split.
  - apply is_valid_ton_address_iff. rewrite Hstrip. repeat split.
    + exists (py "EQ"). split; [apply list_elem_of_here|by exists body].
    + rewrite length_app, Hlen. cbn. lia.
    + rewrite length_app, Hlen. cbn. lia.
    + exact Hbody.
  - unfold is_valid_ton_address.
    pose proof (strip_length (take 47 (py "EQ" ++ body))) as Hle.
    rewrite length_take in Hle.
    replace (Z.of_nat (length (PyStr.strip (take 47 (py "EQ" ++ body)))) <? 48)
      with true; [done|].
    symmetry. apply Z.ltb_lt. lia.
Qed.

(** The validator on [EQ] followed by 46 letters [A], and on the first 47
    characters of that text. *)
Lemma is_valid_ton_address_spec_witness :
  is_valid_ton_address (py "EQ" ++ replicate 46 65%N) = true
  ∧ is_valid_ton_address (take 47 (py "EQ" ++ replicate 46 65%N)) = false.
Proof.
  destruct (is_valid_ton_address_spec [] (replicate 46 65%N)) as (_ & _ & H).
  apply H; reflexivity.
Defined.

(** C9, as it is stated, fails: a valid address followed by one space has a
    length within the bound (49) and a recognized prefix, but its remainder
    holds a character outside the alphabet, and the validator accepts it. *)
Lemma padded_address_is_accepted :
  is_valid_ton_address (Example.seller ++ py " ") = true
  ∧ ¬ well_formed_address (Example.seller ++ py " ").
Proof.
  split; [reflexivity|].
  intros (_ & _ & H). vm_compute in H. discriminate.
Qed.

(* ===================================================================== *)
(** * Amounts *)
(* ===================================================================== *)

(** C1 (as amended).  For every amount [A] that [handle_amount_input]
    accepts (the text parses and [A <= 0] is false), the session then holds
    [A], the fee [round(A * 0.05, 6)] and the seller share
    [round(A - fee, 6)]: the share is rounded to six decimals on its own.
    For [A = 1.5] the fee is [0.075], the share [1.425], and their float
    sum is [1.5]. *)
Theorem fee_and_seller_share float_of_text env user_id text s sess A :
  user_sessions s !! user_id = Some sess →
  float_of_text (sanitize_user_input (PyStr.strip text) 20) = Some A →
  PyFloat.leb A PyFloat.zero = false →
  let fee := PyFloat.round (PyFloat.mul A FEE_PERCENTAGE) 6 in
  let s' := (run (handle_amount_input float_of_text env user_id text) s).1.2 in
  (∃ sess', user_sessions s' !! user_id = Some sess'
            ∧ amount sess' = Some A
            ∧ fee_amount sess' = Some fee
            ∧ seller_amount sess' = Some (PyFloat.round (PyFloat.sub A fee) 6))
  ∧ PyFloat.round (PyFloat.mul Example.one_and_a_half FEE_PERCENTAGE) 6
    = Example.fee_075
  ∧ PyFloat.round (PyFloat.sub Example.one_and_a_half Example.fee_075) 6
    = Example.share_1425
  ∧ PyFloat.add Example.fee_075 Example.share_1425 = Example.one_and_a_half.
Proof.
  intros Hs Hp Hpos fee s'. split; [|by vm_compute].
  subst s'. rewrite (handle_amount_input_eval _ _ _ _ _ _ _ Hs Hp Hpos).
  destruct (net env 0), (net env 1); cbn; rewrite lookup_insert_eq;
    eexists; (split; [reflexivity|]); repeat split.
Qed.

(** User 7 enters 1.5 at the amount step. *)
Lemma fee_and_seller_share_witness :
  ∃ sess',
    user_sessions
      (run (handle_amount_input Example.float_of_plain_decimal Example.env 7
              (py "1.5")) Example.store_at_amount).1.2 !! 7 = Some sess'
    ∧ amount sess' = Some Example.one_and_a_half
    ∧ fee_amount sess' = Some Example.fee_075
    ∧ seller_amount sess' = Some Example.share_1425.
Proof.
  destruct (fee_and_seller_share Example.float_of_plain_decimal Example.env 7
              (py "1.5") Example.store_at_amount Example.session_at_amount
              Example.one_and_a_half) as [H _];
    [reflexivity..|].
  exact H.
Defined.

(** C1, as it is stated, fails: for the amount 0.0000001 the fee and the
    seller share are both rounded to zero, so the share is not [A - fee]
    and the two do not add up to [A]. *)
Lemma seller_share_is_rounded_separately :
  let A := PyFloat.of_ratio false 1 10000000 in
  let s' := (run (handle_amount_input Example.float_of_plain_decimal
                    Example.env 7 (py "0.0000001"))
               Example.store_at_amount).1.2 in
  Example.float_of_plain_decimal (py "0.0000001") = Some A
  ∧ PyFloat.leb A PyFloat.zero = false
  ∧ (fee_amount <$> user_sessions s' !! 7) = Some (Some PyFloat.zero)
  ∧ (seller_amount <$> user_sessions s' !! 7) = Some (Some PyFloat.zero)
  ∧ PyFloat.sub A PyFloat.zero ≠ PyFloat.zero
  ∧ PyFloat.eqb (PyFloat.add PyFloat.zero PyFloat.zero) A = false.
Proof. vm_compute. repeat split; discriminate. Qed.

(* ===================================================================== *)
(** * Release *)
(* ===================================================================== *)

(** C2 (as amended).  In every release in which the transfer to the seller
    succeeds and the transfer of the fee fails, the bot sends the user a
    partial-success notice that names the seller amount and the fee amount,
    and once that notice has gone out the session is deleted. *)
Theorem release_partial_success FEE_WALLET env user_id tid sess s
    A seller addr fee share rec :
  amount sess = Some A →
  seller_wallet sess = Some seller →
  escrow_address sess = Some addr →
  fee_amount sess = Some fee →
  seller_amount sess = Some share →
  escrow_wallets s !! tid = Some rec →
  net env 0 = true →
  payment_ok env 0 rec seller share = true →
  payment_ok env 1 rec FEE_WALLET fee = false →
  ∃ r s' l,
    run (process_escrow_release FEE_WALLET env user_id tid sess) s = (r, s', l)
    ∧ Reply user_id (PartialSuccess share fee) (net env 1) ∈ l
    ∧ (net env 1 = true → user_sessions s' !! user_id = None).
Proof.
  intros HA Hseller Haddr Hfee Hshare Hrec H0 Hs Hf.
  rewrite (process_escrow_release_eval _ _ _ _ _ _ _ _ _ _ _ _
             HA Hseller Haddr Hfee Hshare Hrec H0).
  cbn zeta. rewrite Hs, Hf. cbn [andb negb].
  destruct (net env 1); do 3 eexists; (split; [reflexivity|]); split.
  - do 3 apply list_elem_of_further. apply list_elem_of_here.
  - intros _. cbn. apply lookup_delete_eq.
  - do 3 apply list_elem_of_further. apply list_elem_of_here.
  - done.
Qed.

(** The escrow of user 7 is funded; the fee transfer is refused. *)
Lemma release_partial_success_witness :
  ∃ r s' l,
    run (process_escrow_release Example.fee_wallet Example.env_fee_fails 7
           Example.tid Example.session_funded) Example.store_funded
    = (r, s', l)
    ∧ Reply 7 (PartialSuccess Example.share_1425 Example.fee_075) true ∈ l
    ∧ (true = true → user_sessions s' !! 7 = None).
Proof.
  apply (release_partial_success Example.fee_wallet Example.env_fee_fails 7
           Example.tid Example.session_funded Example.store_funded
           Example.one_and_a_half Example.seller Example.escrow
           Example.fee_075 Example.share_1425 Example.record);
    reflexivity.
Defined.

(** C2, as it is stated, fails: after a release with a paid seller and a
    failed fee transfer the wallet record is gone from [escrow_wallets]. *)
Lemma partial_success_drops_record :
  let '(_, s', l) :=
    run (process_escrow_release Example.fee_wallet Example.env_fee_fails 7
           Example.tid Example.session_funded) Example.store_funded in
  escrow_wallets Example.store_funded !! Example.tid = Some Example.record
  ∧ Transfer Example.seller Example.share_1425 true ∈ l
  ∧ Transfer Example.fee_wallet Example.fee_075 false ∈ l
  ∧ escrow_wallets s' !! Example.tid = None.
Proof.
  vm_compute. repeat split.
  - apply list_elem_of_further, list_elem_of_here.
  - do 2 apply list_elem_of_further. apply list_elem_of_here.
Qed.

(** C3 (as amended).  In every release in which the transfer to the seller
    fails, whatever becomes of the fee transfer, the bot sends the user the
    notice that the amount is safe at the escrow address and that a manual
    release will follow. *)
Theorem release_seller_failure FEE_WALLET env user_id tid sess s
    A seller addr fee share rec :
  amount sess = Some A →
  seller_wallet sess = Some seller →
  escrow_address sess = Some addr →
  fee_amount sess = Some fee →
  seller_amount sess = Some share →
  escrow_wallets s !! tid = Some rec →
  net env 0 = true →
  payment_ok env 0 rec seller share = false →
  ∃ r s' l,
    run (process_escrow_release FEE_WALLET env user_id tid sess) s = (r, s', l)
    ∧ Transfer seller share false ∈ l
    ∧ Reply user_id (PaymentFailed A addr) (net env 1) ∈ l.
Proof.
  intros HA Hseller Haddr Hfee Hshare Hrec H0 Hs.
  rewrite (process_escrow_release_eval _ _ _ _ _ _ _ _ _ _ _ _
             HA Hseller Haddr Hfee Hshare Hrec H0).
  cbn zeta. rewrite Hs. cbn [andb negb].
  destruct (net env 1); do 3 eexists; (split; [reflexivity|]); split.
  - apply list_elem_of_further, list_elem_of_here.
  - do 3 apply list_elem_of_further. apply list_elem_of_here.
  - apply list_elem_of_further, list_elem_of_here.
  - do 3 apply list_elem_of_further. apply list_elem_of_here.
Qed.

(** The escrow of user 7 is funded; no transfer goes through. *)
Lemma release_seller_failure_witness :
  ∃ r s' l,
    run (process_escrow_release Example.fee_wallet Example.env_transfers_fail
           7 Example.tid Example.session_funded) Example.store_funded
    = (r, s', l)
    ∧ Transfer Example.seller Example.share_1425 false ∈ l
    ∧ Reply 7 (PaymentFailed Example.one_and_a_half Example.escrow) true ∈ l.
Proof.
  apply (release_seller_failure Example.fee_wallet Example.env_transfers_fail
           7 Example.tid Example.session_funded Example.store_funded
           Example.one_and_a_half Example.seller Example.escrow
           Example.fee_075 Example.share_1425 Example.record);
    reflexivity.
Defined.

(** C3, as it is stated, fails: after a release whose seller transfer
    failed, neither the session nor the wallet record is left. *)
Lemma seller_failure_drops_session_and_record :
  let '(_, s', l) :=
    run (process_escrow_release Example.fee_wallet Example.env_transfers_fail
           7 Example.tid Example.session_funded) Example.store_funded in
  Transfer Example.seller Example.share_1425 false ∈ l
  ∧ user_sessions s' !! 7 = None
  ∧ escrow_wallets s' !! Example.tid = None.
Proof.
  vm_compute. repeat split.
  apply list_elem_of_further, list_elem_of_here.
Qed.

(* ===================================================================== *)
(** * Starting an escrow *)
(* ===================================================================== *)

(** C6 (as amended).  A "start escrow" request is refused exactly when the
    user has a session in the step [completed], the funded-waiting step:
    the session stays as it is and the user is told an escrow is already
    active.  In every other case the request is accepted, and a session of
    the user in an earlier step is replaced by a fresh one. *)
Theorem escrow_entry_conflict env user_id s :
  (has_active_escrow s user_id = true
   ↔ ∃ sess, user_sessions s !! user_id = Some sess ∧ step sess = completed)
  ∧ (has_active_escrow s user_id = true →
     ∃ r l, run (escrow_entry env user_id) s
            = (r, s, Reply user_id AlreadyActive (net env 0) :: l))
  ∧ (has_active_escrow s user_id = false →
     ∃ r l, run (escrow_entry env user_id) s
            = (r, on_sessions (<[user_id := new_session env]>) s,
               Reply user_id StartingEscrow (net env 0) :: l)).
Proof.
  split; [|split].
  - unfold has_active_escrow.
    destruct (user_sessions s !! user_id) as [sess|].
    + rewrite bool_decide_eq_true. split; [by exists sess|].
      by intros (? & [= <-] & ?).
    + split; [done|]. by intros (? & ? & _).
  - intros H. unfold escrow_entry. act_unfold. cbn. rewrite H. cbn.
    destruct (net env 0); cbn.
    + destruct (net env 1); cbn; [by do 2 eexists|].
      destruct (net env 2); by do 2 eexists.
    + destruct (net env 1); by do 2 eexists.
  - intros H. unfold escrow_entry. act_unfold. cbn. rewrite H. cbn.
    destruct (net env 0); cbn.
    + destruct (net env 1); cbn; [by do 2 eexists|].
      destruct (net env 2); by do 2 eexists.
    + destruct (net env 1); by do 2 eexists.
Qed.

(** User 7 presses "start escrow" while an escrow of theirs waits for its
    funding. *)
Lemma escrow_entry_conflict_witness :
  ∃ r l, run (escrow_entry Example.env 7) Example.store_funded
         = (r, Example.store_funded, Reply 7 AlreadyActive true :: l).
Proof.
  destruct (escrow_entry_conflict Example.env 7 Example.store_funded)
    as (_ & H & _).
  apply H. reflexivity.
Defined.

(** C6, as it is stated, fails: user 7 has a session that is not over (the
    seller's address is entered, the amount is awaited); the request is
    accepted all the same and the session is replaced. *)
Lemma start_escrow_replaces_open_session :
  user_sessions Example.store_at_amount !! 7 = Some Example.session_at_amount
  ∧ run (escrow_entry Example.env 7) Example.store_at_amount
    = (Return tt,
       {| user_sessions := {[ 7 := new_session Example.env ]};
          escrow_wallets := ∅ |},
       [Reply 7 StartingEscrow true; Reply 7 CallbackAck true]).
Proof. split; reflexivity. Qed.

(* ===================================================================== *)
(** * Wallet provisioning *)
(* ===================================================================== *)

Arguments handle_amount_input : simpl never.

(** A text sent at the amount step, in time, is handled by
    [handle_amount_input]. *)
Lemma handle_text_messages_amount float_of_text FEE_WALLET env user_id text
    date s sess :
  recent env date →
  user_sessions s !! user_id = Some sess →
  now env - started_at sess <= 1800 →
  step sess = waiting_amount →
  (run (handle_text_messages float_of_text FEE_WALLET env user_id text date)
     s).1.2
  = (run (handle_amount_input float_of_text env user_id text) s).1.2.
Proof.
  intros Hrecent Hs Hage Hstep.
  unfold handle_text_messages, run. act_unfold.
  replace (match date with
           | Some message_time => 300 <? now env - message_time
           | None => false
           end) with false.
  2: { destruct date as [d|]; [|done]. cbn in Hrecent.
       symmetry. apply Z.ltb_ge. lia. }
  cbn. rewrite Hs.
  replace (1800 <? now env - started_at sess) with false
    by (symmetry; apply Z.ltb_ge; lia).
  rewrite Hstep.
  destruct (handle_amount_input float_of_text env user_id text s [])
    as [[[[]|] s1] l1]; reflexivity.
Qed.

(** C8 (as amended).  Whenever wallet provisioning fails after a valid
    amount was entered, the step of the session goes back to
    [waiting_amount], the user is sent the "Wallet Generation Failed"
    notice, and the user may try again: the next amount entered in time is
    taken and priced afresh.  Until then the session keeps the amount, the
    fee and the seller share of the failed attempt.  (Provisioning fails
    whatever the wallet provider answers: with a wallet at hand, reading
    the name [user_id] raises.) *)
Theorem provisioning_failure_keeps_amounts float_of_text FEE_WALLET env
    user_id text s sess A :
  user_sessions s !! user_id = Some sess →
  float_of_text (sanitize_user_input (PyStr.strip text) 20) = Some A →
  PyFloat.leb A PyFloat.zero = false →
  net env 0 = true →
  ∃ r s' l,
    run (handle_amount_input float_of_text env user_id text) s = (r, s', l)
    ∧ user_sessions s' !! user_id
      = Some (set_step waiting_amount (priced A sess))
    ∧ escrow_wallets s' = escrow_wallets s
    ∧ Reply user_id WalletGenerationFailed (net env 1) ∈ l
    ∧ ∀ env' text' date' A',
        recent env' date' →
        now env' - started_at sess <= 1800 →
        float_of_text (sanitize_user_input (PyStr.strip text') 20) = Some A' →
        PyFloat.leb A' PyFloat.zero = false →
        ∃ st,
          user_sessions
            (run (handle_text_messages float_of_text FEE_WALLET env' user_id
                    text' date') s').1.2 !! user_id
          = Some (set_step st (priced A' sess)).
Proof.
  intros Hs Hp Hpos H0.
  rewrite (handle_amount_input_eval _ _ _ _ _ _ _ Hs Hp Hpos), H0.
  set (s' := on_sessions (<[user_id := set_step waiting_amount (priced A sess)]>) s).
  assert (Hs' : user_sessions s' !! user_id
                = Some (set_step waiting_amount (priced A sess)))
    by apply lookup_insert_eq.
  assert (Hretry : ∀ env' text' date' A',
    recent env' date' →
    now env' - started_at sess <= 1800 →
    float_of_text (sanitize_user_input (PyStr.strip text') 20) = Some A' →
    PyFloat.leb A' PyFloat.zero = false →
    ∃ st,
      user_sessions
        (run (handle_text_messages float_of_text FEE_WALLET env' user_id
                text' date') s').1.2 !! user_id
      = Some (set_step st (priced A' sess))).
  { intros env' text' date' A' Hrecent Hage Hp' Hpos'.
    rewrite (handle_text_messages_amount _ _ _ _ _ _ _ _ Hrecent Hs' Hage eq_refl).
    rewrite (handle_amount_input_eval _ _ _ _ _ _ _ Hs' Hp' Hpos').
    destruct (net env' 0), (net env' 1); cbn; rewrite lookup_insert_eq;
      eexists; reflexivity. }
  destruct (net env 1); do 3 eexists; (split; [reflexivity|]);
    (split; [exact Hs'|]); (split; [reflexivity|]); (split; [|exact Hretry]).
  - apply list_elem_of_further, list_elem_of_here.
  - apply list_elem_of_further, list_elem_of_here.
Qed.

(** User 7 enters 1.5 while the wallet provider is down. *)
Lemma provisioning_failure_keeps_amounts_witness :
  ∃ r s' l,
    run (handle_amount_input Example.float_of_plain_decimal
           Example.env_no_wallet 7 (py "1.5")) Example.store_at_amount
    = (r, s', l)
    ∧ user_sessions s' !! 7
      = Some (set_step waiting_amount
                (priced Example.one_and_a_half Example.session_at_amount))
    ∧ Reply 7 WalletGenerationFailed true ∈ l.
Proof.
  destruct (provisioning_failure_keeps_amounts Example.float_of_plain_decimal
              Example.fee_wallet Example.env_no_wallet 7 (py "1.5")
              Example.store_at_amount Example.session_at_amount
              Example.one_and_a_half)
    as (r & s' & l & H1 & H2 & _ & H3 & _); [reflexivity..|].
  exists r, s', l. repeat split; assumption.
Defined.

(** C8, as it is stated, fails: the wallet provider is down, provisioning
    fails, and the session still holds the amount, the fee and the seller
    share. *)
Lemma amount_survives_failed_provisioning :
  let '(_, s', l) :=
    run (handle_amount_input Example.float_of_plain_decimal
           Example.env_no_wallet 7 (py "1.5")) Example.store_at_amount in
  l = [Reply 7 GeneratingWallet true; Reply 7 WalletGenerationFailed true]
  ∧ (step <$> user_sessions s' !! 7) = Some waiting_amount
  ∧ (amount <$> user_sessions s' !! 7) = Some (Some Example.one_and_a_half)
  ∧ (fee_amount <$> user_sessions s' !! 7) = Some (Some Example.fee_075)
  ∧ (seller_amount <$> user_sessions s' !! 7)
    = Some (Some Example.share_1425).
Proof. vm_compute. repeat split. Qed.

(** Whatever the wallet provider and the Bot API answer, an accepted amount
    never takes the session to [completed]: no transaction id is stored, no
    wallet record is written, no monitor task is created. *)
Lemma handle_amount_input_never_completes float_of_text env user_id text s
    sess A :
  user_sessions s !! user_id = Some sess →
  float_of_text (sanitize_user_input (PyStr.strip text) 20) = Some A →
  PyFloat.leb A PyFloat.zero = false →
  ∃ r s' l sess',
    run (handle_amount_input float_of_text env user_id text) s = (r, s', l)
    ∧ user_sessions s' !! user_id = Some sess'
    ∧ step sess' ≠ completed
    ∧ transaction_id sess' = transaction_id sess
    ∧ escrow_wallets s' = escrow_wallets s
    ∧ Forall (λ e, is_reply e = true) l.
Proof.
  intros Hs Hp Hpos.
  rewrite (handle_amount_input_eval _ _ _ _ _ _ _ Hs Hp Hpos).
  destruct (net env 0), (net env 1); do 4 eexists;
    (split; [reflexivity|]); cbn; rewrite lookup_insert_eq;
    (split; [reflexivity|]); repeat split; try done;
    repeat constructor.
Qed.



(** X25.  The provisioning of an escrow never succeeds.  At the amount
    step, with a valid amount and a wallet provider that delivers a valid
    wallet, the handler reads the name [user_id], which is bound neither in
    [handle_amount_input] nor in the module: the [NameError] is caught as a
    provisioning failure.  The session is back at [waiting_amount] without
    a transaction id, [escrow_wallets] is still empty, no monitor task is
    created, and the user is told that wallet generation failed.  The same
    holds from the start of the process on, for all updates and all answers
    of the outside world: no session reaches [completed] or holds a
    transaction id, no wallet record is written, no monitor task is
    created. *)
Theorem provisioning_issues_no_transaction_id :
  (run (generate_escrow_wallet Example.env) Example.store_at_amount).1.1
  = Return {| address := Example.escrow; private_key := Example.key;
              created_at := 1700000000000;
              wallet_object := Some Example.key |}
  ∧ run (handle_text_messages Example.float_of_plain_decimal
           Example.fee_wallet Example.env 7 (py "1.5") (Some 1700000000))
      Example.store_at_amount
    = (Return tt,
       {| user_sessions :=
            {[ 7 := set_step waiting_amount
                      (priced Example.one_and_a_half
                         Example.session_at_amount) ]};
          escrow_wallets := ∅ |},
       [Reply 7 GeneratingWallet true; Reply 7 WalletGenerationFailed true])
  ∧ transaction_id
      (set_step waiting_amount
         (priced Example.one_and_a_half Example.session_at_amount)) = None
  ∧ format_transaction_id 7 1700000000 = py "7_1700000000"
  ∧ ∀ float_of_text FEE_WALLET updates,
      unprovisioned (process float_of_text FEE_WALLET updates initial_store).1
      ∧ existsb is_create_task
          (process float_of_text FEE_WALLET updates initial_store).2 = false.
Proof.
  split; [by vm_compute|]. split; [by vm_compute|].
  split; [reflexivity|]. split; [by vm_compute|].
  intros float_of_text FEE_WALLET updates.
  apply process_unprovisioned. split; [done|].
  intros user_id sess H. cbn in H. by rewrite lookup_empty in H.
Qed.

(* ===================================================================== *)
(** * Payment monitoring *)
(* ===================================================================== *)

(** What the task tests at the top of each turn and after the loop, in the
    words of the three ways a session can stop being the task's own. *)
Lemma session_is_own_false session own_id :
  session_is_own session own_id = false
  ↔ session = None
    ∨ ∃ sess, session = Some sess
              ∧ (step sess ≠ completed ∨ transaction_id sess ≠ Some own_id).
Proof.
  unfold session_is_own. destruct session as [sess|].
  - rewrite andb_false_iff, !bool_decide_eq_false. split.
    + intros H. right. by exists sess.
    + intros [?|(sess' & [= <-] & H)]; done.
  - split; [by left|done].
Qed.

(** C5.  If, at an awakening, the session of the task's user is gone, or is
    not in the step [completed], or carries another transaction id than
    the task's, then the task ends at that awakening: it sends nothing,
    asks for no balance, starts no release, leaves the dictionaries as it
    found them, and never runs again, whatever happens later. *)
Theorem monitor_stops_when_invalidated FEE_WALLET others env schedule m s :
  (user_sessions (others s) !! m_user_id m = None
   ∨ ∃ sess, user_sessions (others s) !! m_user_id m = Some sess
             ∧ (step sess ≠ completed
                ∨ transaction_id sess ≠ Some (m_transaction_id m))) →
  monitor_payment FEE_WALLET ((others, env) :: schedule) (Sleeping m) s
  = (Ended, others s, []).
Proof.
  intros Hinv%session_is_own_false.
  cbn [monitor_payment].
  rewrite (monitor_wake_invalid _ _ _ _ Hinv).
  by rewrite monitor_payment_ended.
Qed.

(** The task of user 7 wakes up after the user has sent [/start]; after
    the user has sent [/start] and started a new escrow; and after the
    session has come to wait for another escrow.  The ledger reports the
    expected 1.5 TON each time, and the wallet record is in place. *)
Lemma monitor_stops_when_invalidated_witness :
  monitor_payment Example.fee_wallet
    [(on_sessions (delete 7), Scenario.env_funded); Example.idle]
    (Sleeping (new_monitor 7 Example.tid)) Example.store_funded
  = (Ended, on_sessions (delete 7) Example.store_funded, [])
  ∧ monitor_payment Example.fee_wallet
      [(Scenario.restarted, Scenario.env_funded); Example.idle]
      (Sleeping (new_monitor 7 Example.tid)) Example.store_funded
    = (Ended, Scenario.restarted Example.store_funded, [])
  ∧ monitor_payment Example.fee_wallet
      [(Scenario.superseded, Scenario.env_funded); Example.idle]
      (Sleeping (new_monitor 7 Example.tid)) Example.store_funded
    = (Ended, Scenario.superseded Example.store_funded, []).
Proof.
  split; [|split].
  - apply (monitor_stops_when_invalidated Example.fee_wallet
             (on_sessions (delete 7)) Scenario.env_funded [Example.idle]
             (new_monitor 7 Example.tid) Example.store_funded).
    by left.
  - apply (monitor_stops_when_invalidated Example.fee_wallet
             Scenario.restarted Scenario.env_funded [Example.idle]
             (new_monitor 7 Example.tid) Example.store_funded).
    right. exists (new_session Example.env). split; [reflexivity|by left].
  - apply (monitor_stops_when_invalidated Example.fee_wallet
             Scenario.superseded Scenario.env_funded [Example.idle]
             (new_monitor 7 Example.tid) Example.store_funded).
    right.
    exists (set_transaction_id (py "7_1700000999") Example.session_funded).
    split; [reflexivity|right; by vm_compute].
Defined.

Lemma floor_le_ceil a b : 0 < b → a / b <= ceil_div a b.
Proof.
  intros Hb. unfold ceil_div.
  pose proof (Z.div_mod a b) as H1. pose proof (Z.div_mod (- a) b) as H2.
  pose proof (Z.mod_pos_bound a b Hb). pose proof (Z.mod_pos_bound (- a) b Hb).
  nia.
Qed.

(** C4 (as amended).  A task makes at most
    [(PAYMENT_TIMEOUT_MINUTES * 60) // PAYMENT_CHECK_INTERVAL] balance
    checks, which never exceeds the ceiling of that quotient; with 60
    minutes and 30 seconds both are 120.  When the task has used up its 120
    checks without seeing the escrow funded, and the session is still its
    own at the awakening that follows, it sends the timeout notice and
    ends: it polls no more, whatever happens later, and the wallet record
    is as it was.  (The rest of the program may do what it likes meanwhile,
    between the awakenings and during them, to everything but the session
    and the wallet record of the task.) *)
Theorem monitor_check_budget FEE_WALLET user_id tid :
  (∀ timeout interval, 0 < interval →
     max_checks_of timeout interval <= ceil_div (timeout * 60) interval)
  ∧ max_checks = 120
  ∧ ceil_div (PAYMENT_TIMEOUT_MINUTES * 60) PAYMENT_CHECK_INTERVAL = 120
  ∧ (∀ schedule s,
       (balance_checks
          (monitor_payment FEE_WALLET schedule
             (Sleeping (new_monitor user_id tid)) s).2 ≤ 120)%nat)
  ∧ (∀ schedule rest s sess addr A,
       length schedule = 121%nat →
       Forall (λ '(others, env),
                 undisturbed user_id tid others
                 ∧ undisturbed_during user_id tid env
                 ∧ unfunded A addr env)
         schedule →
       user_sessions s !! user_id = Some sess →
       session_is_own (Some sess) tid = true →
       escrow_address sess = Some addr →
       amount sess = Some A →
       ∃ s' l ok,
         monitor_payment FEE_WALLET (schedule ++ rest)
           (Sleeping (new_monitor user_id tid)) s = (Ended, s', l)
         ∧ balance_checks l = 120%nat
         ∧ last l = Some (Reply user_id (EscrowTimeout (Some addr)) ok)
         ∧ escrow_wallets s' !! tid = escrow_wallets s !! tid).
Proof.
  split; [intros t i Hi; by apply floor_le_ceil|].
  split; [reflexivity|]. split; [reflexivity|]. split.
  - intros schedule s.
    etrans; [apply monitor_payment_budget|]. reflexivity.
  - intros schedule rest s sess addr A Hlen Hall Hs Hown Haddr HA.
    destruct (monitor_runs_out FEE_WALLET 120 schedule
                (new_monitor user_id tid) s sess addr A)
      as (s' & l & ok & Hrun & Hl & Hlast & _ & Hrec);
      try done.
    exists s', l, ok. split; [|done].
    by apply monitor_payment_app.
Qed.

(** The escrow of user 7 is never funded and nothing else happens. *)
Lemma monitor_check_budget_witness :
  ∃ s' l ok,
    monitor_payment Example.fee_wallet (replicate 121 Example.idle ++ [])
      (Sleeping (new_monitor 7 Example.tid)) Example.store_funded
    = (Ended, s', l)
    ∧ balance_checks l = 120%nat
    ∧ last l = Some (Reply 7 (EscrowTimeout (Some Example.escrow)) ok)
    ∧ escrow_wallets s' !! Example.tid
      = escrow_wallets Example.store_funded !! Example.tid.
Proof.
  destruct (monitor_check_budget Example.fee_wallet 7 Example.tid)
    as (_ & _ & _ & _ & H).
  apply (H (replicate 121 Example.idle) [] Example.store_funded
           Example.session_funded Example.escrow Example.one_and_a_half);
    try reflexivity.
  apply Forall_replicate. split; [|split; [|reflexivity]].
  - intros s. split; reflexivity.
  - intros k s. split; reflexivity.
Defined.

(** C4, as it is stated, fails: the task makes its 120 checks and never
    sees the escrow funded; the user sends [/start] during the last sleep;
    the task ends without a timeout notice. *)
Lemma no_timeout_notice_after_reset :
  let '(t, _, l) :=
    monitor_payment Example.fee_wallet
      (replicate 120 Example.idle ++ [Example.reset])
      (Sleeping (new_monitor 7 Example.tid)) Example.store_funded in
  t = Ended
  ∧ balance_checks l = 120%nat
  ∧ existsb is_timeout_notice l = false.
Proof. vm_compute. repeat split. Qed.

(* ===================================================================== *)
(** * The start command *)
(* ===================================================================== *)

(** C10 (as amended).  Once its welcome message has been sent, [/start]
    deletes the session of the user, whatever its step, and leaves
    [escrow_wallets] as it is.  A monitor task of that user that is asleep
    between two polls at that time ends at its next awakening without a
    word: no notice, no balance check, no release; the wallet record stays
    where it was, and the task never runs again. *)
Theorem start_resets_session FEE_WALLET env user_id s :
  net env 0 = true →
  let s' := (run (start_handler env user_id) s).1.2 in
  user_sessions s' = delete user_id (user_sessions s)
  ∧ escrow_wallets s' = escrow_wallets s
  ∧ ∀ env' schedule m,
      m_user_id m = user_id →
      monitor_payment FEE_WALLET ((λ x, x, env') :: schedule) (Sleeping m) s'
      = (Ended, s', []).
Proof.
  intros H0 s'.
  assert (Hs' : s' = on_sessions (delete user_id) s).
  { subst s'. unfold start_handler. act_unfold. cbn. by rewrite H0. }
  rewrite Hs'. split; [done|]. split; [done|].
  intros env' schedule m Hm. cbn [monitor_payment].
  rewrite monitor_wake_invalid.
  - by rewrite monitor_payment_ended.
  - rewrite Hm. cbn. by rewrite lookup_delete_eq.
Qed.

(** User 7 sends [/start] while an escrow of theirs waits for its funding. *)
Lemma start_resets_session_witness :
  let s' := (run (start_handler Example.env 7) Example.store_funded).1.2 in
  user_sessions s' = delete 7 (user_sessions Example.store_funded)
  ∧ escrow_wallets s' = escrow_wallets Example.store_funded
  ∧ ∀ env' schedule m,
      m_user_id m = 7 →
      monitor_payment Example.fee_wallet ((λ x, x, env') :: schedule)
        (Sleeping m) s'
      = (Ended, s', []).
Proof.
  apply (start_resets_session Example.fee_wallet Example.env 7
           Example.store_funded).
  reflexivity.
Defined.

(** C10, as it is stated, fails, in two ways.  First, the welcome message
    cannot be sent, and the session of user 7 is still there after
    [/start].  Second, user 7 sends [/start] while the escrow waits for its
    funding, the welcome message is sent and the session is deleted, but
    all this happens while the monitor task waits for the answer to a
    balance query: the answer shows the escrow funded, and the task goes on
    with the session it has read.  It does not stop silently: it sends two
    notices, pays the seller and the fee wallet, and deletes the wallet
    record. *)
Lemma start_is_neither_unconditional_nor_final :
  (run (start_handler Example.env_hiccup 7) Example.store_funded).1.2
  = Example.store_funded
  ∧ user_sessions Example.store_funded !! 7 = Some Example.session_funded
  ∧ run (start_handler Example.env 7) Example.store_funded
    = (Return tt, on_sessions (delete 7) Example.store_funded,
       [Reply 7 Welcome true])
  ∧ meanwhile Scenario.env_start_during_poll 0 Example.store_funded
    = on_sessions (delete 7) Example.store_funded
  ∧ monitor_payment Example.fee_wallet
      [(λ s, s, Scenario.env_start_during_poll)]
      (Sleeping (new_monitor 7 Example.tid)) Example.store_funded
    = (Ended,
       {| user_sessions := ∅; escrow_wallets := ∅ |},
       [BalanceCheck Example.escrow;
        Reply 7 ProcessingTransfers true;
        Transfer Example.seller Example.share_1425 true;
        Transfer Example.fee_wallet Example.fee_075 true;
        Reply 7 (EscrowCompleted Example.one_and_a_half Example.share_1425
                   Example.fee_075 Example.seller Example.escrow) true])
  ∧ escrow_wallets
      (monitor_payment Example.fee_wallet
         [(λ s, s, Scenario.env_start_during_poll)]
         (Sleeping (new_monitor 7 Example.tid)) Example.store_funded).1.2
    !! Example.tid = None.
Proof.
  split; [reflexivity|]. split; [reflexivity|]. split; [reflexivity|].
  split; [reflexivity|]. split; [reflexivity|]. by vm_compute.
Qed.

(* ===================================================================== *)
(** * More on texts, the validator and the sanitizer *)
(* ===================================================================== *)

Lemma lstrip_split s : ∃ k, s = k ++ PyStr.lstrip s ∧ blank k.
Proof.
  induction s as [|c s (k & Hk & Hb)]; [by exists []|].
  cbn [PyStr.lstrip]. destruct (PyStr.isspace c) eqn:Hc.
  - exists (c :: k). split; [cbn; congruence|].
    unfold blank in *. cbn. by rewrite Hc.
  - by exists [].
Qed.

Lemma blank_reverse k : blank k → blank (reverse k).
Proof.
  unfold blank. rewrite !forallb_forall. intros H c Hc. apply H.
  apply list_elem_of_In. apply list_elem_of_In in Hc.
  by rewrite elem_of_reverse in Hc.
Qed.

Lemma blank_app k1 k2 : blank k1 → blank k2 → blank (k1 ++ k2).
Proof. unfold blank. rewrite forallb_app. by intros -> ->. Qed.

Lemma rstrip_split s : ∃ k, s = PyStr.rstrip s ++ k ∧ blank k.
Proof.
  destruct (lstrip_split (reverse s)) as (k & Hk & Hb).
  exists (reverse k). split; [|by apply blank_reverse].
  unfold PyStr.rstrip. rewrite <- reverse_app, <- Hk.
  by rewrite reverse_involutive.
Qed.

(** [strip] removes a blank prefix and a blank suffix, and nothing else. *)
Lemma strip_split s :
  ∃ k1 k2, s = k1 ++ PyStr.strip s ++ k2 ∧ blank k1 ∧ blank k2.
Proof.
  destruct (lstrip_split s) as (k1 & H1 & Hb1).
  destruct (rstrip_split (PyStr.lstrip s)) as (k2 & H2 & Hb2).
  exists k1, k2. unfold PyStr.strip. by rewrite <- H2.
Qed.

Lemma lstrip_blank_app k s : blank k → PyStr.lstrip (k ++ s) = PyStr.lstrip s.
Proof.
  unfold blank. induction k as [|c k IH]; [done|].
  cbn. intros [-> H]%andb_true_iff. by apply IH.
Qed.

Lemma lstrip_blank k : blank k → PyStr.lstrip k = [].
Proof.
  intros H. rewrite <- (app_nil_r k). by rewrite lstrip_blank_app.
Qed.

Lemma lstrip_nil_blank s : PyStr.lstrip s = [] → blank s.
Proof.
  intros H. destruct (lstrip_split s) as (k & Hk & Hb).
  rewrite H, app_nil_r in Hk. by subst k.
Qed.

Lemma lstrip_app s k : PyStr.lstrip s ≠ [] → PyStr.lstrip (s ++ k) = PyStr.lstrip s ++ k.
Proof.
  induction s as [|c s IH]; [done|]. cbn.
  destruct (PyStr.isspace c); [exact IH|done].
Qed.

Lemma rstrip_blank_app s k : blank k → PyStr.rstrip (s ++ k) = PyStr.rstrip s.
Proof.
  intros H. unfold PyStr.rstrip. rewrite reverse_app.
  by rewrite lstrip_blank_app by by apply blank_reverse.
Qed.

Lemma strip_pad k1 s k2 :
  blank k1 → blank k2 → PyStr.strip (k1 ++ s ++ k2) = PyStr.strip s.
Proof.
  intros H1 H2. unfold PyStr.strip. rewrite (lstrip_blank_app _ _ H1).
  destruct (PyStr.lstrip s) as [|c t] eqn:Hs.
  - apply lstrip_nil_blank in Hs.
    by rewrite (lstrip_blank _ (blank_app _ _ Hs H2)).
  - rewrite lstrip_app by by rewrite Hs. rewrite Hs.
    by apply rstrip_blank_app.
Qed.

Lemma strip_idemp s : PyStr.strip (PyStr.strip s) = PyStr.strip s.
Proof.
  destruct (strip_split s) as (k1 & k2 & Hs & H1 & H2).
  rewrite Hs at 2. by rewrite strip_pad.
Qed.

(** X1.  White space around a text never changes the verdict of the
    validator. *)
Theorem validator_ignores_padding k1 s k2 :
  blank k1 → blank k2 →
  is_valid_ton_address (k1 ++ s ++ k2) = is_valid_ton_address s.
Proof.
  intros H1 H2. unfold is_valid_ton_address. by rewrite strip_pad.
Qed.

(** The fee wallet between a tab and a line feed. *)
Lemma validator_ignores_padding_witness :
  is_valid_ton_address (py (String "009" "") ++ Example.fee_wallet ++ [10%N])
  = is_valid_ton_address Example.fee_wallet.
Proof.
  apply (validator_ignores_padding (py (String "009" "")) Example.fee_wallet
           [10%N]); reflexivity.
Defined.

Lemma base64url_not_dangerous c :
  base64url_char c = true → dangerous_char c = false.
Proof.
  unfold base64url_char, dangerous_char. intros H.
  apply not_true_iff_false. intros H'.
  rewrite ?orb_true_iff, ?andb_true_iff, ?N.leb_le, ?N.eqb_eq in H.
  cbn in H'. rewrite ?orb_true_iff, ?N.eqb_eq in H'. lia.
Qed.

Lemma filter_all_true {A} (p : A → bool) l :
  forallb p l = true → List.filter p l = l.
Proof.
  induction l as [|x l IH]; [done|]. cbn.
  intros [-> H]%andb_true_iff. by rewrite IH.
Qed.

Lemma valid_address_alphabet s :
  is_valid_ton_address s = true →
  forallb base64url_char (PyStr.strip s) = true.
Proof.
  intros ((p & Hp & Hpre) & Hlen & Hbody)%is_valid_ton_address_iff.
  rewrite <- (take_drop 2 (PyStr.strip s)), forallb_app, Hbody, andb_true_r.
  destruct Hpre as [k Hk]. rewrite Hk.
  unfold valid_prefixes in Hp.
  repeat (apply elem_of_cons in Hp as [->|Hp]; [reflexivity|]).
  by apply elem_of_nil in Hp.
Qed.

(** X2.  An address the validator accepts is, once stripped, made of
    characters of the alphabet only, and the sanitizer (with the limit of
    50 the seller step uses) hands back exactly the stripped address, which
    the validator accepts again. *)
Theorem valid_address_survives_sanitation s :
  is_valid_ton_address s = true →
  forallb base64url_char (PyStr.strip s) = true
  ∧ sanitize_user_input s 50 = PyStr.strip s
  ∧ is_valid_ton_address (sanitize_user_input s 50) = true.
Proof.
  intros Hv. pose proof (valid_address_alphabet s Hv) as Ha.
  assert (Hs : sanitize_user_input s 50 = PyStr.strip s).
  { unfold sanitize_user_input, PyStr.re_sub_delete.
    rewrite filter_all_true.
    - apply take_ge.
      apply is_valid_ton_address_iff in Hv as (_ & Hlen & _). lia.
    - rewrite forallb_forall in *. intros c Hc.
      by rewrite base64url_not_dangerous by by apply Ha. }
  split; [done|]. split; [done|]. rewrite Hs.
  unfold is_valid_ton_address in *. by rewrite strip_idemp.
Qed.

(** The fee wallet followed by a line feed. *)
Lemma valid_address_survives_sanitation_witness :
  sanitize_user_input (Example.fee_wallet ++ [10%N]) 50 = Example.fee_wallet.
Proof.
  destruct (valid_address_survives_sanitation (Example.fee_wallet ++ [10%N]))
    as (_ & H & _); [reflexivity|].
  exact H.
Defined.

Lemma sublist_List_filter {A} (p : A → bool) l : List.filter p l `sublist_of` l.
Proof.
  induction l as [|x l IH]; [done|]. cbn.
  destruct (p x); [by apply sublist_skip|by apply sublist_cons].
Qed.

Lemma List_filter_forallb {A} (p : A → bool) l :
  forallb p (List.filter p l) = true.
Proof.
  induction l as [|x l IH]; [done|]. cbn.
  destruct (p x) eqn:Hx; [|done]. cbn. by rewrite Hx.
Qed.

Lemma forallb_take {A} (p : A → bool) n l :
  forallb p l = true → forallb p (take n l) = true.
Proof.
  revert n. induction l as [|x l IH]; intros [|n]; try done. cbn.
  intros [-> H]%andb_true_iff. by apply IH.
Qed.

(** X3.  What the sanitizer returns is the input with characters left out,
    in the same order; it is not longer than the limit and holds none of
    the characters the sanitizer deletes. *)
Theorem sanitize_user_input_spec text max_length :
  sanitize_user_input text max_length `sublist_of` text
  ∧ (length (sanitize_user_input text max_length) ≤ max_length)%nat
  ∧ forallb (λ c, negb (dangerous_char c))
      (sanitize_user_input text max_length) = true.
Proof.
  unfold sanitize_user_input, PyStr.re_sub_delete. split; [|split].
  - etrans; [apply sublist_take|].
    etrans; [apply sublist_List_filter|].
    destruct (strip_split text) as (k1 & k2 & Hs & _).
    rewrite Hs at 2. apply sublist_inserts_l, sublist_inserts_r. done.
  - rewrite length_take. lia.
  - apply forallb_take, List_filter_forallb.
Qed.

(* ===================================================================== *)
(** * What one update does to the dictionaries *)
(* ===================================================================== *)

Arguments handle_seller_wallet_input : simpl never.
Arguments seller_taken : simpl never.

Lemma handle_seller_wallet_input_eval FEE_WALLET env user_id text s sess :
  user_sessions s !! user_id = Some sess →
  let w := sanitize_user_input (PyStr.strip text) 50 in
  ∃ r l,
    run (handle_seller_wallet_input FEE_WALLET env user_id text) s
    = (r,
       if seller_taken FEE_WALLET w
       then on_sessions
              (<[user_id := set_step waiting_amount (set_seller_wallet w sess)]>)
              s
       else s,
       Reply user_id
         (if seller_taken FEE_WALLET w then SellerWalletSaved w
          else if is_valid_ton_address w then FeeWalletAsSeller
          else match w with [] => EmptyAddress | _ => InvalidAddressFormat end)
         (net env 0) :: l).
Proof.
  intros Hs w. unfold handle_seller_wallet_input, seller_taken. fold w.
  assert (Hupd : on_sessions (alter (set_step waiting_amount) user_id)
            (on_sessions (alter (set_seller_wallet w) user_id) s)
          = on_sessions
              (<[user_id := set_step waiting_amount (set_seller_wallet w sess)]>)
              s).
  { unfold on_sessions; cbn. f_equal.
    rewrite (alter_present _ _ _ _ Hs).
    by rewrite (alter_present _ _ _ _ (lookup_insert_eq _ _ _)),
      insert_insert_eq. }
  act_unfold.
  destruct w as [|c w'] eqn:Hw.
  { replace (is_valid_ton_address []) with false by reflexivity. cbn.
    destruct (net env 0); cbn; by do 2 eexists. }
  rewrite <- Hw in *. clear Hw.
  destruct (is_valid_ton_address w); cbn.
  - destruct (PyStr.eqb w FEE_WALLET); cbn.
    + destruct (net env 0); cbn; by do 2 eexists.
    + rewrite Hupd. destruct (net env 0); cbn; by do 2 eexists.
  - destruct (net env 0); cbn; by do 2 eexists.
Qed.

Lemma handle_amount_input_store float_of_text env user_id text s sess :
  user_sessions s !! user_id = Some sess →
  (run (handle_amount_input float_of_text env user_id text) s).1.2
  = match float_of_text (sanitize_user_input (PyStr.strip text) 20) with
    | Some A =>
        if PyFloat.leb A PyFloat.zero then s
        else on_sessions
               (<[user_id := set_step (if net env 0 then waiting_amount
                                       else generating_wallet)
                               (priced A sess)]>) s
    | None => s
    end.
Proof.
  intros Hs.
  destruct (float_of_text (sanitize_user_input (PyStr.strip text) 20))
    as [A|] eqn:Hp.
  - destruct (PyFloat.leb A PyFloat.zero) eqn:Hpos.
    + unfold handle_amount_input. rewrite Hp, Hpos. act_unfold. cbn.
      by destruct (net env 0).
    + rewrite (handle_amount_input_eval _ _ _ _ _ _ _ Hs Hp Hpos).
      by destruct (net env 0), (net env 1).
  - unfold handle_amount_input. rewrite Hp. act_unfold. cbn.
    by destruct (net env 0).
Qed.

(** The dictionaries after a text message, case by case. *)
Lemma handle_text_messages_store float_of_text FEE_WALLET env user_id text
    date s :
  (run (handle_text_messages float_of_text FEE_WALLET env user_id text date)
     s).1.2
  = if stale env date then s
    else match user_sessions s !! user_id with
         | None => s
         | Some sess =>
             if expired env sess then on_sessions (delete user_id) s
             else match step sess with
                  | waiting_seller_wallet =>
                      (run (handle_seller_wallet_input FEE_WALLET env user_id
                              text) s).1.2
                  | waiting_amount =>
                      (run (handle_amount_input float_of_text env user_id
                              text) s).1.2
                  | _ => s
                  end
         end.
Proof.
  unfold handle_text_messages, run, stale, expired. act_unfold.
  destruct (match date with
            | Some message_time => 300 <? now env - message_time
            | None => false
            end); cbn.
  { by destruct (net env 0). }
  destruct (user_sessions s !! user_id) as [sess|]; cbn.
  2: { by destruct (net env 0). }
  destruct (1800 <? now env - started_at sess); cbn.
  { by destruct (net env 0). }
  destruct (step sess).
  - by destruct (handle_seller_wallet_input FEE_WALLET env user_id text s [])
      as [[[[]|] s1] l1].
  - by destruct (handle_amount_input float_of_text env user_id text s [])
      as [[[[]|] s1] l1].
  - cbn. by destruct (net env 0).
  - cbn. by destruct (net env 0).
Qed.

(** The dictionaries after one update, case by case. *)
Lemma dispatch_store float_of_text FEE_WALLET env u s :
  (run (dispatch float_of_text FEE_WALLET env u) s).1.2
  = match u with
    | CommandStart user_id =>
        if net env 0 then on_sessions (delete user_id) s else s
    | CallbackMainMenu _ | CallbackHowItWorks _ => s
    | CallbackStartEscrow user_id =>
        if has_active_escrow s user_id then s
        else on_sessions (<[user_id := new_session env]>) s
    | TextMessage user_id text date =>
        (run (handle_text_messages float_of_text FEE_WALLET env user_id text
                date) s).1.2
    end.
Proof.
  destruct u as [user_id|user_id|user_id|user_id|user_id text date];
    cbn [dispatch]; [| | | |done].
  - unfold start_handler. act_unfold. cbn.
    destruct (net env 0); cbn; [done|by destruct (net env 1)].
  - unfold menu_handler. act_unfold. cbn.
    destruct (net env 0); cbn; [|done]. by destruct (net env 1).
  - unfold how_it_works_handler. act_unfold. cbn.
    destruct (net env 0); cbn; [|done]. by destruct (net env 1).
  - unfold escrow_entry. act_unfold. cbn.
    destruct (has_active_escrow s user_id); cbn;
      (destruct (net env 0); cbn; [|done]); by destruct (net env 1).
Qed.

(* ===================================================================== *)
(** * Text messages *)
(* ===================================================================== *)

(** X4.  At the seller step a text that is in time is taken as the seller's
    address exactly when, once stripped, cleaned of the deleted characters
    and cut at 50 characters, it passes the validator and is not the fee
    wallet.  The session then holds that address and moves to the amount
    step; in every other case the dictionaries stay as they are.  The
    wallet records are never touched. *)
Theorem seller_step_outcome float_of_text FEE_WALLET env user_id text date s
    sess :
  stale env date = false →
  user_sessions s !! user_id = Some sess →
  expired env sess = false →
  step sess = waiting_seller_wallet →
  let w := sanitize_user_input (PyStr.strip text) 50 in
  let s' := (run (handle_text_messages float_of_text FEE_WALLET env user_id
                    text date) s).1.2 in
  (seller_taken FEE_WALLET w = true →
   user_sessions s' !! user_id
   = Some (set_step waiting_amount (set_seller_wallet w sess))
   ∧ is_valid_ton_address w = true
   ∧ w ≠ FEE_WALLET
   ∧ (length w ≤ 50)%nat)
  ∧ (seller_taken FEE_WALLET w = false → s' = s)
  ∧ escrow_wallets s' = escrow_wallets s.
Proof.
  intros Hstale Hs Hexp Hstep w s'. subst s'.
  rewrite handle_text_messages_store, Hstale, Hs, Hexp, Hstep.
  destruct (handle_seller_wallet_input_eval FEE_WALLET env user_id text s
              sess Hs) as (r & l & ->).
  fold w. cbn [fst snd].
  destruct (seller_taken FEE_WALLET w) eqn:Htaken.
  - split; [|split; [done|done]]. intros _.
    split; [apply lookup_insert_eq|].
    unfold seller_taken in Htaken.
    apply andb_true_iff in Htaken as [Hv Hne]. split; [done|]. split.
    + intros Heq. unfold PyStr.eqb in Hne.
      by rewrite bool_decide_eq_true_2 in Hne.
    + subst w. unfold sanitize_user_input. rewrite length_take. lia.
  - by split.
Qed.

(** User 7 has pressed "start escrow" and sends the seller's address in
    angle brackets. *)
Lemma seller_step_outcome_witness :
  user_sessions
    (run (handle_text_messages Example.float_of_plain_decimal
            Example.fee_wallet Example.env 7
            (py "<" ++ Example.seller ++ py ">") (Some 1700000000))
       Scenario.store_started).1.2 !! 7
  = Some (set_step waiting_amount
            (set_seller_wallet Example.seller (new_session Example.env))).
Proof.
  destruct (seller_step_outcome Example.float_of_plain_decimal
              Example.fee_wallet Example.env 7
              (py "<" ++ Example.seller ++ py ">") (Some 1700000000)
              Scenario.store_started (new_session Example.env)) as [H _];
    [reflexivity..|].
  apply H. reflexivity.
Defined.

(** X5.  A text message that is more than 300 seconds old when it is
    handled changes nothing, whatever the session: the user is only told
    that the message is too old. *)
Theorem stale_message_is_dropped float_of_text FEE_WALLET env user_id text
    message_time s :
  300 < now env - message_time →
  ∃ r l,
    run (handle_text_messages float_of_text FEE_WALLET env user_id text
           (Some message_time)) s
    = (r, s, Reply user_id MessageTooOld (net env 0) :: l)
    ∧ (l = [] ∨ l = [Reply user_id ErrorProcessingMessage (net env 1)]).
Proof.
  intros Hold. unfold handle_text_messages, run. act_unfold.
  replace (300 <? now env - message_time) with true
    by (symmetry; apply Z.ltb_lt; lia).
  cbn. destruct (net env 0); cbn; do 2 eexists; (split; [reflexivity|]);
    [by left|by right].
Qed.

(** User 7 answers at the amount step with a message sent six minutes ago. *)
Lemma stale_message_is_dropped_witness :
  ∃ r l,
    run (handle_text_messages Example.float_of_plain_decimal
           Example.fee_wallet Example.env 7 (py "1.5") (Some 1699999640))
      Example.store_at_amount
    = (r, Example.store_at_amount, Reply 7 MessageTooOld true :: l)
    ∧ (l = [] ∨ l = [Reply 7 ErrorProcessingMessage true]).
Proof.
  apply (stale_message_is_dropped Example.float_of_plain_decimal
           Example.fee_wallet Example.env 7 (py "1.5") 1699999640
           Example.store_at_amount).
  reflexivity.
Defined.

(** X6.  A text message that arrives more than 1800 seconds after the
    session was started deletes the session, in whatever step it is, and is
    not read any further; the wallet records stay.  When the session was
    waiting for its funding, the monitor task of the user that wakes up
    next ends without a word, as after [/start]. *)
Theorem expired_session_is_deleted float_of_text FEE_WALLET env user_id text
    date s sess :
  stale env date = false →
  user_sessions s !! user_id = Some sess →
  1800 < now env - started_at sess →
  ∃ r l,
    run (handle_text_messages float_of_text FEE_WALLET env user_id text date)
      s
    = (r, on_sessions (delete user_id) s,
       Reply user_id SessionExpired (net env 0) :: l)
    ∧ ∀ env' schedule m,
        m_user_id m = user_id →
        monitor_payment FEE_WALLET ((λ x, x, env') :: schedule) (Sleeping m)
          (on_sessions (delete user_id) s)
        = (Ended, on_sessions (delete user_id) s, []).
Proof.
  intros Hstale Hs Hold. unfold handle_text_messages, run. act_unfold.
  unfold stale in Hstale. rewrite Hstale. cbn. rewrite Hs.
  replace (1800 <? now env - started_at sess) with true
    by (symmetry; apply Z.ltb_lt; lia).
  cbn.
  assert (Hmon : ∀ env' schedule m,
    m_user_id m = user_id →
    monitor_payment FEE_WALLET ((λ x, x, env') :: schedule) (Sleeping m)
      (on_sessions (delete user_id) s)
    = (Ended, on_sessions (delete user_id) s, [])).
  { intros env' schedule m Hm. cbn [monitor_payment].
    rewrite monitor_wake_invalid.
    - by rewrite monitor_payment_ended.
    - rewrite Hm. cbn. by rewrite lookup_delete_eq. }
  destruct (net env 0); cbn; do 2 eexists; (split; [reflexivity|exact Hmon]).
Qed.

(** User 7, whose escrow has waited for its funding for more than half an
    hour, sends a text. *)
Lemma expired_session_is_deleted_witness :
  ∃ r l,
    run (handle_text_messages Example.float_of_plain_decimal
           Example.fee_wallet Scenario.env_late 7 (py "hello")
           (Some 1700002000)) Example.store_funded
    = (r, on_sessions (delete 7) Example.store_funded,
       Reply 7 SessionExpired true :: l).
Proof.
  destruct (expired_session_is_deleted Example.float_of_plain_decimal
              Example.fee_wallet Scenario.env_late 7 (py "hello")
              (Some 1700002000) Example.store_funded
              Example.session_funded) as (r & l & H & _);
    [reflexivity..|].
  exists r, l. exact H.
Defined.

(** X7.  A text message that is in time changes nothing when the user has
    no session, or when the session is in the step [generating_wallet] or
    [completed]: the user is only pointed to the start command or to the
    menu. *)
Theorem text_outside_input_steps_is_ignored float_of_text FEE_WALLET env
    user_id text date s :
  stale env date = false →
  (user_sessions s !! user_id = None
   ∨ ∃ sess, user_sessions s !! user_id = Some sess
             ∧ expired env sess = false
             ∧ (step sess = generating_wallet ∨ step sess = completed)) →
  ∃ r l,
    run (handle_text_messages float_of_text FEE_WALLET env user_id text date)
      s
    = (r, s,
       Reply user_id
         (match user_sessions s !! user_id with
          | Some _ => UseMenuButtons
          | None => PleaseStart
          end)
         (net env 0) :: l).
Proof.
  intros Hstale Hcase. unfold handle_text_messages, run. act_unfold.
  unfold stale in Hstale. rewrite Hstale. cbn.
  destruct Hcase as [Hnone|(sess & Hs & Hexp & Hstep)].
  - rewrite Hnone. cbn. destruct (net env 0); by do 2 eexists.
  - rewrite Hs. unfold expired in Hexp. rewrite Hexp.
    destruct Hstep as [-> | ->]; cbn; destruct (net env 0); by do 2 eexists.
Qed.

(** User 7 sends a text while the escrow waits for its funding. *)
Lemma text_outside_input_steps_is_ignored_witness :
  ∃ r l,
    run (handle_text_messages Example.float_of_plain_decimal
           Example.fee_wallet Example.env 7 (py "2.5") (Some 1700000000))
      Example.store_funded
    = (r, Example.store_funded, Reply 7 UseMenuButtons true :: l).
Proof.
  apply (text_outside_input_steps_is_ignored Example.float_of_plain_decimal
           Example.fee_wallet Example.env 7 (py "2.5") (Some 1700000000)
           Example.store_funded); [reflexivity|].
  right. exists Example.session_funded. repeat split; by right.
Defined.

Lemma leb_zero_false A :
  PyFloat.leb A PyFloat.zero = false
  ↔ A = S754_nan ∨ A = S754_infinity false
    ∨ ∃ m e, A = S754_finite false m e.
Proof.
  destruct A as [[]|[]| |[] m e]; cbn; split; try done;
    try (intros [?|[?|(? & ? & ?)]]; done); eauto.
Qed.

(** X9.  At the amount step a text that is in time is refused, and the
    dictionaries stay as they are, when [float] cannot read it or when it
    reads a zero, a negative number or minus infinity.  Every other value
    is taken, also a NaN and plus infinity, and no bound is put on the
    amount: the session then holds the value with the two shares computed
    from it. *)
Theorem amount_step_outcome float_of_text FEE_WALLET env user_id text date s
    sess :
  stale env date = false →
  user_sessions s !! user_id = Some sess →
  expired env sess = false →
  step sess = waiting_amount →
  let s' := (run (handle_text_messages float_of_text FEE_WALLET env user_id
                    text date) s).1.2 in
  match float_of_text (sanitize_user_input (PyStr.strip text) 20) with
  | None => s' = s
  | Some A =>
      if PyFloat.leb A PyFloat.zero then
        s' = s
        ∧ (A = S754_zero false ∨ A = S754_zero true ∨ A = S754_infinity true
           ∨ ∃ m e, A = S754_finite true m e)
      else
        (∃ st, user_sessions s' !! user_id = Some (set_step st (priced A sess)))
        ∧ escrow_wallets s' = escrow_wallets s
        ∧ (A = S754_nan ∨ A = S754_infinity false
           ∨ ∃ m e, A = S754_finite false m e)
  end.
Proof.
  intros Hstale Hs Hexp Hstep s'. subst s'.
  rewrite handle_text_messages_store, Hstale, Hs, Hexp, Hstep.
  rewrite (handle_amount_input_store _ _ _ _ _ _ Hs).
  destruct (float_of_text _) as [A|]; [|done].
  destruct (PyFloat.leb A PyFloat.zero) eqn:Hle.
  - split; [done|].
    destruct A as [[]|[]| |[] m e]; try done; eauto 6.
  - split; [|split; [done|by apply leb_zero_false]].
    eexists. cbn. apply lookup_insert_eq.
Qed.

(** User 7 enters 1.5 at the amount step. *)
Lemma amount_step_outcome_witness :
  ∃ st,
    user_sessions
      (run (handle_text_messages Example.float_of_plain_decimal
              Example.fee_wallet Example.env 7 (py "1.5") (Some 1700000000))
         Example.store_at_amount).1.2 !! 7
    = Some (set_step st
              (priced Example.one_and_a_half Example.session_at_amount)).
Proof.
  pose proof (amount_step_outcome Example.float_of_plain_decimal
                Example.fee_wallet Example.env 7 (py "1.5") (Some 1700000000)
                Example.store_at_amount Example.session_at_amount
                eq_refl eq_refl eq_refl eq_refl) as H.
  exact (proj1 H).
Defined.

(** X8.  When the notice that the wallet is being generated cannot be sent,
    an accepted amount leaves the session in the step [generating_wallet];
    from then on every text of the user that is in time is answered with
    the pointer to the menu and changes nothing. *)
Theorem session_stuck_in_generating_wallet float_of_text FEE_WALLET env
    user_id text s sess A :
  user_sessions s !! user_id = Some sess →
  float_of_text (sanitize_user_input (PyStr.strip text) 20) = Some A →
  PyFloat.leb A PyFloat.zero = false →
  net env 0 = false →
  let s' := (run (handle_amount_input float_of_text env user_id text) s).1.2 in
  user_sessions s' !! user_id
  = Some (set_step generating_wallet (priced A sess))
  ∧ ∀ env' text' date',
      stale env' date' = false →
      now env' - started_at sess <= 1800 →
      ∃ r l,
        run (handle_text_messages float_of_text FEE_WALLET env' user_id text'
               date') s'
        = (r, s', Reply user_id UseMenuButtons (net env' 0) :: l).
Proof.
  intros Hs Hp Hpos H0 s'. subst s'.
  rewrite (handle_amount_input_store _ _ _ _ _ _ Hs), Hp, Hpos, H0.
  split; [cbn; apply lookup_insert_eq|].
  intros env' text' date' Hstale Hage.
  unfold handle_text_messages, run. act_unfold.
  unfold stale in Hstale. rewrite Hstale. cbn. rewrite lookup_insert_eq.
  cbn.
  replace (1800 <? now env' - started_at sess) with false
    by (symmetry; apply Z.ltb_ge; lia).
  cbn. destruct (net env' 0); by do 2 eexists.
Qed.

(** User 7 enters 1.5 while the first Bot API call fails. *)
Lemma session_stuck_in_generating_wallet_witness :
  user_sessions
    (run (handle_amount_input Example.float_of_plain_decimal
            Example.env_hiccup 7 (py "1.5")) Example.store_at_amount).1.2 !! 7
  = Some (set_step generating_wallet
            (priced Example.one_and_a_half Example.session_at_amount)).
Proof.
  destruct (session_stuck_in_generating_wallet Example.float_of_plain_decimal
              Example.fee_wallet Example.env_hiccup 7 (py "1.5")
              Example.store_at_amount Example.session_at_amount
              Example.one_and_a_half) as [H _]; [reflexivity..|].
  exact H.
Defined.

(* ===================================================================== *)
(** * Properties of every update *)
(* ===================================================================== *)

(** X10.  An update writes nothing but the session of the user it comes
    from: the sessions of the other users and all wallet records are after
    the update what they were before. *)
Theorem update_is_local float_of_text FEE_WALLET env u s :
  let s' := (run (dispatch float_of_text FEE_WALLET env u) s).1.2 in
  escrow_wallets s' = escrow_wallets s
  ∧ ∀ other, other ≠ sender u →
      user_sessions s' !! other = user_sessions s !! other.
Proof.
  intros s'. subst s'. rewrite dispatch_store.
  destruct u as [user_id|user_id|user_id|user_id|user_id text date];
    cbn [sender]; try done.
  - destruct (net env 0); [|done]. split; [done|].
    intros other Hne. cbn. by rewrite lookup_delete_ne.
  - destruct (has_active_escrow s user_id); [done|]. split; [done|].
    intros other Hne. cbn. by rewrite lookup_insert_ne.
  - rewrite handle_text_messages_store.
    destruct (stale env date); [done|].
    destruct (user_sessions s !! user_id) as [sess|] eqn:Hs; [|done].
    destruct (expired env sess).
    { split; [done|]. intros other Hne. cbn. by rewrite lookup_delete_ne. }
    destruct (step sess); try done.
    + destruct (handle_seller_wallet_input_eval FEE_WALLET env user_id text
                  s sess Hs) as (r & l & ->). cbn [fst snd].
      destruct (seller_taken _ _); [|done]. split; [done|].
      intros other Hne. cbn. by rewrite lookup_insert_ne.
    + rewrite (handle_amount_input_store _ _ _ _ _ _ Hs).
      destruct (float_of_text _) as [A|]; [|done].
      destruct (PyFloat.leb A PyFloat.zero); [done|]. split; [done|].
      intros other Hne. cbn. by rewrite lookup_insert_ne.
Qed.

(** User 7 sends [/start]; the session of user 8 and the wallet record are
    not touched. *)
Lemma update_is_local_witness :
  let s' := (run (dispatch Example.float_of_plain_decimal Example.fee_wallet
                    Example.env (CommandStart 7))
               Scenario.store_two_users).1.2 in
  escrow_wallets s' = escrow_wallets Scenario.store_two_users
  ∧ user_sessions s' !! 8 = Some Example.session_at_amount.
Proof.
  destruct (update_is_local Example.float_of_plain_decimal Example.fee_wallet
              Example.env (CommandStart 7) Scenario.store_two_users)
    as [Hw Hs].
  split; [exact Hw|]. rewrite (Hs 8); [reflexivity|discriminate].
Defined.

Lemma well_formed_new_session FEE_WALLET env :
  well_formed_session FEE_WALLET (new_session env).
Proof. unfold well_formed_session. cbn. by split_and!. Qed.

Lemma well_formed_seller FEE_WALLET w sess :
  well_formed_session FEE_WALLET sess →
  step sess = waiting_seller_wallet →
  seller_taken FEE_WALLET w = true →
  well_formed_session FEE_WALLET
    (set_step waiting_amount (set_seller_wallet w sess)).
Proof.
  intros (_ & Ha & Hk & Ht & Hw & _ & _ & Hamt) Hstep
    [Hv Hne]%andb_true_iff.
  destruct (Hw Hstep) as [_ HA]. rewrite HA in Hamt.
  destruct Hamt as [Hfee Hshare].
  unfold well_formed_session. cbn. rewrite HA. split_and!; try done.
  intros _. exists w. split_and!; [done..|].
  intros ->. unfold PyStr.eqb in Hne.
  by rewrite bool_decide_eq_true_2 in Hne.
Qed.

Lemma well_formed_priced FEE_WALLET A st sess :
  well_formed_session FEE_WALLET sess →
  step sess = waiting_amount →
  PyFloat.leb A PyFloat.zero = false →
  st = waiting_amount ∨ st = generating_wallet →
  well_formed_session FEE_WALLET (set_step st (priced A sess)).
Proof.
  intros (_ & Ha & Hk & Ht & _ & Hw & _ & _) Hstep Hpos Hst.
  destruct Hw as (w & Hw & Hv & Hne); [by rewrite Hstep|].
  unfold well_formed_session. cbn. split_and!; try done.
  - by destruct Hst as [-> | ->].
  - intros ->. by destruct Hst.
  - intros _. by exists w.
Qed.

Lemma dispatch_well_formed float_of_text FEE_WALLET env u s :
  well_formed_store FEE_WALLET s →
  well_formed_store FEE_WALLET
    (run (dispatch float_of_text FEE_WALLET env u) s).1.2.
Proof.
  intros [Hw Hs].
  assert (Hdel : ∀ user_id,
            well_formed_store FEE_WALLET (on_sessions (delete user_id) s)).
  { intros user_id. split; [done|]. intros other sess. cbn.
    intros [_ H]%lookup_delete_Some. by apply (Hs other). }
  assert (Hins : ∀ user_id sess,
            well_formed_session FEE_WALLET sess →
            well_formed_store FEE_WALLET
              (on_sessions (<[user_id := sess]>) s)).
  { intros user_id sess Hsess. split; [done|]. intros other sess'. cbn.
    intros [[_ <-]|[_ H]]%lookup_insert_Some; [done|by apply (Hs other)]. }
  rewrite dispatch_store.
  destruct u as [user_id|user_id|user_id|user_id|user_id text date];
    try done.
  - destruct (net env 0); [apply Hdel|done].
  - destruct (has_active_escrow s user_id); [done|].
    apply Hins, well_formed_new_session.
  - rewrite handle_text_messages_store.
    destruct (stale env date); [done|].
    destruct (user_sessions s !! user_id) as [sess|] eqn:Hsess; [|done].
    destruct (expired env sess); [apply Hdel|].
    pose proof (Hs _ _ Hsess) as Hwf.
    destruct (step sess) eqn:Hstep; try done.
    + destruct (handle_seller_wallet_input_eval FEE_WALLET env user_id text
                  s sess Hsess) as (r & l & ->). cbn [fst snd].
      destruct (seller_taken _ _) eqn:Htaken; [|done].
      by apply Hins, well_formed_seller.
    + rewrite (handle_amount_input_store _ _ _ _ _ _ Hsess).
      destruct (float_of_text _) as [A|]; [|done].
      destruct (PyFloat.leb A PyFloat.zero) eqn:Hpos; [done|].
      apply Hins, well_formed_priced; try done.
      destruct (net env 0); [by left|by right].
Qed.

(** X11.  From the start of the process on, whatever updates arrive and
    whatever the outside world answers, every session in [user_sessions]
    is well formed: past the seller step it holds a seller address that
    the validator accepts and that is not the fee wallet; an amount it
    holds was not refused as non-positive and comes with the fee
    [round(A * 0.05, 6)] and the share [round(A - fee, 6)]; without an
    amount it holds no fee and no share. *)
Theorem sessions_stay_well_formed float_of_text FEE_WALLET updates :
  well_formed_store FEE_WALLET
    (process float_of_text FEE_WALLET updates initial_store).1.
Proof.
  assert (H : ∀ s, well_formed_store FEE_WALLET s →
              well_formed_store FEE_WALLET
                (process float_of_text FEE_WALLET updates s).1).
  { induction updates as [|[env u] updates IH]; intros s Hs; [done|].
    cbn [process].
    pose proof (dispatch_well_formed float_of_text FEE_WALLET env u s Hs)
      as Hs1.
    destruct (run (dispatch float_of_text FEE_WALLET env u) s)
      as [[r s1] l1].
    specialize (IH s1 Hs1).
    by destruct (process float_of_text FEE_WALLET updates s1) as [s2 l2]. }
  apply H. split; [done|]. intros user_id sess Hs. cbn in Hs.
  by rewrite lookup_empty in Hs.
Qed.

Lemma try_reply_returns env body user_id n s l :
  online env → (try_except body (reply env user_id n) s l).1.1 = Return tt.
Proof.
  intros Hon. unfold try_except, reply.
  destruct (body s l) as [[[[]|] s'] l']; cbn; [done|]. by rewrite Hon.
Qed.

(** X12.  No exception leaves a handler as long as the Bot API calls of
    the activation go through; an awakening of a monitor task and a release
    never raise, whatever the outside world answers. *)
Theorem exceptions_stay_inside float_of_text FEE_WALLET env u m user_id tid
    sess s :
  (online env →
   (run (dispatch float_of_text FEE_WALLET env u) s).1.1 = Return tt)
  ∧ (∃ t, (run (monitor_wake FEE_WALLET env m) s).1.1 = Return t)
  ∧ (run (process_escrow_release FEE_WALLET env user_id tid sess) s).1.1
    = Return tt.
Proof.
  split; [|split].
  - intros Hon. destruct u; cbn [dispatch]; by apply try_reply_returns.
  - destruct (monitor_wake_budget FEE_WALLET env m s) as (t & s' & l & -> & _).
    by exists t.
  - destruct (process_escrow_release_returns FEE_WALLET env user_id tid sess
                s []) as [[] H].
    exact H.
Qed.

(** User 7 sends a text that is no number while all calls go through. *)
Lemma exceptions_stay_inside_witness :
  (run (dispatch Example.float_of_plain_decimal Example.fee_wallet
          Example.env (TextMessage 7 (py "abc") None))
     Example.store_at_amount).1.1 = Return tt.
Proof.
  destruct (exceptions_stay_inside Example.float_of_plain_decimal
              Example.fee_wallet Example.env (TextMessage 7 (py "abc") None)
              (new_monitor 7 Example.tid) 7 Example.tid
              Example.session_funded Example.store_at_amount) as [H _].
  apply H. intros k. reflexivity.
Defined.

(* ===================================================================== *)
(** * Transfers and releases *)
(* ===================================================================== *)

(** X13.  [send_ton_payment] returns [True] only for a destination the
    validator accepts and an amount that is finite and positive (a zero, a
    negative amount, an infinity and a NaN are refused before the network
    is used), with a signer in the wallet record, and when the network
    accepted the transfer. *)
Theorem payment_needs_valid_target_and_amount env k from_wallet to_address
    amount_ton :
  payment_ok env k from_wallet to_address amount_ton = true →
  is_valid_ton_address to_address = true
  ∧ (∃ m e, amount_ton = S754_finite false m e)
  ∧ is_Some (wallet_object (w_info from_wallet))
  ∧ broadcast env k = true.
Proof.
  unfold payment_ok.
  destruct (is_valid_ton_address to_address); [|done]. cbn [negb].
  destruct (PyFloat.leb amount_ton PyFloat.zero) eqn:Hle; [done|].
  destruct (wallet_object (w_info from_wallet)) as [signer|]; [|done].
  destruct (PyFloat.is_finite (PyFloat.mul amount_ton nano_per_ton)) eqn:Hfin;
    [|done].
  cbn [negb]. intros Hb. split; [done|]. split; [|by eauto].
  apply leb_zero_false in Hle as [->|[->|H]]; [done|done|exact H].
Qed.

(** The share of the escrow of 1.5 TON is sent to the seller. *)
Lemma payment_needs_valid_target_and_amount_witness :
  is_valid_ton_address Example.seller = true
  ∧ (∃ m e, Example.share_1425 = S754_finite false m e)
  ∧ is_Some (wallet_object (w_info Example.record))
  ∧ broadcast Example.env 0 = true.
Proof.
  apply (payment_needs_valid_target_and_amount Example.env 0 Example.record
           Example.seller Example.share_1425).
  reflexivity.
Defined.

(** X14.  Once the wallet record is found, a release makes exactly two
    transfers, first the share to the seller, then the fee to the fee
    wallet: the fee transfer is attempted whatever became of the transfer
    to the seller.  When the seller is not paid but the fee is, the user is
    all the same told that the payment failed. *)
Theorem release_attempts_both_legs FEE_WALLET env user_id tid sess s
    A seller addr fee share rec :
  amount sess = Some A →
  seller_wallet sess = Some seller →
  escrow_address sess = Some addr →
  fee_amount sess = Some fee →
  seller_amount sess = Some share →
  escrow_wallets s !! tid = Some rec →
  net env 0 = true →
  let l := (run (process_escrow_release FEE_WALLET env user_id tid sess) s).2 in
  transfers l
  = [Transfer seller share (payment_ok env 0 rec seller share);
     Transfer FEE_WALLET fee (payment_ok env 1 rec FEE_WALLET fee)]
  ∧ (payment_ok env 0 rec seller share = false →
     Reply user_id (PaymentFailed A addr) (net env 1) ∈ l).
Proof.
  intros HA Hseller Haddr Hfee Hshare Hrec H0 l. subst l.
  rewrite (process_escrow_release_eval _ _ _ _ _ _ _ _ _ _ _ _
             HA Hseller Haddr Hfee Hshare Hrec H0).
  cbn zeta. split.
  - by destruct (net env 1).
  - intros ->. cbn [andb].
    destruct (net env 1); do 3 apply list_elem_of_further;
      apply list_elem_of_here.
Qed.

(** The transfer to the seller is refused, the fee is taken. *)
Lemma release_attempts_both_legs_witness :
  let l := (run (process_escrow_release Example.fee_wallet
                   Scenario.env_seller_fails 7 Example.tid
                   Example.session_funded) Example.store_funded).2 in
  transfers l
  = [Transfer Example.seller Example.share_1425 false;
     Transfer Example.fee_wallet Example.fee_075 true]
  ∧ (false = false →
     Reply 7 (PaymentFailed Example.one_and_a_half Example.escrow) true ∈ l).
Proof.
  apply (release_attempts_both_legs Example.fee_wallet
           Scenario.env_seller_fails 7 Example.tid Example.session_funded
           Example.store_funded Example.one_and_a_half Example.seller
           Example.escrow Example.fee_075 Example.share_1425 Example.record);
    reflexivity.
Defined.

(** X15.  When both transfers succeed and the notices are sent, a release
    tells the user that the escrow is completed, with the amount, the
    share, the fee and the two addresses, and then deletes the session of
    the user and the wallet record of the transaction; nothing else is
    written. *)
Theorem release_full_success FEE_WALLET env user_id tid sess s
    A seller addr fee share rec :
  amount sess = Some A →
  seller_wallet sess = Some seller →
  escrow_address sess = Some addr →
  fee_amount sess = Some fee →
  seller_amount sess = Some share →
  escrow_wallets s !! tid = Some rec →
  net env 0 = true →
  net env 1 = true →
  payment_ok env 0 rec seller share = true →
  payment_ok env 1 rec FEE_WALLET fee = true →
  run (process_escrow_release FEE_WALLET env user_id tid sess) s
  = (Return tt,
     {| user_sessions := delete user_id (user_sessions s);
        escrow_wallets := delete tid (escrow_wallets s) |},
     [Reply user_id ProcessingTransfers true;
      Transfer seller share true;
      Transfer FEE_WALLET fee true;
      Reply user_id (EscrowCompleted A share fee seller addr) true]).
Proof.
  intros HA Hseller Haddr Hfee Hshare Hrec H0 H1 Hs Hf.
  rewrite (process_escrow_release_eval _ _ _ _ _ _ _ _ _ _ _ _
             HA Hseller Haddr Hfee Hshare Hrec H0).
  cbn zeta. by rewrite Hs, Hf, H1.
Qed.

(** The escrow of user 7 is funded and everything goes through. *)
Lemma release_full_success_witness :
  run (process_escrow_release Example.fee_wallet Scenario.env_funded 7
         Example.tid Example.session_funded) Example.store_funded
  = (Return tt,
     {| user_sessions := delete 7 (user_sessions Example.store_funded);
        escrow_wallets := delete Example.tid
                            (escrow_wallets Example.store_funded) |},
     [Reply 7 ProcessingTransfers true;
      Transfer Example.seller Example.share_1425 true;
      Transfer Example.fee_wallet Example.fee_075 true;
      Reply 7 (EscrowCompleted Example.one_and_a_half Example.share_1425
                 Example.fee_075 Example.seller Example.escrow) true]).
Proof.
  apply (release_full_success Example.fee_wallet Scenario.env_funded 7
           Example.tid Example.session_funded Example.store_funded
           Example.one_and_a_half Example.seller Example.escrow
           Example.fee_075 Example.share_1425 Example.record);
    reflexivity.
Defined.

(** X16.  A release that does not reach the transfers pays nothing and
    writes nothing.  That is so when the wallet record of the transaction
    is missing (the user is sent the escrow address and told to contact
    support), when the session lacks one of the five values the release
    reads, and when the opening notice cannot be sent (in these two cases
    the notice of a critical error, with the escrow address and the user
    id, is attempted). *)
Theorem release_aborts_before_paying FEE_WALLET env user_id tid sess s :
  escrow_wallets s !! tid = None
  ∨ amount sess = None ∨ seller_wallet sess = None
  ∨ escrow_address sess = None ∨ fee_amount sess = None
  ∨ seller_amount sess = None
  ∨ net env 0 = false →
  ∃ l,
    run (process_escrow_release FEE_WALLET env user_id tid sess) s
    = (Return tt, s, l)
    ∧ transfers l = []
    ∧ (Reply user_id (CriticalRelease (escrow_address sess) user_id)
         (net env (length l - 1)) ∈ l
       ∨ ∃ addr, escrow_address sess = Some addr
                 ∧ Reply user_id (WalletDataNotFound addr) true ∈ l).
Proof.
  intros Hcase. unfold process_escrow_release, process_escrow_release_during, send_ton_payment, run.
  act_unfold.
  destruct (amount sess) as [A|]; cbn.
  2: { destruct (net env 0) eqn:H0; eexists; (split; [reflexivity|]);
         (split; [done|]); left; cbn; rewrite H0; apply list_elem_of_here. }
  destruct (seller_wallet sess) as [seller|]; cbn.
  2: { destruct (net env 0) eqn:H0; eexists; (split; [reflexivity|]);
         (split; [done|]); left; cbn; rewrite H0; apply list_elem_of_here. }
  destruct (escrow_address sess) as [addr|]; cbn.
  2: { destruct (net env 0) eqn:H0; eexists; (split; [reflexivity|]);
         (split; [done|]); left; cbn; rewrite H0; apply list_elem_of_here. }
  destruct (fee_amount sess) as [fee|]; cbn.
  2: { destruct (net env 0) eqn:H0; eexists; (split; [reflexivity|]);
         (split; [done|]); left; cbn; rewrite H0; apply list_elem_of_here. }
  destruct (seller_amount sess) as [share|]; cbn.
  2: { destruct (net env 0) eqn:H0; eexists; (split; [reflexivity|]);
         (split; [done|]); left; cbn; rewrite H0; apply list_elem_of_here. }
  destruct (net env 0) eqn:H0; cbn.
  2: { destruct (net env 1) eqn:H1; eexists; (split; [reflexivity|]);
         (split; [done|]); left; cbn; rewrite H1;
         apply list_elem_of_further, list_elem_of_here. }
  destruct Hcase as [Hrec|[?|[?|[?|[?|[?|?]]]]]]; try done.
  rewrite Hrec. cbn.
  destruct (net env 1) eqn:H1; cbn.
  - eexists. split; [reflexivity|]. split; [done|]. right.
    exists addr. split; [done|].
    apply list_elem_of_further, list_elem_of_here.
  - destruct (net env 2) eqn:H2; eexists; (split; [reflexivity|]);
      (split; [done|]); left; cbn; rewrite H2;
      do 2 apply list_elem_of_further; apply list_elem_of_here.
Qed.

(** The funding of user 7 is noticed but the wallet record is gone. *)
Lemma release_aborts_before_paying_witness :
  ∃ l,
    run (process_escrow_release Example.fee_wallet Scenario.env_funded 7
           Example.tid Example.session_funded)
      (on_wallets (delete Example.tid) Example.store_funded)
    = (Return tt, on_wallets (delete Example.tid) Example.store_funded, l)
    ∧ transfers l = [].
Proof.
  destruct (release_aborts_before_paying Example.fee_wallet
              Scenario.env_funded 7 Example.tid Example.session_funded
              (on_wallets (delete Example.tid) Example.store_funded))
    as (l & H1 & H2 & _); [by left|].
  by exists l.
Defined.

(** X17.  A release whose fee is zero (the fee of a small amount rounds to
    zero) never ends in the notice of a completed escrow: the fee transfer
    is refused before the network is used. *)
Theorem zero_fee_never_completes FEE_WALLET env user_id tid sess s fee :
  fee_amount sess = Some fee →
  PyFloat.leb fee PyFloat.zero = true →
  existsb is_completed_notice
    (run (process_escrow_release FEE_WALLET env user_id tid sess) s).2
  = false.
Proof.
  intros Hfee Hzero.
  assert (Hf : ∀ k rec, payment_ok env k rec FEE_WALLET fee = false).
  { intros k rec. unfold payment_ok. rewrite Hzero.
    by destruct (is_valid_ton_address FEE_WALLET). }
  unfold process_escrow_release, process_escrow_release_during, send_ton_payment, run. act_unfold.
  rewrite Hfee.
  destruct (amount sess) as [A|]; cbn;
    [|by destruct (net env 0)].
  destruct (seller_wallet sess) as [seller|]; cbn;
    [|by destruct (net env 0)].
  destruct (escrow_address sess) as [addr|]; cbn;
    [|by destruct (net env 0)].
  destruct (seller_amount sess) as [share|]; cbn;
    [|by destruct (net env 0)].
  destruct (net env 0); cbn; [|by destruct (net env 1)].
  destruct (escrow_wallets s !! tid) as [rec|]; cbn.
  - rewrite Hf, andb_false_r. cbn.
    destruct (payment_ok env 0 rec seller share); cbn;
      destruct (net env 1); cbn; try done; by destruct (net env 2).
  - destruct (net env 1); cbn; [done|]. by destruct (net env 2).
Qed.

(** An escrow of 0.000009 TON: the fee rounds to zero, so the seller is
    paid and the user is told of a partial success. *)
Lemma zero_fee_never_completes_witness :
  existsb is_completed_notice
    (run (process_escrow_release Example.fee_wallet Scenario.env_funded 7
            Example.tid Scenario.session_tiny) Scenario.store_tiny).2
  = false.
Proof.
  apply (zero_fee_never_completes Example.fee_wallet Scenario.env_funded 7
           Example.tid Scenario.session_tiny Scenario.store_tiny
           PyFloat.zero); reflexivity.
Defined.

(* ===================================================================== *)
(** * The monitor task: hand-over, notices and writes *)
(* ===================================================================== *)

Section Emits.
Variable p : Event → bool.

Lemma emits_ret {A} (x : A) : emits p (mret x).
Proof. intros s l. exists []. by rewrite app_nil_r. Qed.

Lemma emits_raise {A} : emits p (@raise A).
Proof. intros s l. exists []. by rewrite app_nil_r. Qed.

Lemma emits_bind {A B} (m : Act A) (k : A → Act B) :
  emits p m → (∀ x, emits p (k x)) → emits p (m ≫= k).
Proof.
  intros Hm Hk s l. unfold mbind, Act_bind.
  destruct (Hm s l) as (l1 & H1 & Hp1).
  destruct (m s l) as [[[x|] s'] l']; simpl in *; subst l'.
  - destruct (Hk x s' (l ++ l1)) as (l2 & H2 & Hp2).
    exists (l1 ++ l2). rewrite H2, <- app_assoc. split; [done|].
    by rewrite forallb_app, Hp1, Hp2.
  - by exists l1.
Qed.

Lemma emits_try {A} (body handler : Act A) :
  emits p body → emits p handler → emits p (try_except body handler).
Proof.
  intros Hb Hh s l. unfold try_except.
  destruct (Hb s l) as (l1 & H1 & Hp1).
  destruct (body s l) as [[[x|] s'] l']; simpl in *; subst l'.
  - by exists l1.
  - destruct (Hh s' (l ++ l1)) as (l2 & H2 & Hp2).
    exists (l1 ++ l2). rewrite H2, <- app_assoc. split; [done|].
    by rewrite forallb_app, Hp1, Hp2.
Qed.

Lemma emits_reply env u n :
  (∀ ok, p (Reply u n ok) = true) → emits p (reply env u n).
Proof.
  intros Hp s l. unfold reply. eexists. split; [reflexivity|].
  cbn. by rewrite Hp.
Qed.

(** What follows the read of an unbound name is never run. *)
Lemma emits_bind_raise {A B} (k : A → Act B) : emits p (raise ≫= k).
Proof. intros s l. exists []. by rewrite app_nil_r. Qed.

Lemma emits_awaiting {A} others (call : Act A) :
  emits p call → emits p (awaiting others call).
Proof.
  intros Hc s l. unfold awaiting. specialize (Hc s l).
  by destruct (call s l) as [[r s'] l'].
Qed.

Lemma emits_modify f : emits p (modify f).
Proof. intros s l. exists []. by rewrite app_nil_r. Qed.

Lemma emits_get_store : emits p get_store.
Proof. intros s l. exists []. by rewrite app_nil_r. Qed.

Lemma emits_item {A} (o : option A) : emits p (item o).
Proof. destruct o; [apply emits_ret|apply emits_raise]. Qed.

Lemma emits_send_ton_payment env w to a :
  (∀ ok, p (Transfer to a ok) = true) → emits p (send_ton_payment env w to a).
Proof.
  intros Hp s l. unfold send_ton_payment. eexists. split; [reflexivity|].
  cbn. by rewrite Hp.
Qed.
End Emits.

Ltac emits_step :=
  lazymatch goal with
  | |- emits _ (awaiting _ _) => apply emits_awaiting
  | |- emits _ (raise ≫= _) => apply emits_bind_raise
  | |- emits _ (_ ≫= _) => apply emits_bind; [|intros ?]
  | |- emits _ (try_except _ _) => apply emits_try
  | |- emits _ (reply _ _ _) =>
      apply emits_reply; intros ?; first [reflexivity|apply Z.eqb_refl]
  | |- emits _ (send_ton_payment _ _ _ _) =>
      apply emits_send_ton_payment; intros ?; reflexivity
  | |- emits _ (mret _) => apply emits_ret
  | |- emits _ raise => apply emits_raise
  | |- emits _ (modify _) => apply emits_modify
  | |- emits _ (update_session _ _) => apply emits_modify
  | |- emits _ (let _ := _ in _) => cbv zeta
  | |- emits _ get_store => apply emits_get_store
  | |- emits _ (item _) => apply emits_item
  | |- emits _ (match ?x with _ => _ end) => destruct x
  end.

(** A release sends no progress notice. *)
Lemma process_escrow_release_no_progress FEE_WALLET others env user_id tid
    sess :
  emits (λ e, negb (is_progress_notice e))
    (process_escrow_release_during FEE_WALLET others env user_id tid sess).
Proof. unfold process_escrow_release_during. repeat emits_step. Qed.

(** When nothing else runs during its [await]s, the release of a monitor
    task is the release on its own. *)
Lemma process_escrow_release_during_calm FEE_WALLET others env user_id tid
    sess s l :
  (∀ k s, others k s = s) →
  process_escrow_release_during FEE_WALLET others env user_id tid sess s l
  = process_escrow_release FEE_WALLET env user_id tid sess s l.
Proof.
  intros Hq.
  unfold process_escrow_release, process_escrow_release_during,
    send_ton_payment.
  act_unfold.
  destruct (amount sess) as [A|]; cbn; rewrite ?Hq;
    [|by destruct (net env _)].
  destruct (seller_wallet sess) as [seller|]; cbn; rewrite ?Hq;
    [|by destruct (net env _)].
  destruct (escrow_address sess) as [addr|]; cbn; rewrite ?Hq;
    [|by destruct (net env _)].
  destruct (fee_amount sess) as [fee|]; cbn; rewrite ?Hq;
    [|by destruct (net env _)].
  destruct (seller_amount sess) as [share|]; cbn; rewrite ?Hq;
    [|by destruct (net env _)].
  destruct (net env _); cbn; rewrite ?Hq;
    [|by destruct (net env _)].
  destruct (escrow_wallets s !! tid) as [rec|]; cbn; rewrite ?Hq.
  - destruct (payment_ok env _ rec seller share),
      (payment_ok env _ rec FEE_WALLET fee); cbn; rewrite ?Hq;
      destruct (net env _); cbn; rewrite ?Hq; try done;
      by destruct (net env _).
  - destruct (net env _); cbn; rewrite ?Hq; [done|].
    by destruct (net env _).
Qed.

(** A release that starts after the balance check of an awakening behaves
    as at the start of an activation: the check is neither a Bot API call
    nor a transfer. *)
Lemma process_escrow_release_after_check FEE_WALLET env user_id tid sess s a :
  process_escrow_release FEE_WALLET env user_id tid sess s [BalanceCheck a]
  = let '(r, s', l') :=
      run (process_escrow_release FEE_WALLET env user_id tid sess) s in
    (r, s', BalanceCheck a :: l').
Proof.
  unfold process_escrow_release, process_escrow_release_during, send_ton_payment, run. act_unfold.
  destruct (amount sess) as [A|]; cbn;
    [|by destruct (net env 0)].
  destruct (seller_wallet sess) as [seller|]; cbn;
    [|by destruct (net env 0)].
  destruct (escrow_address sess) as [addr|]; cbn;
    [|by destruct (net env 0)].
  destruct (fee_amount sess) as [fee|]; cbn;
    [|by destruct (net env 0)].
  destruct (seller_amount sess) as [share|]; cbn;
    [|by destruct (net env 0)].
  destruct (net env 0); cbn; [|by destruct (net env 1)].
  destruct (escrow_wallets s !! tid) as [rec|]; cbn.
  - destruct (payment_ok env 0 rec seller share),
      (payment_ok env 1 rec FEE_WALLET fee); cbn;
      destruct (net env 1); cbn; try done; by destruct (net env 2).
  - destruct (net env 1); cbn; [done|]. by destruct (net env 2).
Qed.

(** What a release writes: nothing, or the deletion of the session of the
    user and of the wallet record of the transaction. *)
Lemma process_escrow_release_writes FEE_WALLET env user_id tid sess s :
  let s' := (run (process_escrow_release FEE_WALLET env user_id tid sess) s).1.2 in
  s' = s ∨ s' = on_wallets (delete tid) (on_sessions (delete user_id) s).
Proof.
  unfold process_escrow_release, process_escrow_release_during, send_ton_payment, run. act_unfold.
  destruct (amount sess) as [A|]; cbn;
    [|destruct (net env 0); by left].
  destruct (seller_wallet sess) as [seller|]; cbn;
    [|destruct (net env 0); by left].
  destruct (escrow_address sess) as [addr|]; cbn;
    [|destruct (net env 0); by left].
  destruct (fee_amount sess) as [fee|]; cbn;
    [|destruct (net env 0); by left].
  destruct (seller_amount sess) as [share|]; cbn;
    [|destruct (net env 0); by left].
  destruct (net env 0); cbn; [|destruct (net env 1); by left].
  destruct (escrow_wallets s !! tid) as [rec|]; cbn.
  - destruct (payment_ok env 0 rec seller share),
      (payment_ok env 1 rec FEE_WALLET fee); cbn;
      destruct (net env 1); cbn; try (by right);
      destruct (net env 2); by left.
  - destruct (net env 1); cbn; [by left|]. destruct (net env 2); by left.
Qed.

(** The awakening that finds the escrow funded, when nothing else runs
    during it. *)
Lemma monitor_wake_funded FEE_WALLET env m s sess addr A :
  calm env →
  check_count m < max_checks →
  user_sessions s !! m_user_id m = Some sess →
  session_is_own (Some sess) (m_transaction_id m) = true →
  escrow_address sess = Some addr →
  amount sess = Some A →
  PyFloat.leb A (reported_balance env addr) = true →
  run (monitor_wake FEE_WALLET env m) s
  = let '(_, s', l') :=
      run (process_escrow_release FEE_WALLET env (m_user_id m)
             (m_transaction_id m) sess) s in
    (Return Ended, s', BalanceCheck addr :: l').
Proof.
  intros Hq Hc Hs Hown Haddr HA Hfund. apply Z.ltb_lt in Hc.
  unfold monitor_wake, run, get_wallet_balance. rewrite Hc. act_unfold.
  cbn. rewrite Hs. cbn. rewrite Hown, Haddr, HA. cbn. rewrite Hfund.
  rewrite Hq, (process_escrow_release_during_calm _ _ _ _ _ _ _ _ Hq).
  rewrite process_escrow_release_after_check. unfold run.
  pose proof (process_escrow_release_returns FEE_WALLET env (m_user_id m)
                (m_transaction_id m) sess s []) as [x Hx].
  destruct (process_escrow_release _ _ _ _ _ _ _) as [[r s'] l'].
  simpl in Hx. by subst r.
Qed.

(** X18.  The way of a funded escrow through the monitor: when a poll finds
    the session of the task in place and a reported balance that is not
    below the expected amount, the Bot API calls and the two transfers go
    through, and nothing else runs during the poll, the task makes one
    balance check, pays the share to the seller and the fee to the fee
    wallet, tells the user that the escrow is completed, deletes the
    session and the wallet record, and ends; the awakenings that follow do
    nothing. *)
Theorem funded_escrow_is_released FEE_WALLET others env rest m s sess
    A seller addr fee share rec :
  calm env →
  check_count m < max_checks →
  user_sessions (others s) !! m_user_id m = Some sess →
  session_is_own (Some sess) (m_transaction_id m) = true →
  amount sess = Some A →
  seller_wallet sess = Some seller →
  escrow_address sess = Some addr →
  fee_amount sess = Some fee →
  seller_amount sess = Some share →
  escrow_wallets (others s) !! m_transaction_id m = Some rec →
  PyFloat.leb A (reported_balance env addr) = true →
  net env 0 = true →
  net env 1 = true →
  payment_ok env 0 rec seller share = true →
  payment_ok env 1 rec FEE_WALLET fee = true →
  monitor_payment FEE_WALLET ((others, env) :: rest) (Sleeping m) s
  = (Ended,
     {| user_sessions := delete (m_user_id m) (user_sessions (others s));
        escrow_wallets :=
          delete (m_transaction_id m) (escrow_wallets (others s)) |},
     [BalanceCheck addr;
      Reply (m_user_id m) ProcessingTransfers true;
      Transfer seller share true;
      Transfer FEE_WALLET fee true;
      Reply (m_user_id m) (EscrowCompleted A share fee seller addr) true]).
Proof.
  intros Hq Hc Hs Hown HA Hseller Haddr Hfee Hshare Hrec Hfund H0 H1 Hps Hpf.
  cbn [monitor_payment].
  rewrite (monitor_wake_funded _ _ _ _ _ _ _ Hq Hc Hs Hown Haddr HA Hfund).
  rewrite (process_escrow_release_eval _ _ _ _ _ _ _ _ _ _ _ _
             HA Hseller Haddr Hfee Hshare Hrec H0).
  cbn zeta. rewrite Hps, Hpf, H1. cbn [andb].
  by rewrite monitor_payment_ended.
Qed.

(** The first poll of the task of user 7 finds 1.5 TON at the escrow
    address. *)
Lemma funded_escrow_is_released_witness :
  monitor_payment Example.fee_wallet [(id, Scenario.env_funded)]
    (Sleeping (new_monitor 7 Example.tid)) Example.store_funded
  = (Ended,
     {| user_sessions := delete 7 (user_sessions Example.store_funded);
        escrow_wallets :=
          delete Example.tid (escrow_wallets Example.store_funded) |},
     [BalanceCheck Example.escrow;
      Reply 7 ProcessingTransfers true;
      Transfer Example.seller Example.share_1425 true;
      Transfer Example.fee_wallet Example.fee_075 true;
      Reply 7 (EscrowCompleted Example.one_and_a_half Example.share_1425
                 Example.fee_075 Example.seller Example.escrow) true]).
Proof.
  apply (funded_escrow_is_released Example.fee_wallet id Scenario.env_funded
           [] (new_monitor 7 Example.tid) Example.store_funded
           Example.session_funded Example.one_and_a_half Example.seller
           Example.escrow Example.fee_075 Example.share_1425 Example.record);
    first [reflexivity|intros k s; reflexivity].
Defined.

(** X19.  All an awakening of the monitor ever writes is the deletion of
    the task's own session and wallet record, and it writes that only in a
    poll that found the session in place and a reported balance that is not
    below the expected amount; in particular a timeout deletes nothing.
    (With nothing else running during the awakening, the dictionaries after
    it show the writes of the task alone.) *)
Theorem monitor_only_deletes_own_entries FEE_WALLET env m s :
  calm env →
  let s' := (run (monitor_wake FEE_WALLET env m) s).1.2 in
  s' = s
  ∨ (s' = {| user_sessions := delete (m_user_id m) (user_sessions s);
             escrow_wallets := delete (m_transaction_id m) (escrow_wallets s) |}
     ∧ check_count m < max_checks
     ∧ ∃ sess addr A,
         user_sessions s !! m_user_id m = Some sess
         ∧ session_is_own (Some sess) (m_transaction_id m) = true
         ∧ escrow_address sess = Some addr
         ∧ amount sess = Some A
         ∧ PyFloat.leb A (reported_balance env addr) = true).
Proof.
  intros Hq. cbn zeta.
  destruct (check_count m <? max_checks) eqn:Hc.
  2: { left. unfold monitor_wake, run. rewrite Hc.
       destruct (handle_timeout_spec env m s []) as (s' & l' & -> & _ & Hs').
       by apply Hs'. }
  destruct (user_sessions s !! m_user_id m) as [sess|] eqn:Hs.
  2: { left. unfold monitor_wake, run. rewrite Hc. act_unfold. cbn.
       by rewrite Hs. }
  destruct (session_is_own (Some sess) (m_transaction_id m)) eqn:Hown.
  2: { left. rewrite monitor_wake_invalid; [done|by rewrite Hs]. }
  destruct (escrow_address sess) as [addr|] eqn:Haddr.
  2: { left. unfold monitor_wake, run. rewrite Hc. act_unfold. cbn.
       rewrite Hs. cbn. by rewrite Hown, Haddr. }
  destruct (amount sess) as [A|] eqn:HA.
  2: { left. unfold monitor_wake, run. rewrite Hc. act_unfold. cbn.
       rewrite Hs. cbn. by rewrite Hown, Haddr, HA. }
  apply Z.ltb_lt in Hc.
  destruct (PyFloat.leb A (reported_balance env addr)) eqn:Hfund.
  - rewrite (monitor_wake_funded _ _ _ _ _ _ _ Hq Hc Hs Hown Haddr HA Hfund).
    pose proof (process_escrow_release_writes FEE_WALLET env (m_user_id m)
                  (m_transaction_id m) sess s) as Hw.
    destruct (run (process_escrow_release _ _ _ _ _) s) as [[r s'] l'].
    cbn in *. destruct Hw as [->| ->]; [by left|right].
    split; [done|]. split; [done|]. by exists sess, addr, A.
  - left.
    destruct (monitor_wake_unfunded FEE_WALLET env m s sess addr A
                Hc Hs Hown Haddr HA Hfund)
      as (m' & s' & l & -> & _ & _ & _ & _ & Hs' & _).
    by apply Hs'.
Qed.

(** The first poll of the task of user 7 finds 1.5 TON at the escrow
    address: the session of user 7 and the wallet record are deleted. *)
Lemma monitor_only_deletes_own_entries_witness :
  let s' := (run (monitor_wake Example.fee_wallet Scenario.env_funded
                    (new_monitor 7 Example.tid)) Example.store_funded).1.2 in
  s' = Example.store_funded
  ∨ (s' = {| user_sessions := delete 7 (user_sessions Example.store_funded);
             escrow_wallets :=
               delete Example.tid (escrow_wallets Example.store_funded) |}
     ∧ check_count (new_monitor 7 Example.tid) < max_checks
     ∧ ∃ sess addr A,
         user_sessions Example.store_funded !! 7 = Some sess
         ∧ session_is_own (Some sess) Example.tid = true
         ∧ escrow_address sess = Some addr
         ∧ amount sess = Some A
         ∧ PyFloat.leb A (reported_balance Scenario.env_funded addr) = true).
Proof.
  apply (monitor_only_deletes_own_entries Example.fee_wallet
           Scenario.env_funded (new_monitor 7 Example.tid)
           Example.store_funded).
  intros k s. reflexivity.
Defined.

(** X20.  An exception inside a poll is logged and not counted: the task
    sleeps and polls again with the same check count.  So a task whose
    session is in place but lacks the escrow address or the amount never
    ends: however long it runs it stays asleep at its check count, makes no
    balance check and sends neither a progress notice nor the timeout
    notice. *)
Theorem poll_error_is_not_counted FEE_WALLET schedule : ∀ m s sess,
  check_count m < max_checks →
  Forall (λ '(others, env),
            undisturbed (m_user_id m) (m_transaction_id m) others) schedule →
  user_sessions s !! m_user_id m = Some sess →
  session_is_own (Some sess) (m_transaction_id m) = true →
  escrow_address sess = None ∨ amount sess = None →
  ∃ s', monitor_payment FEE_WALLET schedule (Sleeping m) s
        = (Sleeping m, s', [])
        ∧ user_sessions s' !! m_user_id m = Some sess.
Proof.
  induction schedule as [|[others env] schedule IH];
    intros m s sess Hc Hall Hs Hown Hmiss.
  - by exists s.
  - inversion Hall as [|? ? Hhead Hall']; subst. cbn in Hhead.
    destruct (Hhead s) as [Hu _].
    assert (Hwake : run (monitor_wake FEE_WALLET env m) (others s)
                    = (Return (Sleeping m), others s, [])).
    { unfold monitor_wake, run.
      replace (check_count m <? max_checks) with true
        by (symmetry; by apply Z.ltb_lt).
      act_unfold. cbn. rewrite Hu, Hs. cbn. rewrite Hown. cbn.
      destruct (escrow_address sess) as [addr|]; [|done].
      destruct Hmiss as [?|HA]; [done|]. by rewrite HA. }
    destruct (IH m (others s) sess Hc Hall') as (s' & Hrun & Hs');
      [by rewrite Hu|done..|].
    cbn [monitor_payment]. rewrite Hwake, Hrun. by exists s'.
Qed.

(** The session of user 7 has lost its escrow address: three awakenings
    later the task is where it was. *)
Lemma poll_error_is_not_counted_witness :
  ∃ s', monitor_payment Example.fee_wallet
          [(id, Example.env); (id, Example.env); (id, Example.env)]
          (Sleeping (new_monitor 7 Example.tid)) Scenario.store_bare
        = (Sleeping (new_monitor 7 Example.tid), s', [])
        ∧ user_sessions s' !! 7 = Some Scenario.session_bare.
Proof.
  apply (poll_error_is_not_counted Example.fee_wallet
           [(id, Example.env); (id, Example.env); (id, Example.env)]
           (new_monitor 7 Example.tid) Scenario.store_bare
           Scenario.session_bare).
  - reflexivity.
  - repeat constructor.
  - reflexivity.
  - reflexivity.
  - by left.
Defined.

Arguments progress_ahead : simpl never.

Lemma progress_notices_app l1 l2 :
  progress_notices (l1 ++ l2)
  = (progress_notices l1 + progress_notices l2)%nat.
Proof. unfold progress_notices. by rewrite List.filter_app, length_app. Qed.

Lemma no_progress_notices l :
  forallb (λ e, negb (is_progress_notice e)) l = true →
  progress_notices l = 0%nat.
Proof.
  unfold progress_notices. induction l as [|e l IH]; [done|].
  cbn. destruct (is_progress_notice e); [done|]. exact IH.
Qed.

(** A poll moves the task past a progress check when it is at one, and
    never back before one. *)
Lemma progress_ahead_step m m' :
  check_count m' = check_count m + 1 →
  (progress_ahead (Sleeping m')
   + (if bool_decide (check_count m ∈ progress_checks) then 1 else 0)
   ≤ progress_ahead (Sleeping m))%nat.
Proof.
  unfold progress_ahead, progress_checks. intros ->.
  generalize (check_count m). intros c. case_bool_decide as Hin.
  - repeat (apply elem_of_cons in Hin as [->|Hin]; [vm_compute; lia|]).
    by apply elem_of_nil in Hin.
  - cbn [List.filter].
    repeat match goal with
           | |- context [?a <=? ?b] => destruct (Z.leb_spec a b)
           end; cbn [length]; lia.
Qed.

Lemma progress_ahead_bound t : (progress_ahead t ≤ 5)%nat.
Proof.
  destruct t as [m|]; unfold progress_ahead; [|lia].
  unfold progress_checks. cbn [List.filter].
  repeat match goal with
         | |- context [?a <=? ?b] => destruct (a <=? b)
         end; cbn [length]; lia.
Qed.

Ltac progress_arith :=
  unfold progress_notices, progress_ahead in *;
  cbn [List.filter is_progress_notice length check_count] in *; lia.

(** One awakening: the progress notices it sends come out of what is still
    ahead of the task, and each carries a check count of the list. *)
Lemma monitor_wake_progress FEE_WALLET env m s :
  ∃ t s' l,
    run (monitor_wake FEE_WALLET env m) s = (Return t, s', l)
    ∧ (progress_notices l + progress_ahead t
       ≤ progress_ahead (Sleeping m))%nat
    ∧ ∀ user_id A b addr k ok,
        Reply user_id (MonitoringActive A b addr k) ok ∈ l →
        k ∈ progress_checks.
Proof.
  destruct (check_count m <? max_checks) eqn:Hc.
  2: { unfold monitor_wake, handle_timeout, run. rewrite Hc. act_unfold.
       destruct (max_checks <=? check_count m); cbn;
         [destruct (session_is_own _ _); cbn; [destruct (net env 0); cbn|]|];
         do 3 eexists; (split; [reflexivity|]);
         (split; [progress_arith|]); intros ?????? Hin;
         repeat (apply elem_of_cons in Hin as [?|Hin]; [done|]);
         by apply elem_of_nil in Hin. }
  destruct (user_sessions s !! m_user_id m) as [sess|] eqn:Hs.
  2: { rewrite monitor_wake_invalid; [|by rewrite Hs].
       do 3 eexists. split; [reflexivity|]. split; [progress_arith|].
       intros ?????? Hin. by apply elem_of_nil in Hin. }
  destruct (session_is_own (Some sess) (m_transaction_id m)) eqn:Hown.
  2: { rewrite monitor_wake_invalid; [|by rewrite Hs].
       do 3 eexists. split; [reflexivity|]. split; [progress_arith|].
       intros ?????? Hin. by apply elem_of_nil in Hin. }
  destruct (escrow_address sess) as [addr|] eqn:Haddr.
  2: { unfold monitor_wake, run. rewrite Hc. act_unfold. cbn.
       rewrite Hs. cbn. rewrite Hown, Haddr. cbn.
       do 3 eexists. split; [reflexivity|]. split; [progress_arith|].
       intros ?????? Hin. by apply elem_of_nil in Hin. }
  destruct (amount sess) as [A|] eqn:HA.
  2: { unfold monitor_wake, run. rewrite Hc. act_unfold. cbn.
       rewrite Hs. cbn. rewrite Hown, Haddr, HA. cbn.
       do 3 eexists. split; [reflexivity|]. split; [progress_arith|].
       intros ?????? Hin. by apply elem_of_nil in Hin. }
  destruct (PyFloat.leb A (reported_balance env addr)) eqn:Hfund.
  - unfold monitor_wake, run, get_wallet_balance. rewrite Hc. act_unfold.
    cbn. rewrite Hs. cbn. rewrite Hown, Haddr, HA. cbn. rewrite Hfund.
    destruct (process_escrow_release_no_progress FEE_WALLET (meanwhile env)
                env (m_user_id m) (m_transaction_id m) sess
                (meanwhile env 0 s) [BalanceCheck addr]) as (l' & Hl' & Hp).
    destruct (process_escrow_release_during_returns FEE_WALLET (meanwhile env)
                env (m_user_id m) (m_transaction_id m) sess
                (meanwhile env 0 s) [BalanceCheck addr]) as [x Hx].
    destruct (process_escrow_release_during _ _ _ _ _ _ _ _)
      as [[r s'] l0].
    cbn in Hl', Hx. subst l0 r. do 3 eexists. split; [reflexivity|].
    split.
    + change (BalanceCheck addr :: l') with ([BalanceCheck addr] ++ l').
      rewrite progress_notices_app, (no_progress_notices _ Hp).
      progress_arith.
    + intros ?????? Hin. apply elem_of_cons in Hin as [?|Hin]; [done|].
      rewrite forallb_forall in Hp.
      apply list_elem_of_In, Hp in Hin. done.
  - unfold monitor_wake, run, get_wallet_balance. rewrite Hc. act_unfold.
    cbn. rewrite Hs. cbn. rewrite Hown, Haddr, HA. cbn. rewrite Hfund.
    fold progress_checks.
    match goal with
    | |- context [Sleeping ?m'] =>
        pose proof (progress_ahead_step m m' eq_refl) as Hstep
    end.
    destruct (bool_decide (check_count m ∈ progress_checks)) eqn:Hin; cbn;
      cbv iota in Hstep.
    + apply bool_decide_eq_true in Hin.
      destruct (net env 0); cbn; do 3 eexists; (split; [reflexivity|]);
        (split; [progress_arith|]);
        intros ?????? Hel;
        apply elem_of_cons in Hel as [?|Hel]; try done;
        apply elem_of_cons in Hel as [Heq|Hel];
        [by injection Heq as -> -> -> -> ->|by apply elem_of_nil in Hel
        |by injection Heq as -> -> -> -> ->|by apply elem_of_nil in Hel].
    + do 3 eexists. split; [reflexivity|].
      split; [progress_arith|].
      intros ?????? Hel. apply elem_of_cons in Hel as [?|Hel]; [done|].
      by apply elem_of_nil in Hel.
Qed.

(** X21.  However a monitor task is interleaved with the rest of the
    program and whatever the outside world answers, it sends no more
    progress notices than check counts of the list 1, 5, 10, 20, 40 are
    still ahead of it, so never more than five, and each notice it sends
    carries a check count of that list: the first poll (count 0) sends
    none. *)
Theorem progress_notices_are_bounded FEE_WALLET schedule : ∀ t s,
  let l := (monitor_payment FEE_WALLET schedule t s).2 in
  (progress_notices l ≤ progress_ahead t ≤ 5)%nat
  ∧ ∀ user_id A b addr k ok,
      Reply user_id (MonitoringActive A b addr k) ok ∈ l →
      k ∈ progress_checks.
Proof.
  induction schedule as [|[others env] schedule IH]; intros t s; cbn zeta.
  - split; [split; [|apply progress_ahead_bound]|].
    + destruct t; cbn [monitor_payment snd]; progress_arith.
    + intros ?????? Hin. destruct t; by apply elem_of_nil in Hin.
  - destruct t as [m|].
    2: { cbn [monitor_payment snd].
         split; [split; [progress_arith|apply progress_ahead_bound]|].
         intros ?????? Hin. by apply elem_of_nil in Hin. }
    cbn [monitor_payment].
    destruct (monitor_wake_progress FEE_WALLET env m (others s))
      as (t1 & s1 & l1 & -> & Hb & Hk).
    specialize (IH t1 s1). cbn zeta in IH.
    destruct (monitor_payment FEE_WALLET schedule t1 s1) as [[t2 s2] l2].
    cbn [snd] in *. destruct IH as [[IHn _] IHk].
    split; [split; [|apply progress_ahead_bound]|].
    + rewrite progress_notices_app. lia.
    + intros ?????? [Hin|Hin]%elem_of_app; eauto.
Qed.

Lemma generate_escrow_wallet_emits p env : emits p (generate_escrow_wallet env).
Proof. unfold generate_escrow_wallet. repeat emits_step. Qed.

Lemma dispatch_emits float_of_text FEE_WALLET env u :
  emits (is_reply_to (sender u)) (dispatch float_of_text FEE_WALLET env u).
Proof.
  destruct u; cbn [dispatch sender].
  - unfold start_handler. repeat emits_step.
  - unfold menu_handler. repeat emits_step.
  - unfold how_it_works_handler. repeat emits_step.
  - unfold escrow_entry. repeat emits_step.
  - unfold handle_text_messages, handle_seller_wallet_input,
      handle_amount_input, handle_amount_input_user_id.
    repeat emits_step. apply generate_escrow_wallet_emits.
Qed.

(** X24.  All that handling an update does to the outside world is to call
    the Bot API in answer to that update (a call the log files under the
    user the update comes from): no handler calls the Bot API for another
    user, asks for a balance, makes a transfer or creates a task, whatever
    the dictionaries hold and whatever the outside world answers. *)
Theorem handlers_only_answer_the_sender float_of_text FEE_WALLET env u s :
  forallb (is_reply_to (sender u))
    (run (dispatch float_of_text FEE_WALLET env u) s).2 = true.
Proof.
  destruct (dispatch_emits float_of_text FEE_WALLET env u s [])
    as (l & Hl & Hp).
  unfold run. by rewrite Hl.
Qed.

(** X26.  The task reads the session once, at the top of the poll, and
    does not look at [user_sessions] again before it pays.  When the poll
    found the session in place and the balance query shows the escrow
    funded, then, whatever the rest of the program does to the sessions
    while the task waits (the user may send [/start], or start another
    escrow), the release goes on with the values the task has read, as long
    as the wallet record is still there when the release looks for it: the
    two transfers are made.  And once the outcome notice is sent, the
    clean-up deletes what is then under the user's id, also a session the
    user has started in the meantime. *)
Theorem release_goes_on_after_session_change FEE_WALLET env m s sess
    A seller addr fee share rec :
  check_count m < max_checks →
  user_sessions s !! m_user_id m = Some sess →
  session_is_own (Some sess) (m_transaction_id m) = true →
  amount sess = Some A →
  seller_wallet sess = Some seller →
  escrow_address sess = Some addr →
  fee_amount sess = Some fee →
  seller_amount sess = Some share →
  PyFloat.leb A (reported_balance env addr) = true →
  net env 0 = true →
  escrow_wallets (meanwhile env 1 (meanwhile env 0 s)) !! m_transaction_id m
  = Some rec →
  ∃ s' l,
    run (monitor_wake FEE_WALLET env m) s = (Return Ended, s', l)
    ∧ transfers l
      = [Transfer seller share (payment_ok env 0 rec seller share);
         Transfer FEE_WALLET fee (payment_ok env 1 rec FEE_WALLET fee)]
    ∧ (net env 1 = true →
       user_sessions s' !! m_user_id m = None
       ∧ escrow_wallets s' !! m_transaction_id m = None).
Proof.
  intros Hc Hs Hown HA Hseller Haddr Hfee Hshare Hfund H0 Hrec.
  apply Z.ltb_lt in Hc.
  unfold monitor_wake, run, get_wallet_balance, process_escrow_release_during,
    send_ton_payment.
  rewrite Hc. act_unfold. cbn. rewrite Hs. cbn.
  rewrite Hown, Haddr, HA, Hseller, Hfee, Hshare. cbn. rewrite Hfund. cbn.
  rewrite H0. cbn. rewrite Hrec. cbn.
  destruct (payment_ok env 0 rec seller share),
    (payment_ok env 1 rec FEE_WALLET fee); cbn;
    destruct (net env 1) eqn:H1; cbn;
    try (destruct (net env 2); cbn);
    do 2 eexists; (split; [reflexivity|]); (split; [reflexivity|]);
    intros [=]; cbn; by rewrite !lookup_delete_eq.
Qed.

(** The [/start] of user 7 is handled while the task waits for the balance
    of the funded escrow. *)
Lemma release_goes_on_after_session_change_witness :
  ∃ s' l,
    run (monitor_wake Example.fee_wallet Scenario.env_start_during_poll
           (new_monitor 7 Example.tid)) Example.store_funded
    = (Return Ended, s', l)
    ∧ transfers l
      = [Transfer Example.seller Example.share_1425 true;
         Transfer Example.fee_wallet Example.fee_075 true]
    ∧ (true = true →
       user_sessions s' !! 7 = None
       ∧ escrow_wallets s' !! Example.tid = None).
Proof.
  apply (release_goes_on_after_session_change Example.fee_wallet
           Scenario.env_start_during_poll (new_monitor 7 Example.tid)
           Example.store_funded Example.session_funded
           Example.one_and_a_half Example.seller Example.escrow
           Example.fee_075 Example.share_1425 Example.record);
    reflexivity.
Defined.

(* ===================================================================== *)
(** * Transaction ids and the start of the process *)
(* ===================================================================== *)

Lemma py_inj s1 s2 : py s1 = py s2 → s1 = s2.
Proof.
  unfold py. intros H.
  rewrite <- (string_of_list_ascii_of_string s1),
    <- (string_of_list_ascii_of_string s2). f_equal.
  revert H. generalize (list_ascii_of_string s1) (list_ascii_of_string s2).
  induction l as [|a l IH]; intros [|b l']; cbn; try done.
  intros [= Hab Hl]. f_equal; [|by apply IH].
  by rewrite <- (ascii_N_embedding a), <- (ascii_N_embedding b), Hab.
Qed.

Lemma str_of_int_inj z1 z2 : str_of_int z1 = str_of_int z2 → z1 = z2.
Proof.
  unfold str_of_int. intros H%py_inj.
  apply DecimalZ.to_int_inj.
  assert (Hnn : ∀ z, Z.to_int z ≠ Decimal.Pos Decimal.Nil
                     ∧ Z.to_int z ≠ Decimal.Neg Decimal.Nil).
  { intros [|p|p]; cbn; split; try done; intros [= E];
      by apply DecimalPos.Unsigned.to_uint_nonnil in E. }
  destruct (Hnn z1) as [Hp1 Hn1], (Hnn z2) as [Hp2 Hn2].
  pose proof (NilZero.isi _ Hp1 Hn1) as E1.
  pose proof (NilZero.isi _ Hp2 Hn2) as E2.
  rewrite H in E1. rewrite E1 in E2. by injection E2.
Qed.

(** The decimal form of an integer holds no underscore. *)
Lemma str_of_int_no_underscore z : 95%N ∉ str_of_int z.
Proof.
  assert (Hu : ∀ d, 95%N ∉ py (NilEmpty.string_of_uint d)).
  { induction d; cbn; [apply not_elem_of_nil|..];
      (apply not_elem_of_cons; split; [done|exact IHd]). }
  assert (Hz : ∀ d, 95%N ∉ py (NilZero.string_of_uint d)).
  { intros d. destruct d;
      [apply not_elem_of_cons; split; [done|apply not_elem_of_nil]
      |unfold NilZero.string_of_uint; apply Hu..]. }
  unfold str_of_int. destruct (Z.to_int z) as [d|d]; cbn [NilZero.string_of_int].
  - apply Hz.
  - change (py (String "-" (NilZero.string_of_uint d)))
      with (45%N :: py (NilZero.string_of_uint d)).
    apply not_elem_of_cons. split; [done|apply Hz].
Qed.

Lemma app_pivot_inj {A} (x : A) l1 r1 l2 r2 :
  x ∉ l1 → x ∉ l2 → l1 ++ x :: r1 = l2 ++ x :: r2 → l1 = l2 ∧ r1 = r2.
Proof.
  revert l2. induction l1 as [|a l1 IH]; intros [|b l2] H1 H2 E; cbn in E.
  - by injection E.
  - injection E as -> _. exfalso. apply H2, list_elem_of_here.
  - injection E as -> _. exfalso. apply H1, list_elem_of_here.
  - injection E as -> E. apply not_elem_of_cons in H1 as [_ H1].
    apply not_elem_of_cons in H2 as [_ H2].
    destruct (IH l2 H1 H2 E) as [-> ->]. done.
Qed.

(** X22.  The transaction id names the user and the second: two ids are
    the same text exactly when they are made from the same user id and the
    same Unix time.  So one user gets one id per second, and ids made in
    the same second for different users differ. *)
Theorem format_transaction_id_inj user_id1 time1 user_id2 time2 :
  format_transaction_id user_id1 time1 = format_transaction_id user_id2 time2
  ↔ user_id1 = user_id2 ∧ time1 = time2.
Proof.
  split; [|by intros [-> ->]].
  unfold format_transaction_id. change (py "_") with [95%N]. cbn [app].
  intros E.
  apply app_pivot_inj in E as [E1 E2];
    [|apply str_of_int_no_underscore..].
  split; by apply str_of_int_inj.
Qed.

(** X23.  [main] never raises and writes nothing.  It reaches the start of
    polling exactly when the pytoniq libraries are there, the configured
    fee wallet passes the address validator, and the wallet provider
    yields a test wallet whose address passes the validator; the balance of
    the fee wallet is then asked for once, and whatever the answer, polling
    starts. *)
Theorem main_reaches_polling pytoniq_available FEE_WALLET env s :
  ∃ started : bool,
    run (main pytoniq_available FEE_WALLET env) s
    = (Return started, s, if started then [BalanceCheck FEE_WALLET] else [])
    ∧ (started = true
       ↔ pytoniq_available = true
         ∧ is_valid_ton_address FEE_WALLET = true
         ∧ ∃ address_str private_key_hex,
             new_wallet env = Some (address_str, private_key_hex)
             ∧ is_valid_ton_address address_str = true).
Proof.
  unfold main, generate_escrow_wallet, get_wallet_balance, run.
  destruct pytoniq_available; cbn [negb].
  2: { exists false. split; [done|]. split; [done|]. by intros [? _]. }
  destruct (is_valid_ton_address FEE_WALLET) eqn:Hfee; cbn [negb].
  2: { exists false. split; [done|]. split; [done|]. by intros (_ & ? & _). }
  act_unfold.
  destruct (new_wallet env) as [[a k]|]; cbn.
  2: { exists false. split; [done|]. split; [done|].
       by intros (_ & _ & ? & ? & ? & _). }
  destruct (is_valid_ton_address a) eqn:Ha.
  - destruct a as [|c a].
    { by vm_compute in Ha. }
    cbn. exists true. split; [done|]. split; [|done].
    intros _. split; [done|]. split; [done|]. by exists (c :: a), k.
  - rewrite orb_true_r. cbn. exists false. split; [done|]. split; [done|].
    intros (_ & _ & a' & k' & [= <- <-] & Ha'). congruence.
Qed.
